(** * Automated_Analysis: the JSON-to-PDF report pipeline

    A shallow embedding of [automation/report_generator.py] and the
    properties of its loader, column classifier, page renderers and report
    assembler.

    Layout of the development:
    - [Py]: the Python values produced by [json.load], and the string,
      [pathlib] and [datetime] operations the generator calls;
    - [Pandas]: the part of the data-table library the generator calls
      ([DataFrame.from_records], [select_dtypes], [dropna], [value_counts],
      [head]), and the calls whose result the generator takes as it comes
      (the sort of [value_counts], the plotting calls of seaborn and the
      drawing of a page by matplotlib, each of which returns or raises);
    - [ReportGenerator]: the functions of [report_generator.py], in a state
      and exception monad over the file system and the clock;
    - [GuiApp]: the window of [gui_app.py] as a state machine;
    - the lemmas and theorems. *)

From Stdlib Require Import ZArith Ascii String.
From stdpp Require Import base list strings gmap sorting pretty.

Local Open Scope string_scope.
Local Open Scope nat_scope.
Local Open Scope list_scope.
Set Warnings "-register-all,-clear-no-such-hyp".

(** ** Python values and built-ins *)
Module Py.

(** A Python [float] as [json.load] yields it.  Only the distinction
    between [nan], the infinities and finite literals matters here; a
    finite literal is kept as written, [mantissa * 10 ^ exponent]. *)
Inductive pyfloat :=
| FNaN
| FInf (negative : bool)
| FFinite (mantissa exponent : Z).

(** The objects [json.load] builds: [None], [bool], [int], [float], [str],
    [list] and [dict].  A [dict] keeps its keys in insertion order. *)
Inductive value :=
| VNone
| VBool (b : bool)
| VInt (z : Z)
| VFloat (f : pyfloat)
| VStr (s : string)
| VList (items : list value)
| VDict (items : list (string * value)).

Definition NaN : value := VFloat FNaN.

(** [key in d] and [d[key]] on an insertion-ordered dictionary. *)
Fixpoint dict_get (key : string) (d : list (string * value)) : option value :=
  match d with
  | [] => None
  | (k, v) :: rest => if decide (k = key) then Some v else dict_get key rest
  end.

Definition dict_keys (d : list (string * value)) : list string := d.*1.

(** *** [str] methods (on ASCII text)

    Text is modelled as a sequence of characters below 128.  On such text
    Python's cased characters are the letters A-Z and a-z and every case
    mapping is one character for one character; for other characters
    [str.title] has mappings that are not modelled here (some change the
    length), and statements that depend on the case mapping are made for
    ASCII text. *)

Definition is_ascii (c : ascii) : bool := nat_of_ascii c <? 128.

Definition ascii_text (s : string) : Prop :=
  Forall (λ c, is_ascii c = true) (list_ascii_of_string s).

Definition is_upper (c : ascii) : bool :=
  (65 <=? nat_of_ascii c) && (nat_of_ascii c <=? 90).

Definition is_lower (c : ascii) : bool :=
  (97 <=? nat_of_ascii c) && (nat_of_ascii c <=? 122).

Definition is_cased (c : ascii) : bool := is_upper c || is_lower c.

Definition to_upper (c : ascii) : ascii :=
  if is_lower c then ascii_of_nat (nat_of_ascii c - 32) else c.

Definition to_lower (c : ascii) : ascii :=
  if is_upper c then ascii_of_nat (nat_of_ascii c + 32) else c.

(** [s.replace(old, new)] for one-character [old] and [new]. *)
Fixpoint str_replace (old new : ascii) (s : string) : string :=
  match s with
  | EmptyString => EmptyString
  | String c rest =>
      String (if decide (c = old) then new else c) (str_replace old new rest)
  end.

(** [s.title()]: a cased character is upper-cased when the character
    before it is not cased, and lower-cased otherwise. *)
Fixpoint title_from (previous_is_cased : bool) (s : string) : string :=
  match s with
  | EmptyString => EmptyString
  | String c rest =>
      String (if previous_is_cased then to_lower c else to_upper c)
             (title_from (is_cased c) rest)
  end.

Definition str_title (s : string) : string := title_from false s.

(** [s.rfind(c)]: the highest index of [c], [None] for Python's [-1]. *)
Fixpoint rfind (c : ascii) (s : string) : option nat :=
  match s with
  | EmptyString => None
  | String a rest =>
      match rfind c rest with
      | Some i => Some (S i)
      | None => if decide (a = c) then Some 0 else None
      end
  end.

(** *** [pathlib.Path] *)

(** A path is the list of its components. *)
Definition Path : Type := list string.

(** [p / child] *)
Definition joinpath (p : Path) (child : string) : Path := p ++ [child].

(** [p.name]: the final component. *)
Definition name (p : Path) : string := List.last p "".

(** [p.stem]: the final component without its last suffix. *)
Definition stem (p : Path) : string :=
  let n := name p in
  match rfind "." n with
  | Some i =>
      if (0 <? i) && (i <? String.length n - 1) then substring 0 i n else n
  | None => n
  end.

(** *** [datetime] *)

Record datetime := {
  year : Z; month : Z; day : Z;
  hour : Z; minute : Z; second : Z
}.

(** The wall-clock readings considered: a four-digit year, for which [%Y]
    is four digits on every platform, and fields within their ranges. *)
Definition valid_datetime (d : datetime) : Prop :=
  (1000 ≤ year d ≤ 9999 ∧ 1 ≤ month d ≤ 12 ∧ 1 ≤ day d ≤ 31 ∧
   0 ≤ hour d < 24 ∧ 0 ≤ minute d < 60 ∧ 0 ≤ second d < 60)%Z.

(** The decimal digit of [n mod 10]. *)
Definition digit (n : Z) : ascii := ascii_of_N (Z.to_N (48 + n mod 10)).

Definition is_digit (c : ascii) : bool :=
  (48 <=? nat_of_ascii c) && (nat_of_ascii c <=? 57).

(** [%m], [%d], [%H], [%M], [%S]: two digits, zero padded. *)
Definition pad2 (n : Z) : string :=
  String (digit (n / 10)) (String (digit n) EmptyString).

(** [%Y] for a four-digit year. *)
Definition pad4 (n : Z) : string :=
  String (digit (n / 1000)) (String (digit (n / 100))
    (String (digit (n / 10)) (String (digit n) EmptyString))).

(** [d.strftime("%Y%m%d_%H%M%S")] *)
Definition strftime_compact (d : datetime) : string :=
  pad4 (year d) +:+ pad2 (month d) +:+ pad2 (day d) +:+ "_" +:+
  pad2 (hour d) +:+ pad2 (minute d) +:+ pad2 (second d).

(** *** Exceptions and outcomes *)

(** The exceptions that can leave the functions modelled here.
    [DecodeError] stands for [json.JSONDecodeError] and
    [UnicodeDecodeError], both subclasses of [ValueError]. *)
Inductive exn :=
| FileNotFoundError (p : Path)
| ValueError (msg : string)
| DecodeError
| IsADirectoryError
| NotADirectoryError
| FileExistsError
| TypeError
| AttributeError
| KeyError
| OverflowError.

Inductive outcome (A : Type) :=
| Return (a : A)
| Raise (e : exn).
Arguments Return {A} a.
Arguments Raise {A} e.

(** One call after another: the second is made when the first returns. *)
Definition and_then (first next : outcome unit) : outcome unit :=
  match first with
  | Return _ => next
  | Raise e => Raise e
  end.

(** A list comprehension whose body can raise: the results in order, or
    the first exception. *)
Fixpoint collect {A} (l : list (outcome A)) : outcome (list A) :=
  match l with
  | [] => Return []
  | Return a :: rest =>
      match collect rest with
      | Return others => Return (a :: others)
      | Raise e => Raise e
      end
  | Raise e :: _ => Raise e
  end.

End Py.

(** ** The data-table library, as far as the generator uses it

    The definitions follow what pandas 2 does on the objects that
    [json.load] produces. *)
Module Pandas.
Import Py.

(** Column dtypes.  [from_records] on JSON data yields [Int64], [UInt64],
    [Float64], [Bool] or [Object]; [Category] and [Datetime64] are dtypes
    that [select_dtypes] tells apart and that other frames can carry. *)
Inductive dtype := Int64 | UInt64 | Float64 | Bool | Object | Category | Datetime64.

(** Column labels: record keys, or positions for records given as
    sequences. *)
Inductive label :=
| LStr (s : string)
| LInt (n : nat).

#[global] Instance label_eq_dec : EqDecision label.
Proof. solve_decision. Defined.

#[global] Instance dtype_eq_dec : EqDecision dtype.
Proof. solve_decision. Defined.

Record Series := { dtype_of : dtype; values : list value }.

Record DataFrame := { index_len : nat; columns : list (label * Series) }.

Definition labels (df : DataFrame) : list label := (columns df).*1.

(** [df.empty]: some axis has length 0. *)
Definition empty (df : DataFrame) : bool :=
  (index_len df =? 0) || (length (columns df) =? 0).

(** [df[column]] *)
Fixpoint lookup_column (column : label) (cols : list (label * Series)) : option Series :=
  match cols with
  | [] => None
  | (l, s) :: rest => if decide (l = column) then Some s else lookup_column column rest
  end.

(** *** Missing values *)

Definition isna (v : value) : bool :=
  match v with
  | VNone | VFloat FNaN => true
  | _ => false
  end.

(** [series.dropna()] *)
Definition dropna (s : Series) : Series :=
  {| dtype_of := dtype_of s; values := filter (λ v, ¬ isna v) (values s) |}.

(** [series.empty] *)
Definition series_empty (s : Series) : bool := length (values s) =? 0.

(** *** dtype inference ([lib.maybe_convert_objects]) *)

Record Seen := {
  null_ : bool; nan_ : bool; bool_ : bool; int_ : bool;
  uint_ : bool; sint_ : bool; float_ : bool; object_ : bool
}.

Definition seen_nothing : Seen :=
  {| null_ := false; nan_ := false; bool_ := false; int_ := false;
     uint_ := false; sint_ := false; float_ := false; object_ := false |}.

Definition INT64_MIN : Z := - 2 ^ 63.
Definition INT64_MAX : Z := 2 ^ 63 - 1.
Definition UINT64_MAX : Z := 2 ^ 64 - 1.

(** The integers that Python converts to a [float]: those that round to a
    double, that is, those below [2 ^ 1024 - 2 ^ 970] in absolute value.
    For the others the conversion raises [OverflowError]. *)
Definition DOUBLE_LIMIT : Z := 2 ^ 1024 - 2 ^ 970.

Definition fits_double (z : Z) : bool := (Z.abs z <? DOUBLE_LIMIT)%Z.

(** One iteration of the scan; the boolean is true when the loop breaks.
    An integer is first stored in the array of floats, [floats[i] = val],
    whatever has been seen so far, and this conversion can raise. *)
Definition see (s : Seen) (v : value) : outcome (Seen * bool) :=
  match v with
  | VNone =>
      Return
        ({| null_ := true; nan_ := nan_ s; bool_ := bool_ s; int_ := int_ s;
            uint_ := uint_ s; sint_ := sint_ s; float_ := float_ s;
            object_ := object_ s |}, false)
  | VFloat FNaN =>
      Return
        ({| null_ := null_ s; nan_ := true; bool_ := bool_ s; int_ := int_ s;
            uint_ := uint_ s; sint_ := sint_ s; float_ := float_ s;
            object_ := object_ s |}, false)
  | VBool _ =>
      Return
        ({| null_ := null_ s; nan_ := nan_ s; bool_ := true; int_ := int_ s;
            uint_ := uint_ s; sint_ := sint_ s; float_ := float_ s;
            object_ := object_ s |}, false)
  | VFloat _ =>
      Return
        ({| null_ := null_ s; nan_ := nan_ s; bool_ := bool_ s; int_ := int_ s;
            uint_ := uint_ s; sint_ := sint_ s; float_ := true;
            object_ := object_ s |}, false)
  | VInt z =>
      if negb (fits_double z) then Raise OverflowError
      else if null_ s then
        Return
          ({| null_ := null_ s; nan_ := nan_ s; bool_ := bool_ s; int_ := true;
              uint_ := uint_ s; sint_ := sint_ s; float_ := float_ s;
              object_ := object_ s |}, false)
      else
        let u := uint_ s || ((INT64_MAX <? z)%Z && (z <=? UINT64_MAX)%Z) in
        let n := sint_ s || ((INT64_MIN <=? z)%Z && (z <? 0)%Z) in
        let out := (u && n) || (UINT64_MAX <? z)%Z || (z <? INT64_MIN)%Z in
        Return
          ({| null_ := null_ s; nan_ := nan_ s; bool_ := bool_ s; int_ := true;
              uint_ := u; sint_ := n; float_ := float_ s;
              object_ := object_ s || out |}, out)
  | VStr _ | VList _ | VDict _ =>
      Return
        ({| null_ := null_ s; nan_ := nan_ s; bool_ := bool_ s; int_ := int_ s;
            uint_ := uint_ s; sint_ := sint_ s; float_ := float_ s;
            object_ := true |}, true)
  end.

Fixpoint scan (s : Seen) (vals : list value) : outcome Seen :=
  match vals with
  | [] => Return s
  | v :: rest =>
      match see s v with
      | Return (s', stop) => if stop then Return s' else scan s' rest
      | Raise e => Raise e
      end
  end.

(** The dtype chosen once the scan is over. *)
Definition result_dtype (s : Seen) : dtype :=
  if bool_ s then
    if null_ s || nan_ s || int_ s || float_ s || object_ s then Object else Bool
  else if object_ s then Object
  else if null_ s || nan_ s then
    if float_ s || int_ s || nan_ s then Float64 else Object
  else if float_ s then Float64
  else if int_ s then (if uint_ s then UInt64 else Int64)
  else Object.

Definition infer_dtype (vals : list value) : outcome dtype :=
  match scan seen_nothing vals with
  | Return s => Return (result_dtype s)
  | Raise e => Raise e
  end.

(** Values as stored in a column of the given dtype: a float column holds
    [nan] for [None] and floats for integers. *)
Definition store (dt : dtype) (v : value) : value :=
  match dt, v with
  | Float64, VNone => NaN
  | Float64, VInt z => VFloat (FFinite z 0)
  | _, _ => v
  end.

Definition convert_object_array (vals : list value) : outcome Series :=
  match infer_dtype vals with
  | Return dt => Return {| dtype_of := dt; values := store dt <$> vals |}
  | Raise e => Raise e
  end.

(** *** [DataFrame.from_records] *)

(** [lib.fast_unique_multiple_list_gen]: the distinct values of the lists,
    in order of first appearance. *)
Definition add_unique (uniques : list string) (val : string) : list string :=
  if decide (val ∈ uniques) then uniques else uniques ++ [val].

Definition fast_unique (lists : list (list string)) : list string :=
  foldl (λ uniques buf, foldl add_unique uniques buf) [] lists.

(** [lib.dicts_to_array], column by column: the record's value, or [nan]
    where the record has no such key. *)
Definition dicts_to_array (dicts : list (list (string * value)))
    (cols : list string) : list (list value) :=
  (λ col, (λ row, default NaN (dict_get col row)) <$> dicts) <$> cols.

Definition as_dict (v : value) : option (list (string * value)) :=
  match v with
  | VDict d => Some d
  | _ => None
  end.

(** [list(x)] / [tuple(x)] of a record that is not a [dict]; [None] when
    the object is not iterable. *)
Definition as_sequence (v : value) : option (list value) :=
  match v with
  | VList l => Some l
  | VStr s => Some ((λ c, VStr (String c EmptyString)) <$> list_ascii_of_string s)
  | VDict d => Some (VStr <$> dict_keys d)
  | _ => None
  end.

(** [lib.to_object_array], column by column: rows are padded with [None]
    up to the longest one. *)
Definition to_object_array (rows : list (list value)) : list (list value) :=
  let k := foldr Nat.max 0 (length <$> rows) in
  (λ j, (λ row, default VNone (row !! j)) <$> rows) <$> seq 0 k.

(** The frame built from the column arrays, each converted in turn; with
    no column at all the index is empty too. *)
Definition frame_of_arrays (n : nat) (names : list label)
    (arrays : list (list value)) : outcome DataFrame :=
  match collect (convert_object_array <$> arrays) with
  | Return series =>
      Return {| index_len := if arrays is [] then 0 else n;
                columns := zip names series |}
  | Raise e => Raise e
  end.

Definition from_records (data : list value) : outcome DataFrame :=
  match data with
  | [] => Return {| index_len := 0; columns := [] |}
  | VDict _ :: _ =>
      match mapM as_dict data with
      | Some dicts =>
          let cols := fast_unique (dict_keys <$> dicts) in
          frame_of_arrays (length data) (LStr <$> cols) (dicts_to_array dicts cols)
      | None => Raise AttributeError
      end
  | _ =>
      match mapM as_sequence data with
      | Some rows =>
          let arrays := to_object_array rows in
          frame_of_arrays (length data) (LInt <$> seq 0 (length arrays)) arrays
      | None => Raise TypeError
      end
  end.

(** *** [select_dtypes] *)

Inductive selector := number | object | category | bool_sel.

Definition selects (sel : selector) (dt : dtype) : bool :=
  match sel, dt with
  | number, (Int64 | UInt64 | Float64) => true
  | object, Object => true
  | category, Category => true
  | bool_sel, Bool => true
  | _, _ => false
  end.

Definition select_dtypes (include : list selector) (df : DataFrame) : DataFrame :=
  {| index_len := index_len df;
     columns := filter (λ c, existsb (λ sel, selects sel (dtype_of c.2)) include)
                       (columns df) |}.

(** *** [value_counts] and [head] *)

(** The hash table pass of [value_counts]: one entry per distinct value, in
    order of first appearance, with its number of occurrences. *)
Fixpoint bump (v : string) (table : list (string * nat)) : list (string * nat) :=
  match table with
  | [] => [(v, 1)]
  | (k, c) :: rest => if decide (k = v) then (k, S c) :: rest else (k, c) :: bump v rest
  end.

Definition value_count (vals : list string) : list (string * nat) :=
  foldl (λ table v, bump v table) [] vals.

(** *** Figures

    The pages of a report, each recorded with what the generator hands to
    the calls that draw it. *)
Inductive Page :=
| TitlePage (heading : string) (generated : datetime) (source : string)
            (rows cols : nat)
| NumericPage (column : label) (series : list value)
| CorrelationPage (numeric_cols : list label)
| CategoricalPage (column : label) (bars : list (string * nat))
| FallbackPage (text : string).

(** What the generator takes from its libraries without fixing it: the
    text of a value under [astype(str)]; the sort by count that
    [value_counts] applies to the table (pandas documents the result as
    descending; the order it leaves among equal counts is that of numpy's
    sort and is not fixed); and the calls that make a figure, each of which
    returns or raises: [sns.histplot] and [sns.boxplot] on a series,
    [sns.barplot] on a table of counts, [sns.heatmap] on the correlations
    [df[numeric_cols].corr()], and [draw], the laying out and drawing of the
    finished figure on a page of the document ([fig.tight_layout] and
    [pdf.savefig]), which is when matplotlib reads the texts of the figure
    and can refuse one. *)
Class Library := {
  py_str : value → string;
  sort_values_desc : list (string * nat) → list (string * nat);
  histplot : Series → outcome unit;
  boxplot : Series → outcome unit;
  barplot : list (string * nat) → outcome unit;
  heatmap : DataFrame → list label → outcome unit;
  draw : Page → outcome unit
}.

Definition astype_str `{Library} (s : Series) : list string := py_str <$> values s.

Definition value_counts `{Library} (vals : list string) : list (string * nat) :=
  sort_values_desc (value_count vals).

Definition head {A} (n : nat) (l : list A) : list A := take n l.

End Pandas.

(** ** The report generator *)
Module ReportGenerator.
Import Py Pandas.

(** *** Configuration *)

Record ReportConfig := {
  json_path : Path;
  report_dir : Path;
  title : option string
}.

Definition DEFAULT_REPORT_DIR : Path := ["Reports"].

(** [ReportConfig.resolved_title]; the test [if self.title] is false for
    [None] and for the empty string. *)
Definition resolved_title (self : ReportConfig) : string :=
  let derived :=
    "Data Report: " +:+ str_title (str_replace "_" " " (stem (json_path self))) in
  match title self with
  | Some t => if decide (t = "") then derived else t
  | None => derived
  end.

(** *** Files and the world

    A page is in the document once [savefig] has returned; a call that
    raises before that leaves the document with the pages saved so far,
    which is what closing [PdfPages] on the way out of the [with] block
    writes. *)

Inductive node :=
| Directory
| JsonFile (content : value)
| PdfFile (pages : list Page)
| OtherFile.

(** The file system, and the clock as the sequence of readings that
    successive calls of [datetime.now()] return. *)
Record World := {
  fs : gmap Path node;
  time : nat → datetime;
  reads : nat
}.

(** *** State and exception monad *)

Definition M (A : Type) : Type := World → outcome A * World.

Definition ret {A} (a : A) : M A := λ w, (Return a, w).

Definition raise {A} (e : exn) : M A := λ w, (Raise e, w).

Definition bind {A B} (m : M A) (k : A → M B) : M B :=
  λ w, match m w with
       | (Return a, w') => k a w'
       | (Raise e, w') => (Raise e, w')
       end.

Notation "x <- m ;; k" := (bind m (λ x, k))
  (at level 100, m at next level, right associativity).
Notation "m ;;; k" := (bind m (λ _, k))
  (at level 100, right associativity).

Definition lift {A} (o : outcome A) : M A := λ w, (o, w).

(** [for x in l: f(x)] *)
Fixpoint for_each {A} (f : A → M unit) (l : list A) : M unit :=
  match l with
  | [] => ret tt
  | x :: rest => f x ;;; for_each f rest
  end.

(** *** File system and clock primitives *)

(** [path.exists()] *)
Definition path_exists (p : Path) : M bool :=
  λ w, (Return (bool_decide (is_Some (fs w !! p))), w).

(** [with path.open("r") as f: json.load(f)] *)
Definition read_json (p : Path) : M value :=
  λ w, match fs w !! p with
       | Some (JsonFile raw) => (Return raw, w)
       | Some Directory => (Raise IsADirectoryError, w)
       | Some _ => (Raise DecodeError, w)
       | None => (Raise (FileNotFoundError p), w)
       end.

Definition is_file (n : option node) : bool :=
  match n with
  | Some Directory | None => false
  | Some _ => true
  end.

(** The path itself and its ancestors, outermost first. *)
Definition with_parents (p : Path) : list Path :=
  (λ n, take n p) <$> seq 1 (length p).

(** [dir.mkdir(parents=True, exist_ok=True)]: fails, creating nothing, when
    the path or an ancestor is a file; otherwise makes every missing
    directory on the way. *)
Definition mkdir_parents (dir : Path) : M unit :=
  λ w, if is_file (fs w !! dir) then (Raise FileExistsError, w)
       else if existsb (λ p, is_file (fs w !! p)) (with_parents dir)
       then (Raise NotADirectoryError, w)
       else (Return tt,
             {| fs := foldr (λ p m, <[p := Directory]> m) (fs w) (with_parents dir);
                time := time w; reads := reads w |}).

(** [datetime.now()] *)
Definition datetime_now : M datetime :=
  λ w, (Return (time w (reads w)),
        {| fs := fs w; time := time w; reads := S (reads w) |}).

(** [PdfPages(path)]: the document is opened for writing, replacing a file
    of that name. *)
Definition PdfPages (p : Path) : M Path :=
  λ w, match fs w !! p with
       | Some Directory => (Raise IsADirectoryError, w)
       | _ => (Return p,
               {| fs := <[p := PdfFile []]> (fs w); time := time w; reads := reads w |})
       end.

(** One more page at the end of the document. *)
Definition add_page (pdf : Path) (page : Page) : M unit :=
  λ w, let pages := match fs w !! pdf with
                    | Some (PdfFile pages) => pages
                    | _ => []
                    end in
       (Return tt,
        {| fs := <[pdf := PdfFile (pages ++ [page])]> (fs w);
           time := time w; reads := reads w |}).

(** [pdf.savefig(fig)]: the figure is drawn, and is then one more page of
    the document. *)
Definition savefig `{Library} (pdf : Path) (page : Page) : M unit :=
  lift (draw page) ;;; add_page pdf page.

(** [df[column]] *)
Definition getitem (df : DataFrame) (column : label) : M Series :=
  match lookup_column column (columns df) with
  | Some s => ret s
  | None => raise KeyError
  end.

(** *** The functions of [report_generator.py] *)

Definition load_json_dataset (json_path : Path) : M DataFrame :=
  found <- path_exists json_path ;;
  if negb found then raise (FileNotFoundError json_path) else
  raw <- read_json json_path ;;
  let records :=
    match raw with
    | VDict d => match dict_get "data" d with Some v => v | None => raw end
    | _ => raw
    end in
  match records with
  | VList items =>
      if items is [] then raise (ValueError "JSON dataset is empty") else
      frame <- lift (from_records items) ;;
      if empty frame
      then raise (ValueError "JSON dataset produced an empty DataFrame")
      else ret frame
  | _ =>
      raise (ValueError
               "JSON dataset must be a list of records or include a 'data' list")
  end.

Definition _numeric_columns (df : DataFrame) : list label :=
  labels (select_dtypes [number] df).

Definition _categorical_columns (df : DataFrame) : list label :=
  labels (select_dtypes [object; category; bool_sel] df).

Definition _add_title_page `{Library} (pdf : Path) (config : ReportConfig)
    (df : DataFrame) : M unit :=
  now <- datetime_now ;;
  savefig pdf (TitlePage (resolved_title config) now (name (json_path config))
                         (index_len df) (length (columns df))).

Definition _plot_numeric_column `{Library} (pdf : Path) (df : DataFrame)
    (column : label) : M unit :=
  s <- getitem df column ;;
  let series := dropna s in
  if series_empty series then ret tt
  else
    lift (histplot series) ;;;
    lift (boxplot series) ;;;
    savefig pdf (NumericPage column (values series)).

Definition _plot_categorical_column `{Library} (pdf : Path) (df : DataFrame)
    (column : label) : M unit :=
  s <- getitem df column ;;
  let series := astype_str (dropna s) in
  if length series =? 0 then ret tt
  else
    let counts := head 10 (value_counts series) in
    lift (barplot counts) ;;;
    savefig pdf (CategoricalPage column counts).

Definition _plot_correlation_heatmap `{Library} (pdf : Path) (df : DataFrame)
    (numeric_cols : list label) : M unit :=
  if length numeric_cols <? 2 then ret tt
  else
    lift (heatmap df numeric_cols) ;;;
    savefig pdf (CorrelationPage numeric_cols).

Definition fallback_text : string :=
  "Unable to generate plots for the provided dataset.".

(** The body of the [with PdfPages(report_path) as pdf] block. *)
Definition write_pages `{Library} (pdf : Path) (config : ReportConfig)
    (df : DataFrame) (numeric_cols categorical_cols : list label) : M unit :=
  _add_title_page pdf config df ;;;
  (if numeric_cols is [] then ret tt
   else for_each (_plot_numeric_column pdf df) numeric_cols ;;;
        _plot_correlation_heatmap pdf df numeric_cols) ;;;
  (if categorical_cols is [] then ret tt
   else for_each (_plot_categorical_column pdf df) categorical_cols) ;;;
  (if numeric_cols is [] then
     if categorical_cols is [] then savefig pdf (FallbackPage fallback_text)
     else ret tt
   else ret tt).

Definition report_name (timestamp : string) : string :=
  "report_" +:+ timestamp +:+ ".pdf".

Definition generate_pdf_report `{Library} (config : ReportConfig) : M Path :=
  df <- load_json_dataset (json_path config) ;;
  mkdir_parents (report_dir config) ;;;
  now <- datetime_now ;;
  let timestamp := strftime_compact now in
  let report_path := joinpath (report_dir config) (report_name timestamp) in
  let numeric_cols := _numeric_columns df in
  let categorical_cols := _categorical_columns df in
  pdf <- PdfPages report_path ;;
  write_pages pdf config df numeric_cols categorical_cols ;;;
  ret report_path.

(** [run_from_cli]; [Path_of] stands for the constructor [Path(text)], whose
    splitting of a string into components is left open.  The test
    [if report_dir] is false for [None] and for the empty string. *)
Definition run_from_cli `{Library} (Path_of : string → Path) (json_path_text : string)
    (report_dir_text : option string) (title_text : option string) : M Path :=
  let config :=
    {| json_path := Path_of json_path_text;
       report_dir := match report_dir_text with
                     | Some d => if decide (d = "") then DEFAULT_REPORT_DIR else Path_of d
                     | None => DEFAULT_REPORT_DIR
                     end;
       title := title_text |} in
  generate_pdf_report config.

End ReportGenerator.

(** ** The dataset explorer window ([gui_app.py]) *)
Module GuiApp.
Import Py Pandas ReportGenerator.

(** What the window shows to the user and asks of the viewer: message
    boxes, with the exception whose text they display, and the calls that
    open and close the PandasGUI viewer. *)
Inductive event :=
| showerror (heading : string) (exc : exn)
| showerror_text (heading message : string)
| showwarning (heading message : string)
| showinfo (heading : string) (report_path : Path)
| gui_close (shown : string)
| gui_show (shown : string) (dataset : DataFrame).

(** The status line; the two formatted texts are kept as their arguments. *)
Inductive status :=
| StatusText (text : string)
| StatusLoaded (rows cols : nat)
| StatusReportSaved (report_path : Path).

(** The fields of [ReportGui], and the events so far, oldest first.  The
    call of the viewer is taken to return.
    [path_var] is [None] while the label reads "(none)"; [_gui] is the name
    under which the open viewer shows its dataset. *)
Record ReportGui := {
  _json_path : option Path;
  _gui : option string;
  status_var : status;
  path_var : option Path;
  events : list event
}.

Definition emit (e : event) (self : ReportGui) : ReportGui :=
  {| _json_path := _json_path self; _gui := _gui self;
     status_var := status_var self; path_var := path_var self;
     events := events self ++ [e] |}.

Definition set_status (st : status) (self : ReportGui) : ReportGui :=
  {| _json_path := _json_path self; _gui := _gui self;
     status_var := st; path_var := path_var self; events := events self |}.

Section window.
(** Whether [pandasgui] could be imported ([show is not None]), the
    constructor [Path(text)], and the data-table library. *)
Context (show_available : bool) (Path_of : string → Path) `{Library}.

Definition _show_in_pandasgui (self : ReportGui) (dataset : DataFrame) : ReportGui :=
  if negb show_available then
    set_status (StatusText "PandasGUI puuttuu.")
      (emit (showerror_text "PandasGUI not available"
               "Asenna pandasgui-kirjasto virtuaaliympäristöön ennen käyttöliittymän avaamista.")
            self)
  else
    let closed := match _gui self with
                  | Some shown => emit (gui_close shown) self
                  | None => self
                  end in
    let shown := match _json_path closed with
                 | Some p => name p
                 | None => "Dataset"
                 end in
    let opened := emit (gui_show shown dataset) closed in
    {| _json_path := _json_path opened; _gui := Some shown;
       status_var := StatusText "Dataset opened in PandasGUI.";
       path_var := path_var opened; events := events opened |}.

Definition set_dataset (self : ReportGui) (path : Path) (w : World) : ReportGui * World :=
  match load_json_dataset path w with
  | (Raise exc, w') =>
      (set_status (StatusText "Dataset loading failed.")
         (emit (showerror "Failed to load dataset" exc) self), w')
  | (Return dataset, w') =>
      let selected :=
        {| _json_path := Some path; _gui := _gui self;
           status_var := StatusLoaded (index_len dataset) (length (columns dataset));
           path_var := Some path; events := events self |} in
      (_show_in_pandasgui selected dataset, w')
  end.

(** [browse], given the file name the dialog returns (empty when the dialog
    is cancelled). *)
Definition browse (self : ReportGui) (selection : string) (w : World) : ReportGui * World :=
  if decide (selection = "") then (self, w)
  else set_dataset self (Path_of selection) w.

Definition open_in_gui (self : ReportGui) (w : World) : ReportGui * World :=
  match _json_path self with
  | None => (emit (showwarning "No dataset" "Select a JSON dataset first.") self, w)
  | Some path =>
      match load_json_dataset path w with
      | (Raise exc, w') =>
          (set_status (StatusText "Dataset loading failed.")
             (emit (showerror "Failed to load dataset" exc) self), w')
      | (Return dataset, w') => (_show_in_pandasgui self dataset, w')
      end
  end.

Definition generate_report (self : ReportGui) (w : World) : ReportGui * World :=
  match _json_path self with
  | None =>
      (emit (showwarning "No dataset"
               "Select a JSON dataset before generating a report.") self, w)
  | Some path =>
      match generate_pdf_report
              {| json_path := path; report_dir := DEFAULT_REPORT_DIR; title := None |} w with
      | (Raise exc, w') =>
          (set_status (StatusText "Report generation failed.")
             (emit (showerror "Report generation failed" exc) self), w')
      | (Return report_path, w') =>
          (set_status (StatusReportSaved report_path)
             (emit (showinfo "Report generated" report_path) self), w')
      end
  end.

(** [ReportGui.__init__] *)
Definition new_window (initial_json : option Path) (w : World) : ReportGui * World :=
  let self := {| _json_path := None; _gui := None;
                 status_var := StatusText "Select a JSON dataset to begin.";
                 path_var := None; events := [] |} in
  match initial_json with
  | Some path => set_dataset self path w
  | None => (self, w)
  end.

(** The three buttons, and a session as the sequence in which they are
    pressed. *)
Inductive action :=
| Browse (selection : string)
| OpenInPandasGUI
| GeneratePdfReport.

Definition press (a : action) (self : ReportGui) (w : World) : ReportGui * World :=
  match a with
  | Browse selection => browse self selection w
  | OpenInPandasGUI => open_in_gui self w
  | GeneratePdfReport => generate_report self w
  end.

Fixpoint session (actions : list action) (self : ReportGui) (w : World) : ReportGui * World :=
  match actions with
  | [] => (self, w)
  | a :: rest => let '(self', w') := press a self w in session rest self' w'
  end.

End window.

End GuiApp.

Import Py Pandas ReportGenerator GuiApp.

(** ** Notions used in the statements *)

(** *** The loader *)

(** The value the loader takes the records from. *)
Definition unwrap_data (raw : value) : value :=
  match raw with
  | VDict d => match dict_get "data" d with Some v => v | None => raw end
  | _ => raw
  end.

Definition is_list (v : value) : Prop :=
  match v with VList _ => True | _ => False end.

Definition is_record (v : value) : Prop :=
  match v with VDict _ => True | _ => False end.

Definition record_keys (v : value) : list string :=
  match v with VDict d => dict_keys d | _ => [] end.

(** The loader's result as a function of the records it is given, and of
    the parsed content of its file ([load_json_dataset_eq] below). *)
Definition load_records (records : value) : outcome DataFrame :=
  match records with
  | VList [] => Raise (ValueError "JSON dataset is empty")
  | VList items =>
      match from_records items with
      | Return frame =>
          if empty frame
          then Raise (ValueError "JSON dataset produced an empty DataFrame")
          else Return frame
      | Raise e => Raise e
      end
  | _ =>
      Raise (ValueError
               "JSON dataset must be a list of records or include a 'data' list")
  end.

Definition loaded (raw : value) : outcome DataFrame :=
  load_records (unwrap_data raw).

(** The array that [from_records] fills for a key of a list of
    dictionaries, and "the column [c] is that array, named and converted". *)
Definition dict_array (dicts : list (list (string * value))) (col : string) : list value :=
  (λ row, default NaN (dict_get col row)) <$> dicts.

Definition converted (name : label) (vals : list value) (c : label * Series) : Prop :=
  c.1 = name ∧ convert_object_array vals = Return c.2.

(** The values of the records, and the values that the conversion of a
    column to [float] accepts: everything but an integer beyond the range of
    a double. *)
Definition record_values (v : value) : list value :=
  match v with VDict d => d.*2 | _ => [] end.

Definition in_double_range (v : value) : Prop :=
  match v with
  | VInt z => fits_double z = true
  | _ => True
  end.

(** Kinds of JSON values, for the classification of a key by what the
    records hold under it. *)
Definition is_number (v : value) : Prop :=
  match v with
  | VInt z => (INT64_MIN ≤ z ≤ INT64_MAX)%Z
  | VFloat _ => True
  | _ => False
  end.

Definition is_number_or_null (v : value) : Prop :=
  match v with
  | VNone => True
  | _ => is_number v
  end.

Definition is_not_number (v : value) : Prop :=
  match v with
  | VBool _ | VStr _ | VList _ | VDict _ => True
  | _ => False
  end.

(** The length of the longest row of an array of arrays, and the array
    that [from_records] fills for a position. *)
Definition longest_row (rows : list (list value)) : nat :=
  foldr Nat.max 0 (length <$> rows).

Definition position_array (rows : list (list value)) (j : nat) : list value :=
  (λ row, default VNone (row !! j)) <$> rows.

(** *** The window *)

(** What holds of the window between two presses of a button: the label
    shows the selection, the status line is not the row and column count,
    and an open viewer goes with an importable [pandasgui] and shows the
    selected file under its name. *)
Definition window_consistent (show_available : bool) (self : ReportGui) : Prop :=
  path_var self = _json_path self ∧
  (∀ rows cols, status_var self ≠ StatusLoaded rows cols) ∧
  (∀ shown, _gui self = Some shown →
            show_available = true ∧
            ∃ p, _json_path self = Some p ∧ shown = name p).

(** The status line announces no report that is not there: a path it gives
    as saved belongs to a selected dataset, lies directly in "Reports" and
    holds a document. *)
Definition status_truthful (self : ReportGui) (w : World) : Prop :=
  ∀ p, status_var self = StatusReportSaved p →
       is_Some (_json_path self) ∧
       (∃ file, p = ["Reports"; file]) ∧
       ∃ pages, fs w !! p = Some (PdfFile pages).

(** *** The name *)

Definition all_digits (s : string) : bool :=
  forallb is_digit (list_ascii_of_string s).

(** *** Documents and pages *)

(** The pages of the document stored at [pdf]. *)
Definition document (pdf : Path) (w : World) : list Page :=
  match fs w !! pdf with
  | Some (PdfFile pages) => pages
  | _ => []
  end.

(** On the open document [pdf], [m] adds [pages] at its end, changes
    nothing else, and ends as [result] says. *)
Definition runs (pdf : Path) (m : M unit) (pages : list Page)
    (result : outcome unit) : Prop :=
  ∀ w pages0, fs w !! pdf = Some (PdfFile pages0) →
    m w = (result,
           {| fs := <[pdf := PdfFile (pages0 ++ pages)]> (fs w);
              time := time w; reads := reads w |}).

(** [m] runs to completion and adds [pages]. *)
Definition appends (pdf : Path) (m : M unit) (pages : list Page) : Prop :=
  runs pdf m pages (Return tt).

(** [m] draws one page with the plotting call [call]: the page is added
    when the call returns, and when the call raises [m] raises the same
    exception and adds nothing. *)
Definition plots (pdf : Path) (m : M unit) (call : outcome unit) (page : Page) : Prop :=
  match call with
  | Return _ => appends pdf m [page]
  | Raise e => runs pdf m [] (Raise e)
  end.

(** Missing entries in the words of the spec, null and not-a-number, and
    the entries of a column that are left when these are dropped. *)
Definition missing (v : value) : Prop :=
  match v with
  | VNone | VFloat FNaN => True
  | _ => False
  end.

#[global] Instance missing_dec (v : value) : Decision (missing v).
Proof. destruct v as [ | | |[]| | | ]; simpl; apply _. Defined.


(** A column has a value when something is left of it once the missing
    entries are dropped. *)
Definition has_values (s : Series) : Prop := values (dropna s) ≠ [].

Definition is_numeric (s : Series) : Prop := selects number (dtype_of s).

Definition is_categorical (s : Series) : Prop :=
  selects object (dtype_of s) ∨ selects category (dtype_of s) ∨
  selects bool_sel (dtype_of s).

Definition is_plot_page (p : Page) : Prop :=
  match p with
  | NumericPage _ _ | CorrelationPage _ | CategoricalPage _ _ => True
  | _ => False
  end.

(** The bars of a categorical column's page. *)
Definition bars_of `{Library} (s : Series) : list (string * nat) :=
  head 10 (value_counts (astype_str (dropna s))).

(** The pages of a report, part by part. *)
Definition title_page (config : ReportConfig) (df : DataFrame) (now : datetime) : Page :=
  TitlePage (resolved_title config) now (name (json_path config))
            (index_len df) (length (columns df)).

Definition numeric_pages (df : DataFrame) : list Page :=
  (λ c, NumericPage c.1 (values (dropna c.2))) <$>
  filter (λ c, is_numeric c.2 ∧ has_values c.2) (columns df).

Definition correlation_pages (df : DataFrame) : list Page :=
  if decide (2 ≤ length (_numeric_columns df))
  then [CorrelationPage (_numeric_columns df)] else [].

Definition categorical_pages `{Library} (df : DataFrame) : list Page :=
  (λ c, CategoricalPage c.1 (bars_of c.2)) <$>
  filter (λ c, is_categorical c.2 ∧ has_values c.2) (columns df).

Definition fallback_pages (df : DataFrame) : list Page :=
  if decide (_numeric_columns df = [] ∧ _categorical_columns df = [])
  then [FallbackPage fallback_text] else [].

Definition report_pages `{Library} (config : ReportConfig) (df : DataFrame)
    (now : datetime) : list Page :=
  title_page config df now ::
  numeric_pages df ++ correlation_pages df ++ categorical_pages df ++
  fallback_pages df.

(** The calls that put a page in the document, in the order in which the
    generator makes them, each page with the outcome of its calls taken
    together: for the page of a numeric column [sns.histplot], then
    [sns.boxplot], then the drawing of the figure. *)
Definition numeric_call `{Library} (c : label * Series) : outcome unit * Page :=
  let page := NumericPage c.1 (values (dropna c.2)) in
  (and_then (histplot (dropna c.2)) (and_then (boxplot (dropna c.2)) (draw page)), page).

Definition correlation_call `{Library} (df : DataFrame) : outcome unit * Page :=
  let page := CorrelationPage (_numeric_columns df) in
  (and_then (heatmap df (_numeric_columns df)) (draw page), page).

Definition categorical_call `{Library} (c : label * Series) : outcome unit * Page :=
  let page := CategoricalPage c.1 (bars_of c.2) in
  (and_then (barplot (bars_of c.2)) (draw page), page).

Definition numeric_calls `{Library} (df : DataFrame) : list (outcome unit * Page) :=
  numeric_call <$> filter (λ c, is_numeric c.2 ∧ has_values c.2) (columns df).

Definition correlation_calls `{Library} (df : DataFrame) : list (outcome unit * Page) :=
  if decide (2 ≤ length (_numeric_columns df)) then [correlation_call df] else [].

Definition categorical_calls `{Library} (df : DataFrame) : list (outcome unit * Page) :=
  categorical_call <$> filter (λ c, is_categorical c.2 ∧ has_values c.2) (columns df).

Definition plot_calls `{Library} (df : DataFrame) : list (outcome unit * Page) :=
  numeric_calls df ++ correlation_calls df ++ categorical_calls df.

Definition fallback_calls `{Library} (df : DataFrame) : list (outcome unit * Page) :=
  (λ page, (draw page, page)) <$> fallback_pages df.

Definition page_calls `{Library} (config : ReportConfig) (df : DataFrame)
    (now : datetime) : list (outcome unit * Page) :=
  (draw (title_page config df now), title_page config df now) ::
  plot_calls df ++ fallback_calls df.

(** Every call made for the report of the Dataset returns. *)
Definition calls_return `{Library} (config : ReportConfig) (df : DataFrame)
    (now : datetime) : Prop :=
  Forall (λ c, c.1 = Return tt) (page_calls config df now).

(** The pages saved by a sequence of calls up to the first one that raises,
    and how the sequence ends. *)
Fixpoint until_failure (calls : list (outcome unit * Page)) : list Page * outcome unit :=
  match calls with
  | [] => ([], Return tt)
  | (Return _, page) :: rest =>
      let '(pages, result) := until_failure rest in (page :: pages, result)
  | (Raise e, _) :: _ => ([], Raise e)
  end.

(** What the [with] block saves, and how it ends. *)
Definition rendering `{Library} (config : ReportConfig) (df : DataFrame)
    (now : datetime) : list Page * outcome unit :=
  until_failure (page_calls config df now).

(** On the open document, [m] behaves as the sequence [calls]: it saves
    their pages up to the first call that raises, and ends as that call
    does. *)
Definition runs_as (pdf : Path) (m : M unit) (calls : list (outcome unit * Page)) : Prop :=
  runs pdf m (until_failure calls).1 (until_failure calls).2.

(** The file system once a directory and its parents are made. *)
Definition make_dirs (dir : Path) (files : gmap Path node) : gmap Path node :=
  foldr (λ p m, <[p := Directory]> m) files (with_parents dir).

(** *** Frequencies and ranking *)

(** Number of occurrences and position of the first occurrence of a text
    in a column. *)
Definition count_of (v : string) (l : list string) : nat :=
  length (filter (λ x, x = v) l).

Fixpoint first_index (v : string) (l : list string) : nat :=
  match l with
  | [] => 0
  | x :: rest => if decide (x = v) then 0 else S (first_index v rest)
  end.

(** The distinct texts of a column, in order of first appearance. *)
Definition distinct (data : list string) : list string := foldl add_unique [] data.

(** "Met earlier in the data". *)
Definition first_met_before (data : list string) (a b : string * nat) : Prop :=
  first_index a.1 data < first_index b.1 data.


(** A descending sort by count, as pandas documents [value_counts]: a
    permutation in which counts never increase.  Nothing is said of entries
    of equal count. *)
Definition Descending (sort : list (string * nat) → list (string * nat)) : Prop :=
  ∀ l, sort l ≡ₚ l ∧ StronglySorted (λ a b, b.2 ≤ a.2) (sort l).

(** *** Library instances to run the model on

    The text of a value is Python's [str]: a string is itself, and another
    value reads as its [repr], strings inside lists and objects in quotes.
    The text of a finite float is built from its literal, which is what
    Python prints for a literal of at most 15 significant digits within the
    range of the normal doubles. *)

Definition single_quote : ascii := ascii_of_nat 39.
Definition double_quote : ascii := ascii_of_nat 34.
Definition backslash : ascii := ascii_of_nat 92.

Definition hex_digit (n : nat) : ascii :=
  if n <? 10 then ascii_of_nat (48 + n) else ascii_of_nat (87 + n).

(** One character of the [repr] of a string written between [quote]s. *)
Definition repr_char (quote c : ascii) : list ascii :=
  let n := nat_of_ascii c in
  if decide (c = quote ∨ c = backslash) then [backslash; c]
  else if n =? 9 then [backslash; "t"%char]
  else if n =? 10 then [backslash; "n"%char]
  else if n =? 13 then [backslash; "r"%char]
  else if (n <? 32) || (n =? 127)
       then [backslash; "x"%char; hex_digit (n / 16); hex_digit (n mod 16)]
  else [c].

(** Double quotes are used when the string has a single quote and no
    double quote, single quotes otherwise. *)
Definition str_repr (s : string) : string :=
  let chars := list_ascii_of_string s in
  let quote :=
    if bool_decide (single_quote ∈ chars) && negb (bool_decide (double_quote ∈ chars))
    then double_quote else single_quote in
  string_of_list_ascii ([quote] ++ concat (repr_char quote <$> chars) ++ [quote]).

Fixpoint join_with (sep : string) (l : list string) : string :=
  match l with
  | [] => ""
  | [x] => x
  | x :: rest => x +:+ sep +:+ join_with sep rest
  end.

Definition zeros (n : nat) : list ascii := replicate n "0"%char.

Fixpoint strip_zeros (reversed : list ascii) : list ascii :=
  match reversed with
  | c :: rest => if decide (c = "0"%char) then strip_zeros rest else reversed
  | [] => []
  end.

(** The text of the float written [mantissa * 10 ^ exponent]: positional
    when the decimal point falls within sixteen places after the first digit
    or four before it, with an exponent of at least two digits otherwise. *)
Definition finite_repr (mantissa exponent : Z) : string :=
  if (mantissa =? 0)%Z then "0.0" else
  let written := list_ascii_of_string (pretty (Z.abs mantissa)) in
  let digits := rev (strip_zeros (rev written)) in
  let n := Z.of_nat (length digits) in
  let point := (Z.of_nat (length written) + exponent)%Z in
  let body :=
    if (-4 <? point)%Z && (point <=? 16)%Z then
      if (point <=? 0)%Z then
        ["0"%char; "."%char] ++ zeros (Z.to_nat (- point)) ++ digits
      else if (n <=? point)%Z then
        digits ++ zeros (Z.to_nat (point - n)) ++ ["."%char; "0"%char]
      else take (Z.to_nat point) digits ++ ["."%char] ++ drop (Z.to_nat point) digits
    else
      let e := (point - 1)%Z in
      take 1 digits ++ (if (1 <? n)%Z then ["."%char] ++ drop 1 digits else []) ++
      ["e"%char; if (e <? 0)%Z then "-"%char else "+"%char] ++
      (if (Z.abs e <? 10)%Z then ["0"%char] else []) ++
      list_ascii_of_string (pretty (Z.abs e)) in
  string_of_list_ascii ((if (mantissa <? 0)%Z then ["-"%char] else []) ++ body).

Definition float_repr (f : pyfloat) : string :=
  match f with
  | FNaN => "nan"
  | FInf false => "inf"
  | FInf true => "-inf"
  | FFinite mantissa exponent => finite_repr mantissa exponent
  end.

Fixpoint py_repr (v : value) : string :=
  match v with
  | VNone => "None"
  | VBool true => "True"
  | VBool false => "False"
  | VInt z => pretty z
  | VFloat f => float_repr f
  | VStr s => str_repr s
  | VList items => "[" +:+ join_with ", " (List.map py_repr items) +:+ "]"
  | VDict items =>
      "{" +:+
      join_with ", " (List.map (λ '(k, x), str_repr k +:+ ": " +:+ py_repr x) items)
      +:+ "}"
  end.

Definition scalar_str (v : value) : string :=
  match v with
  | VStr s => s
  | _ => py_repr v
  end.

(** An insertion sort by descending count that places an entry after the
    entries of the same count, so that entries of equal count come out in
    the reverse of their order in the table: one of the orders that numpy's
    sort leaves. *)
Fixpoint insert_desc (e : string * nat) (l : list (string * nat)) : list (string * nat) :=
  match l with
  | [] => [e]
  | x :: rest => if x.2 <? e.2 then e :: x :: rest else x :: insert_desc e rest
  end.

Definition insertion_sort_desc (l : list (string * nat)) : list (string * nat) :=
  foldr insert_desc [] l.

(** A library whose plotting and drawing calls all return. *)
Definition reference_library : Library :=
  {| py_str := scalar_str; sort_values_desc := insertion_sort_desc;
     histplot := λ _, Return tt; boxplot := λ _, Return tt;
     barplot := λ _, Return tt; heatmap := λ _ _, Return tt;
     draw := λ _, Return tt |}.

(** A library whose histogram call refuses every series, as
    [sns.histplot] refuses some: with the message numpy gives when the bins
    it is asked for are too many. *)
Definition refusing_library : Library :=
  {| py_str := scalar_str; sort_values_desc := insertion_sort_desc;
     histplot := λ _, Raise (ValueError "Maximum allowed size exceeded");
     boxplot := λ _, Return tt;
     barplot := λ _, Return tt; heatmap := λ _ _, Return tt;
     draw := λ _, Return tt |}.

(** *** Sample data *)

Definition noon : datetime :=
  {| year := 2024; month := 1; day := 1; hour := 12; minute := 0; second := 0 |}.

Definition one_past_noon : datetime :=
  {| year := 2024; month := 1; day := 1; hour := 12; minute := 0; second := 1 |}.

(** The data set of the repository's loader test. *)
Definition sample_records : list value :=
  [VDict [("value", VInt 1); ("category", VStr "A")];
   VDict [("value", VInt 2); ("category", VStr "B")]].

Definition sample_config : ReportConfig :=
  {| json_path := ["data"; "sample_data.json"];
     report_dir := ["reports"];
     title := Some "Test Report" |}.

(** A world holding the sample file, whose clock reads noon twice and one
    second past noon from then on. *)
Definition sample_world : World :=
  {| fs := {[ ["data"; "sample_data.json"] := JsonFile (VList sample_records) ]};
     time := λ n, if n <? 2 then noon else one_past_noon;
     reads := 0 |}.

(** The frame the loader builds from [sample_records], a frame whose only
    column is of a dtype that is neither numeric nor categorical, a frame
    with ties ("b" and "a" occur twice, "c" once, one entry is missing),
    and a world in which a document has just been opened. *)
Definition sample_frame : DataFrame :=
  {| index_len := 2;
     columns := [(LStr "value", {| dtype_of := Int64; values := [VInt 1; VInt 2] |});
                 (LStr "category", {| dtype_of := Object; values := [VStr "A"; VStr "B"] |})] |}.

(** Records with gaps, and the frame the loader builds from them: "value"
    is missing once and becomes a float column, "note" is missing throughout
    and becomes an object column. *)
Definition gaps_records : list value :=
  [VDict [("value", VInt 1); ("category", VStr "A"); ("note", VNone)];
   VDict [("value", VNone); ("category", VStr "B"); ("note", VNone)]].

Definition gaps_frame : DataFrame :=
  {| index_len := 2;
     columns := [(LStr "value",
                  {| dtype_of := Float64; values := [VFloat (FFinite 1 0); NaN] |});
                 (LStr "category", {| dtype_of := Object; values := [VStr "A"; VStr "B"] |});
                 (LStr "note", {| dtype_of := Object; values := [VNone; VNone] |})] |}.

Definition timestamps_frame : DataFrame :=
  {| index_len := 1;
     columns := [(LStr "when", {| dtype_of := Datetime64; values := [VStr "2024-01-01"] |})] |}.

Definition ties_frame : DataFrame :=
  {| index_len := 6;
     columns := [(LStr "kind",
                  {| dtype_of := Object;
                     values := [VStr "b"; VStr "a"; VStr "b"; VStr "c"; VNone; VStr "a"] |})] |}.

Definition open_document_world : World :=
  {| fs := {[ ["out.pdf"] := PdfFile [] ]}; time := λ _, noon; reads := 0 |}.

(** A world in which the report directory of [sample_config] is taken by
    a file, the run of the generator on [sample_world], and a way to read
    a file name as a path of one component. *)
Definition blocked_world : World :=
  {| fs := {[ ["data"; "sample_data.json"] := JsonFile (VList sample_records);
              ["reports"] := OtherFile ]};
     time := λ _, noon; reads := 0 |}.

Definition sample_run : outcome Path * World :=
  @generate_pdf_report reference_library sample_config sample_world.

Definition single_component (text : string) : Path := [text].

(** * Properties *)

(** ** The title *)

Example stem_sample : stem ["data"; "sample_data.json"] = "sample_data".
Proof. reflexivity. Qed.

Example title_of_sample_file :
  resolved_title {| json_path := ["data"; "sample_data.json"];
                    report_dir := DEFAULT_REPORT_DIR; title := None |}
  = "Data Report: Sample Data".
Proof. reflexivity. Qed.

Example title_given : resolved_title sample_config = "Test Report".
Proof. reflexivity. Qed.

(** C7, as stated, fails: a title that is supplied as the empty string is
    not used unchanged. *)
Lemma resolved_title_supplied_counterexample :
  ¬ (∀ self t, title self = Some t → resolved_title self = t).
Proof.
  intros Hclaim.
  specialize (Hclaim {| json_path := ["a.json"]; report_dir := DEFAULT_REPORT_DIR;
                        title := Some "" |} "" eq_refl).
  vm_compute in Hclaim. discriminate.
Qed.

(** C7 (amended): with no title the resolved title is the stem of the source
    file with underscores replaced by spaces, title-cased and prefixed with
    "Data Report: "; a supplied title that is not the empty string is used
    unchanged. *)
Theorem resolved_title_default_or_supplied (self : ReportConfig) :
  (title self = None →
   resolved_title self =
   "Data Report: " +:+ str_title (str_replace "_" " " (stem (json_path self)))) ∧
  (∀ t, title self = Some t → t ≠ "" → resolved_title self = t).
Proof.
  unfold resolved_title. split.
  - intros ->. reflexivity.
  - intros t -> Hne. destruct (decide (t = "")); [done | reflexivity].
Qed.

Lemma resolved_title_default_or_supplied_witness :
  resolved_title {| json_path := ["data"; "sample_data.json"];
                    report_dir := DEFAULT_REPORT_DIR; title := None |}
  = "Data Report: Sample Data" ∧
  resolved_title sample_config = "Test Report".
Proof.
  split.
  - apply (proj1 (resolved_title_default_or_supplied
                    {| json_path := ["data"; "sample_data.json"];
                       report_dir := DEFAULT_REPORT_DIR; title := None |})).
    reflexivity.
  - apply (proj2 (resolved_title_default_or_supplied sample_config));
      [reflexivity|discriminate].
Defined.

(** C9: an empty title resolves to the derived default, exactly as an
    absent title does, and not to the empty string. *)
Theorem resolved_title_empty_is_default (source dir : Path) :
  let empty_title := {| json_path := source; report_dir := dir; title := Some "" |} in
  let no_title := {| json_path := source; report_dir := dir; title := None |} in
  resolved_title empty_title = resolved_title no_title ∧
  resolved_title empty_title =
    "Data Report: " +:+ str_title (str_replace "_" " " (stem source)) ∧
  resolved_title empty_title ≠ "".
Proof.
  simpl. unfold resolved_title. simpl. repeat split. discriminate.
Qed.

(** ** The loader *)

Lemma load_json_dataset_eq (p : Path) (w : World) :
  load_json_dataset p w =
  match fs w !! p with
  | None => (Raise (FileNotFoundError p), w)
  | Some (JsonFile raw) => (loaded raw, w)
  | Some Directory => (Raise IsADirectoryError, w)
  | Some _ => (Raise DecodeError, w)
  end.
Proof.
  unfold load_json_dataset, loaded, load_records, bind, path_exists, read_json,
    unwrap_data.
  destruct (fs w !! p) as [[ | raw | | ]|] eqn:Hp; simpl; rewrite ?Hp;
    try reflexivity.
  set (records := match raw with
                  | VDict d => match dict_get "data" d with Some v => v | None => raw end
                  | _ => raw
                  end).
  destruct records as [ | | | | | [|r items] | ]; try reflexivity.
  unfold lift. destruct (from_records (r :: items)) as [frame|e]; [|reflexivity].
  unfold raise, ret. destruct (empty frame); reflexivity.
Qed.

(** The loader only reads: it leaves the world as it found it. *)
Lemma load_json_dataset_world (p : Path) (w : World) :
  (load_json_dataset p w).2 = w.
Proof.
  rewrite load_json_dataset_eq.
  destruct (fs w !! p) as [[]|]; reflexivity.
Qed.

Lemma loaded_not_empty (raw : value) (df : DataFrame) :
  loaded raw = Return df → empty df = false.
Proof.
  unfold loaded, load_records.
  destruct (unwrap_data raw) as [ | | | | | [|r items] | ]; try discriminate.
  destruct (from_records (r :: items)) as [frame|e]; [|discriminate].
  destruct (empty frame) eqn:He; [discriminate|]. by intros [= <-].
Qed.

Lemma not_empty_dimensions (df : DataFrame) :
  empty df = false → 1 ≤ index_len df ∧ 1 ≤ length (columns df).
Proof.
  unfold empty. intros [H1 H2]%orb_false_iff.
  apply Nat.eqb_neq in H1, H2. lia.
Qed.

Lemma mapM_as_dict_records (items : list value) :
  Forall is_record items →
  ∃ dicts, mapM as_dict items = Some dicts ∧ items = VDict <$> dicts.
Proof.
  induction 1 as [|v items Hv _ (dicts & Hm & ->)].
  - by exists [].
  - destruct v as [ | | | | | | d]; try done.
    exists (d :: dicts). split; [|done].
    rewrite mapM_Some in Hm |- *. by constructor.
Qed.

(** *** The conversion of the column arrays, and when it raises *)

Lemma isna_store (dt : dtype) (v : value) : isna (store dt v) = isna v.
Proof. destruct dt, v as [ | | |[]| | | ]; reflexivity. Qed.

Lemma collect_fmap_Return {A B} (f : A → outcome B) (l : list A) (ys : list B) :
  collect (f <$> l) = Return ys ↔ Forall2 (λ x y, f x = Return y) l ys.
Proof.
  revert ys. induction l as [|x l IH]; intros ys; csimpl.
  - split; [intros [= <-]; constructor | by intros ->%Forall2_nil_inv_l].
  - destruct (f x) as [y|e] eqn:Hx.
    + destruct (collect (f <$> l)) as [others|e] eqn:Hl.
      * split.
        -- intros [= <-]. constructor; [done|]. by apply IH.
        -- intros (y' & ys' & Hy & Hys & ->)%Forall2_cons_inv_l.
           apply IH in Hys. congruence.
      * split; [done|].
        intros (y' & ys' & Hy & Hys & ->)%Forall2_cons_inv_l. by apply IH in Hys.
    + split; [done|]. intros (y' & ys' & Hy & _)%Forall2_cons_inv_l. congruence.
Qed.

Lemma collect_fmap_Raise {A B} (f : A → outcome B) (l : list A) (e : exn) :
  collect (f <$> l) = Raise e → ∃ x, x ∈ l ∧ f x = Raise e.
Proof.
  induction l as [|x l IH]; csimpl; [done|].
  destruct (f x) as [y|e'] eqn:Hx.
  - destruct (collect (f <$> l)) as [others|e']; [done|].
    intros [= ->]. destruct IH as (x' & ? & ?); [done|]. exists x'. split; [by right|done].
  - intros [= ->]. exists x. split; [left|done].
Qed.

Lemma collect_fmap_all {A B} (f : A → outcome B) (l : list A) :
  Forall (λ x, ∃ y, f x = Return y) l → ∃ ys, collect (f <$> l) = Return ys.
Proof.
  induction 1 as [|x l [y Hx] _ [ys IH]]; csimpl; [by eexists|].
  rewrite Hx, IH. by eexists.
Qed.

(** Only an integer beyond the range of a double stops the scan with an
    exception, and that exception is [OverflowError]. *)
Lemma see_Raise (s : Seen) (v : value) (e : exn) :
  see s v = Raise e → e = OverflowError ∧ ¬ in_double_range v.
Proof.
  destruct v as [ | |z|[]| | | ]; simpl; try done.
  destruct (fits_double z); simpl; [by destruct (null_ s)|].
  intros [= <-]. split; [done|discriminate].
Qed.

Lemma see_in_range (s : Seen) (v : value) :
  in_double_range v → ∃ next, see s v = Return next.
Proof.
  destruct v as [ | |z|[]| | | ]; simpl; eauto.
  intros ->. simpl. destruct (null_ s); eauto.
Qed.

Lemma scan_Raise (s : Seen) (vals : list value) (e : exn) :
  scan s vals = Raise e →
  e = OverflowError ∧ ∃ v, v ∈ vals ∧ ¬ in_double_range v.
Proof.
  revert s. induction vals as [|v vals IH]; intros s; simpl; [done|].
  destruct (see s v) as [[s' stop]|e'] eqn:Hsee.
  - destruct stop; [done|]. intros (-> & v' & Hv' & Hr)%IH.
    split; [done|]. exists v'. split; [by right|done].
  - intros [= ->]. apply see_Raise in Hsee as [-> Hr].
    split; [done|]. exists v. split; [left|done].
Qed.

Lemma scan_in_range (s : Seen) (vals : list value) :
  Forall in_double_range vals → ∃ s', scan s vals = Return s'.
Proof.
  intros Hvals. revert s. induction Hvals as [|v vals Hv _ IH]; intros s; simpl; [eauto|].
  destruct (see_in_range s v Hv) as [[s' stop] ->]. destruct stop; eauto.
Qed.

Lemma convert_object_array_Return (vals : list value) (s : Series) :
  convert_object_array vals = Return s ↔
  ∃ seen, scan seen_nothing vals = Return seen ∧
          s = {| dtype_of := result_dtype seen;
                 values := store (result_dtype seen) <$> vals |}.
Proof.
  unfold convert_object_array, infer_dtype.
  destruct (scan seen_nothing vals) as [seen|e]; split.
  - intros [= <-]. eauto.
  - by intros (? & [= <-] & ->).
  - done.
  - by intros (? & [=] & _).
Qed.

Lemma convert_object_array_Raise (vals : list value) (e : exn) :
  convert_object_array vals = Raise e →
  e = OverflowError ∧ ∃ v, v ∈ vals ∧ ¬ in_double_range v.
Proof.
  unfold convert_object_array, infer_dtype.
  destruct (scan seen_nothing vals) as [seen|e'] eqn:Hscan; [done|].
  intros [= <-]. by apply scan_Raise in Hscan.
Qed.

Lemma convert_object_array_in_range (vals : list value) :
  Forall in_double_range vals → ∃ s, convert_object_array vals = Return s.
Proof.
  intros [seen Hscan]%(scan_in_range seen_nothing).
  unfold convert_object_array, infer_dtype. rewrite Hscan. by eexists.
Qed.

Lemma convert_object_array_values (vals : list value) (s : Series) :
  convert_object_array vals = Return s → values s = store (dtype_of s) <$> vals.
Proof. by intros (seen & _ & ->)%convert_object_array_Return. Qed.

Lemma frame_of_arrays_Return (n : nat) (names : list label)
    (arrays : list (list value)) (df : DataFrame) :
  frame_of_arrays n names arrays = Return df ↔
  ∃ series, Forall2 (λ vals s, convert_object_array vals = Return s) arrays series ∧
            df = {| index_len := if arrays is [] then 0 else n;
                    columns := zip names series |}.
Proof.
  unfold frame_of_arrays.
  destruct (collect (convert_object_array <$> arrays)) as [series|e] eqn:Hc.
  - split.
    + intros [= <-]. exists series. split; [by apply collect_fmap_Return|done].
    + intros (series' & Hs%collect_fmap_Return & ->). congruence.
  - split; [done|]. intros (series' & Hs%collect_fmap_Return & _). congruence.
Qed.

Lemma frame_of_arrays_Raise (n : nat) (names : list label)
    (arrays : list (list value)) (e : exn) :
  frame_of_arrays n names arrays = Raise e →
  e = OverflowError ∧
  ∃ vals v, vals ∈ arrays ∧ v ∈ vals ∧ ¬ in_double_range v.
Proof.
  unfold frame_of_arrays.
  destruct (collect (convert_object_array <$> arrays)) as [series|e'] eqn:Hc; [done|].
  intros [= <-]. apply collect_fmap_Raise in Hc as (vals & Hin & Hvals).
  apply convert_object_array_Raise in Hvals as (-> & v & ? & ?). eauto 10.
Qed.

Lemma frame_of_arrays_in_range (n : nat) (names : list label)
    (arrays : list (list value)) :
  Forall (Forall in_double_range) arrays →
  ∃ df, frame_of_arrays n names arrays = Return df.
Proof.
  intros Harrays. unfold frame_of_arrays.
  destruct (collect_fmap_all convert_object_array arrays) as [series ->]; [|by eexists].
  eapply Forall_impl; [exact Harrays|]. apply convert_object_array_in_range.
Qed.

(** The columns of a frame built from one array per name. *)
Lemma zip_converted {A} (name : A → label) (array : A → list value)
    (keys : list A) (series : list Series) :
  Forall2 (λ vals s, convert_object_array vals = Return s) (array <$> keys) series →
  Forall2 (λ k c, converted (name k) (array k) c) keys (zip (name <$> keys) series).
Proof.
  revert series. induction keys as [|k keys IH]; intros series; csimpl.
  - intros ->%Forall2_nil_inv_l. constructor.
  - intros (s & series' & Hs & Hrest & ->)%Forall2_cons_inv_l. simpl.
    constructor; [by split|]. by apply IH.
Qed.

Lemma converted_labels {A} (name : A → label) (array : A → list value)
    (keys : list A) (cols : list (label * Series)) :
  Forall2 (λ k c, converted (name k) (array k) c) keys cols →
  cols.*1 = name <$> keys.
Proof.
  induction 1 as [|k c keys cols [Hname _] _ IH]; csimpl; [done|]. by rewrite Hname, IH.
Qed.

Lemma converted_elem {A} (name : A → label) (array : A → list value)
    (keys : list A) (cols : list (label * Series)) (l : label) (s : Series) :
  Forall2 (λ k c, converted (name k) (array k) c) keys cols →
  (l, s) ∈ cols →
  ∃ k, k ∈ keys ∧ l = name k ∧ convert_object_array (array k) = Return s.
Proof.
  induction 1 as [|k c keys cols [Hname Hconv] _ IH]; [by intros ?%elem_of_nil|].
  intros [<-|Hin]%elem_of_cons.
  - exists k. split_and!; [left|done..].
  - destruct (IH Hin) as (k' & ? & ? & ?). exists k'. split_and!; [by right|done..].
Qed.

Lemma from_records_raises (items : list value) (e : exn) :
  from_records items = Raise e →
  e = AttributeError ∨ e = TypeError ∨ e = OverflowError.
Proof.
  unfold from_records. destruct items as [|[] items]; first discriminate.
  all: match goal with
       | |- context [mapM ?f ?l] => destruct (mapM f l)
       end; try (intros [= <-]; by auto).
  all: intros [-> _]%frame_of_arrays_Raise; auto.
Qed.

Lemma dict_get_Some_value (key : string) (d : list (string * value)) (v : value) :
  dict_get key d = Some v → v ∈ d.*2.
Proof.
  induction d as [|[k x] d IH]; csimpl; [done|].
  destruct (decide (k = key)); [intros [= ->]; left | right; auto].
Qed.

Lemma dict_array_elem (dicts : list (list (string * value))) (col : string) (v : value) :
  v ∈ dict_array dicts col → v = NaN ∨ ∃ d, d ∈ dicts ∧ v ∈ d.*2.
Proof.
  intros (d & -> & Hd)%list_elem_of_fmap.
  destruct (dict_get col d) as [x|] eqn:Hx; simpl; [right|by left].
  exists d. split; [done|]. by eapply dict_get_Some_value.
Qed.

(** [from_records] on a list of dictionaries: one array per key, in order of
    first appearance, converted in turn. *)
Lemma from_records_dicts (dicts : list (list (string * value))) :
  dicts ≠ [] →
  from_records (VDict <$> dicts) =
  frame_of_arrays (length dicts) (LStr <$> fast_unique (dict_keys <$> dicts))
                  (dict_array dicts <$> fast_unique (dict_keys <$> dicts)).
Proof.
  intros Hne.
  assert (mapM as_dict (VDict <$> dicts) = Some dicts) as Hm.
  { apply mapM_Some, Forall2_fmap_l, Forall_Forall2_diag, Forall_true. done. }
  destruct dicts as [|d dicts]; [done|].
  unfold from_records. rewrite Hm. change (VDict <$> d :: dicts) with
    (VDict d :: (VDict <$> dicts)). cbv beta iota.
  by rewrite length_cons, length_fmap.
Qed.

Lemma from_records_dicts_Return (dicts : list (list (string * value))) (df : DataFrame) :
  dicts ≠ [] →
  from_records (VDict <$> dicts) = Return df →
  ∃ cols,
    Forall2 (λ k c, converted (LStr k) (dict_array dicts k) c)
            (fast_unique (dict_keys <$> dicts)) cols ∧
    df = {| index_len := if fast_unique (dict_keys <$> dicts) is [] then 0
                         else length dicts;
            columns := cols |}.
Proof.
  intros Hne. rewrite (from_records_dicts dicts Hne).
  intros (series & Hseries & ->)%frame_of_arrays_Return.
  eexists. split; [by apply zip_converted|].
  by destruct (fast_unique (dict_keys <$> dicts)).
Qed.

(** An array of records either becomes a frame or holds an integer that
    does not fit a double. *)
Lemma from_records_of_records (items : list value) :
  Forall is_record items →
  (∃ df, from_records items = Return df) ∨
  (from_records items = Raise OverflowError ∧
   ∃ r v, r ∈ items ∧ v ∈ record_values r ∧ ¬ in_double_range v).
Proof.
  intros Hrec. destruct (mapM_as_dict_records items Hrec) as (dicts & Hm & ->).
  destruct (decide (dicts = [])) as [->|Hne]; [left; by eexists|].
  rewrite (from_records_dicts dicts Hne).
  destruct (frame_of_arrays _ _ _) as [df|e] eqn:Hframe; [left; by eexists|right].
  apply frame_of_arrays_Raise in Hframe as (-> & vals & v & Hvals & Hv & Hr).
  split; [done|]. apply list_elem_of_fmap in Hvals as (col & -> & _).
  apply dict_array_elem in Hv as [->|(d & Hd & Hv)]; [by destruct Hr|].
  exists (VDict d), v. split_and!; [by apply list_elem_of_fmap_2|done..].
Qed.

Lemma from_records_in_range (items : list value) :
  Forall is_record items →
  (∀ r v, r ∈ items → v ∈ record_values r → in_double_range v) →
  ∃ df, from_records items = Return df.
Proof.
  intros Hrec Hrange.
  destruct (from_records_of_records items Hrec) as [?|(_ & r & v & Hr & Hv & Hout)];
    [done|]. destruct Hout. by eapply Hrange.
Qed.

Lemma load_records_not_found (records : value) (q : Path) :
  load_records records ≠ Raise (FileNotFoundError q).
Proof.
  unfold load_records. destruct records as [ | | | | | [|r items] | ]; try discriminate.
  destruct (from_records (r :: items)) as [frame|e] eqn:Hfr.
  - destruct (empty frame); discriminate.
  - apply from_records_raises in Hfr as [-> | [-> | ->]]; discriminate.
Qed.

(** C3, as stated, fails: an array whose elements are not records is
    neither rejected with a Validation error nor turned into a Dataset. *)
Lemma load_json_dataset_other_cases_counterexample :
  ¬ (∀ (p : Path) (w : World) (raw : value),
       fs w !! p = Some (JsonFile raw) →
       (∃ msg, (load_json_dataset p w).1 = Raise (ValueError msg)) ∨
       (∃ df, (load_json_dataset p w).1 = Return df ∧
              1 ≤ index_len df ∧ 1 ≤ length (columns df))).
Proof.
  intros Hclaim.
  destruct (Hclaim ["numbers.json"]
                   {| fs := {[ ["numbers.json"] := JsonFile (VList [VInt 1]) ]};
                      time := λ _, noon; reads := 0 |}
                   (VList [VInt 1])) as [[msg H] | (df & H & _)];
    [by vm_compute | vm_compute in H; discriminate ..].
Qed.

Example load_array_of_numbers :
  (load_json_dataset ["numbers.json"]
     {| fs := {[ ["numbers.json"] := JsonFile (VList [VInt 1]) ]};
        time := λ _, noon; reads := 0 |}).1 = Raise TypeError.
Proof. reflexivity. Qed.

(** A record that holds an integer beyond the range of a double is a third
    case even among arrays of records: the table library raises
    [OverflowError] while it infers the type of the column. *)
Example load_huge_integer :
  (load_json_dataset ["huge.json"]
     {| fs := {[ ["huge.json"] := JsonFile (VList [VDict [("x", VInt (10 ^ 400))]]) ]};
        time := λ _, noon; reads := 0 |}).1 = Raise OverflowError.
Proof. by vm_compute. Qed.

(** The scenario of the repository's test [requires_list]. *)
Example load_object_without_data :
  (load_json_dataset ["invalid.json"]
     {| fs := {[ ["invalid.json"] := JsonFile (VDict [("not", VStr "a list")]) ]};
        time := λ _, noon; reads := 0 |}).1
  = Raise (ValueError
             "JSON dataset must be a list of records or include a 'data' list").
Proof. reflexivity. Qed.

(** C3 (amended): the loader fails with Not Found exactly when the path does
    not exist; on a file holding parsed JSON it fails with a Validation
    error exactly when the unwrapped value is not an array, or is an empty
    array, or the constructed table is empty; whatever it returns has at
    least one row and one column; and when every element of the array is a
    record object there are three cases only: a Validation error, an
    [OverflowError], or such a Dataset, the [OverflowError] arising only
    when a record holds an integer beyond the range of a double. *)
Theorem load_json_dataset_outcomes (p : Path) (w : World) :
  ((∃ q, (load_json_dataset p w).1 = Raise (FileNotFoundError q)) ↔
   fs w !! p = None) ∧
  (∀ raw, fs w !! p = Some (JsonFile raw) →
     ((∃ msg, (load_json_dataset p w).1 = Raise (ValueError msg)) ↔
      (¬ is_list (unwrap_data raw) ∨ unwrap_data raw = VList [] ∨
       ∃ items df, unwrap_data raw = VList items ∧
                   from_records items = Return df ∧ empty df = true)) ∧
     (∀ df, (load_json_dataset p w).1 = Return df →
            1 ≤ index_len df ∧ 1 ≤ length (columns df)) ∧
     (∀ items, unwrap_data raw = VList items → Forall is_record items →
        ((∃ msg, (load_json_dataset p w).1 = Raise (ValueError msg)) ∨
         (load_json_dataset p w).1 = Raise OverflowError ∨
         (∃ df, (load_json_dataset p w).1 = Return df ∧
                1 ≤ index_len df ∧ 1 ≤ length (columns df))) ∧
        ((load_json_dataset p w).1 = Raise OverflowError →
         ∃ r v, r ∈ items ∧ v ∈ record_values r ∧ ¬ in_double_range v))).
Proof.
  rewrite load_json_dataset_eq. split.
  - destruct (fs w !! p) as [[]|]; simpl; split;
      try discriminate; try (intros [q Hq]); eauto; try discriminate.
    by apply load_records_not_found in Hq.
  - intros raw ->. simpl. split; [|split].
    + unfold loaded, load_records. split.
      * intros [msg Hmsg].
        destruct (unwrap_data raw) as [ | | | | | [|r items] | ];
          try (left; by intros []); [by right; left|].
        right; right. destruct (from_records (r :: items)) as [frame|e] eqn:Hfr.
        -- destruct (empty frame) eqn:He; [|discriminate]. eauto.
        -- injection Hmsg as ->.
           apply from_records_raises in Hfr as [?|[?|?]]; discriminate.
      * intros [Hnl | [-> | (items & df & -> & Hfr & He)]].
        -- destruct (unwrap_data raw) as [ | | | | | items | ];
             try (eexists; reflexivity). by destruct Hnl.
        -- eexists; reflexivity.
        -- destruct items; [eexists; reflexivity|]. rewrite Hfr, He. eexists; reflexivity.
    + intros df Hdf. by apply not_empty_dimensions, (loaded_not_empty raw).
    + intros items Hitems Hrec. unfold loaded, load_records. rewrite Hitems.
      destruct items as [|r items]; [split; [left; eexists; reflexivity|done]|].
      destruct (from_records_of_records (r :: items) Hrec)
        as [[frame Hfr]|(Hfr & Hout)]; rewrite Hfr.
      * destruct (empty frame) eqn:He; (split; [|done]).
        -- left; eexists; reflexivity.
        -- right; right. exists frame. split; [done|]. by apply not_empty_dimensions.
      * split; [by right; left|done].
Qed.

Lemma load_json_dataset_outcomes_witness :
  ∃ df, (load_json_dataset ["data"; "sample_data.json"] sample_world).1 = Return df ∧
        1 ≤ index_len df ∧ 1 ≤ length (columns df).
Proof.
  destruct (load_json_dataset_outcomes ["data"; "sample_data.json"] sample_world)
    as [_ Hfile].
  destruct (Hfile (VList sample_records)) as (Hval & _ & Hrec); [by vm_compute|].
  destruct (Hrec sample_records) as [[[msg Hmsg]|[Hover|Hdf]] _];
    [reflexivity | repeat constructor | | | exact Hdf].
  - vm_compute in Hmsg. discriminate.
  - vm_compute in Hover. discriminate.
Defined.

(** C10: under a top-level object with a "data" key the loader reads the
    value of that key and nothing else, so two such files with the same
    "data" value load alike whatever their other keys. *)
Theorem load_json_dataset_data_key_only
    (p1 p2 : Path) (w1 w2 : World) (d1 d2 : list (string * value)) (v : value) :
  fs w1 !! p1 = Some (JsonFile (VDict d1)) →
  fs w2 !! p2 = Some (JsonFile (VDict d2)) →
  dict_get "data" d1 = Some v →
  dict_get "data" d2 = Some v →
  (load_json_dataset p1 w1).1 = (load_json_dataset p2 w2).1 ∧
  (load_json_dataset p1 w1).1 = load_records v.
Proof.
  intros H1 H2 Hd1 Hd2. rewrite !load_json_dataset_eq, H1, H2.
  unfold loaded. simpl. by rewrite Hd1, Hd2.
Qed.

Lemma load_json_dataset_data_key_only_witness :
  (load_json_dataset ["a.json"]
     {| fs := {[ ["a.json"] :=
                   JsonFile (VDict [("meta", VInt 1); ("data", VList sample_records)]) ]};
        time := λ _, noon; reads := 0 |}).1
  = (load_json_dataset ["b.json"]
       {| fs := {[ ["b.json"] :=
                     JsonFile (VDict [("data", VList sample_records);
                                      ("source", VStr "export")]) ]};
          time := λ _, noon; reads := 0 |}).1.
Proof.
  eapply proj1, (load_json_dataset_data_key_only _ _ _ _ _ _ (VList sample_records));
    by vm_compute.
Defined.

(** *** The table built from an array of records *)

Lemma elem_of_foldl_add_unique (buf acc : list string) (x : string) :
  x ∈ foldl add_unique acc buf ↔ x ∈ acc ∨ x ∈ buf.
Proof.
  revert acc. induction buf as [|v buf IH]; intros acc; simpl.
  - rewrite elem_of_nil. tauto.
  - rewrite IH, elem_of_cons. unfold add_unique.
    destruct (decide (v ∈ acc)) as [Hv|Hv].
    + split; [tauto|]. intros [?|[->|?]]; auto.
    + rewrite elem_of_app, list_elem_of_singleton. tauto.
Qed.

Lemma NoDup_foldl_add_unique (buf acc : list string) :
  NoDup acc → NoDup (foldl add_unique acc buf).
Proof.
  revert acc. induction buf as [|v buf IH]; intros acc Hacc; simpl; [done|].
  apply IH. unfold add_unique. destruct (decide (v ∈ acc)); [done|].
  apply NoDup_app. split_and!; [done| |apply NoDup_singleton].
  intros x Hx ->%list_elem_of_singleton. done.
Qed.

Lemma elem_of_fast_unique (lists : list (list string)) (x : string) :
  x ∈ fast_unique lists ↔ ∃ buf, buf ∈ lists ∧ x ∈ buf.
Proof.
  unfold fast_unique.
  assert (∀ acc, x ∈ foldl (λ uniques buf, foldl add_unique uniques buf) acc lists
                 ↔ x ∈ acc ∨ ∃ buf, buf ∈ lists ∧ x ∈ buf) as Hgen.
  { induction lists as [|buf lists IH]; intros acc; simpl.
    - split; [auto|]. intros [?|(buf & []%elem_of_nil & _)]; done.
    - rewrite IH, elem_of_foldl_add_unique. split.
      + intros [[?|?]|(b & ? & ?)]; [by left|right..].
        * exists buf. split; [left|done].
        * exists b. split; [by right|done].
      + intros [?|(b & [->|?]%elem_of_cons & ?)]; eauto. }
  rewrite Hgen, elem_of_nil. tauto.
Qed.

Lemma NoDup_fast_unique (lists : list (list string)) : NoDup (fast_unique lists).
Proof.
  unfold fast_unique. generalize (NoDup_nil_2 (A:=string)).
  generalize (@nil string) as acc.
  induction lists as [|buf lists IH]; intros acc Hacc; simpl; [done|].
  by apply IH, NoDup_foldl_add_unique.
Qed.

Lemma dict_get_None (key : string) (d : list (string * value)) :
  dict_get key d = None ↔ key ∉ dict_keys d.
Proof.
  unfold dict_keys. induction d as [|[k v] d IH]; simpl.
  - split; [intros _ []%elem_of_nil | done].
  - rewrite not_elem_of_cons. destruct (decide (k = key)); naive_solver.
Qed.

Lemma labels_frame_of_arrays (n : nat) (names : list label)
    (arrays : list (list value)) (df : DataFrame) :
  length names = length arrays →
  frame_of_arrays n names arrays = Return df → labels df = names.
Proof.
  intros Hlen (series & Hseries & ->)%frame_of_arrays_Return.
  unfold labels. simpl. apply fst_zip.
  apply Forall2_length in Hseries. lia.
Qed.

#[local] Instance LStr_inj : Inj (=) (=) LStr.
Proof. by intros ?? [= ->]. Qed.

#[local] Instance LInt_inj : Inj (=) (=) LInt.
Proof. by intros ?? [= ->]. Qed.

(** Whatever [from_records] builds has pairwise distinct column labels. *)
Lemma from_records_labels_NoDup (items : list value) (df : DataFrame) :
  from_records items = Return df → NoDup (labels df).
Proof.
  unfold from_records. destruct items as [|r items]; [intros [= <-]; constructor|].
  assert (∀ rows,
    frame_of_arrays (length (r :: items))
      (LInt <$> seq 0 (length (to_object_array rows))) (to_object_array rows)
    = Return df → NoDup (labels df)) as Hseq.
  { intros rows Hframe.
    apply labels_frame_of_arrays in Hframe as ->; [|by rewrite length_fmap, length_seq].
    apply (NoDup_fmap_2 _), NoDup_seq. }
  destruct r;
    try (destruct (mapM as_sequence _) as [rows|]; [apply Hseq|discriminate]).
  destruct (mapM as_dict _) as [dicts|]; [|discriminate]. intros Hframe.
  apply labels_frame_of_arrays in Hframe as ->;
    [|unfold dicts_to_array; by rewrite !length_fmap].
  apply (NoDup_fmap_2 _), NoDup_fast_unique.
Qed.

Lemma load_records_Return (records : value) (df : DataFrame) :
  load_records records = Return df ↔
  ∃ items, records = VList items ∧ from_records items = Return df ∧ empty df = false.
Proof.
  unfold load_records. split.
  - destruct records as [ | | | | | [|r items] | ]; try discriminate.
    destruct (from_records (r :: items)) as [frame|e] eqn:Hfr; [|discriminate].
    destruct (empty frame) eqn:He; [discriminate|]. intros [= <-]. eauto.
  - intros (items & -> & Hfr & He). destruct items as [|r items].
    + injection Hfr as <-. done.
    + by rewrite Hfr, He.
Qed.

Lemma load_records_labels_NoDup (records : value) (df : DataFrame) :
  load_records records = Return df → NoDup (labels df).
Proof.
  intros (items & _ & Hfr & _)%load_records_Return.
  by eapply from_records_labels_NoDup.
Qed.

(** The frame that the loader returns for an array of records: one column
    per key, in order of first appearance. *)
Lemma load_records_dicts (dicts : list (list (string * value))) (df : DataFrame) :
  load_records (VList (VDict <$> dicts)) = Return df →
  ∃ cols,
    Forall2 (λ k c, converted (LStr k) (dict_array dicts k) c)
            (fast_unique (dict_keys <$> dicts)) cols ∧
    fast_unique (dict_keys <$> dicts) ≠ [] ∧
    df = {| index_len := length dicts; columns := cols |}.
Proof.
  intros (items & [= <-] & Hfr & He)%load_records_Return.
  destruct (decide (dicts = [])) as [->|Hne]; [by injection Hfr as <-|].
  apply from_records_dicts_Return in Hfr as (cols & Hcols & ->); [|done].
  exists cols. split; [done|].
  destruct (fast_unique (dict_keys <$> dicts)) as [|k ks] eqn:Hkeys; [|done].
  by apply Forall2_nil_inv_l in Hcols as ->.
Qed.

(** C2, as stated, fails: an array of records none of which has a key is a
    non-empty array of record objects, and the loader rejects it. *)
Lemma load_record_array_counterexample :
  ¬ (∀ (p : Path) (w : World) (items : list value),
       fs w !! p = Some (JsonFile (VList items)) →
       items ≠ [] → Forall is_record items →
       ∃ df, (load_json_dataset p w).1 = Return df).
Proof.
  intros Hclaim.
  destruct (Hclaim ["blank.json"]
                   {| fs := {[ ["blank.json"] := JsonFile (VList [VDict []]) ]};
                      time := λ _, noon; reads := 0 |}
                   [VDict []]) as [df H];
    [by vm_compute | done | by repeat constructor |].
  vm_compute in H. discriminate.
Qed.

Example load_blank_records :
  (load_json_dataset ["blank.json"]
     {| fs := {[ ["blank.json"] := JsonFile (VList [VDict []]) ]};
        time := λ _, noon; reads := 0 |}).1
  = Raise (ValueError "JSON dataset produced an empty DataFrame").
Proof. reflexivity. Qed.

(** The scenario of the repository's test [handles_plain_list]. *)
Example load_sample_records :
  ∃ df, (load_json_dataset ["data"; "sample_data.json"] sample_world).1 = Return df ∧
        labels df = [LStr "value"; LStr "category"] ∧ index_len df = 2 ∧
        _numeric_columns df = [LStr "value"] ∧
        _categorical_columns df = [LStr "category"].
Proof. eexists. split; [reflexivity|]. by vm_compute. Qed.

(** Records without any key give a table without columns. *)
Lemma fast_unique_no_keys (lists : list (list string)) :
  Forall (λ keys, keys = []) lists → fast_unique lists = [].
Proof.
  intros Hall. destruct (fast_unique lists) as [|k ks] eqn:Hkeys; [done|].
  assert (k ∈ fast_unique lists) as (buf & Hbuf & Hk)%elem_of_fast_unique
    by (rewrite Hkeys; left).
  rewrite Forall_forall in Hall. rewrite (Hall buf Hbuf) in Hk.
  by apply elem_of_nil in Hk.
Qed.

(** C2 (amended): a non-empty array of record objects, at top level or under
    a "data" key.  When some record has a key and no record holds an integer
    beyond the range of a double, it loads into a Dataset whose columns are
    exactly the keys seen across the records, each once, whose row count is
    the length of the array, and in which a record that lacks a key has a
    missing value in that column at its row.  When no record has a key, it
    is rejected with the Validation error of an empty table. *)
Theorem load_record_array (p : Path) (w : World) (raw : value) (items : list value) :
  fs w !! p = Some (JsonFile raw) →
  (raw = VList items ∨
   ∃ d, raw = VDict d ∧ dict_get "data" d = Some (VList items)) →
  Forall is_record items →
  items ≠ [] →
  ((∃ r, r ∈ items ∧ record_keys r ≠ []) →
   (∀ r v, r ∈ items → v ∈ record_values r → in_double_range v) →
   ∃ df, (load_json_dataset p w).1 = Return df ∧
         NoDup (labels df) ∧
         (∀ l, l ∈ labels df ↔ ∃ k r, l = LStr k ∧ r ∈ items ∧ k ∈ record_keys r) ∧
         index_len df = length items ∧
         (∀ l s, (l, s) ∈ columns df → length (values s) = length items) ∧
         (∀ k s i r, (LStr k, s) ∈ columns df → items !! i = Some r →
                     k ∉ record_keys r →
                     ∃ v, values s !! i = Some v ∧ isna v)) ∧
  ((∀ r, r ∈ items → record_keys r = []) →
   (load_json_dataset p w).1 =
   Raise (ValueError "JSON dataset produced an empty DataFrame")).
Proof.
  intros Hp Hraw Hrec Hitems.
  assert (unwrap_data raw = VList items) as Hunwrap.
  { destruct Hraw as [-> | (d & -> & Hd)]; [done|]. simpl. by rewrite Hd. }
  rewrite load_json_dataset_eq, Hp. unfold loaded. rewrite Hunwrap. simpl.
  destruct (mapM_as_dict_records items Hrec) as (dicts & _ & ->).
  assert (dicts ≠ []) as Hne by (by intros ->).
  set (cols := fast_unique (dict_keys <$> dicts)).
  assert (∀ k, k ∈ cols ↔ ∃ r, r ∈ VDict <$> dicts ∧ k ∈ record_keys r) as Hcols.
  { intros k. unfold cols. rewrite elem_of_fast_unique. split.
    - intros (buf & (d & -> & Hd)%list_elem_of_fmap & Hk).
      exists (VDict d). split; [by apply list_elem_of_fmap_2|done].
    - intros (r & (d & -> & Hd)%list_elem_of_fmap & Hk).
      exists (dict_keys d). split; [by apply list_elem_of_fmap_2|done]. }
  split.
  - intros (r0 & Hr0 & Hkeys0) Hrange.
    assert (cols ≠ []) as Hcols_ne.
    { destruct (record_keys r0) as [|k ks] eqn:Hk0; [done|].
      assert (k ∈ cols) as Hk; [|by intros E; rewrite E in Hk; apply elem_of_nil in Hk].
      apply Hcols. exists r0. split; [done|]. rewrite Hk0. left. }
    destruct (from_records_in_range _ Hrec Hrange) as [frame Hfr].
    destruct (from_records_dicts_Return dicts frame Hne Hfr) as (cs & Hcs & ->).
    fold cols in Hcs, Hfr |- *.
    assert (load_records (VList (VDict <$> dicts)) =
            Return {| index_len := length dicts; columns := cs |}) as Hload.
    { apply load_records_Return. exists (VDict <$> dicts).
      destruct cols as [|c0 cols'] eqn:Hc; [done|].
      split_and!; [done|done|].
      apply Forall2_cons_inv_l in Hcs as (c & cs' & _ & _ & ->).
      unfold empty. simpl. destruct dicts; done. }
    eexists. split; [exact Hload|]. unfold labels. simpl.
    rewrite (converted_labels _ _ _ _ Hcs). split_and!.
    + apply (NoDup_fmap_2 _), NoDup_fast_unique.
    + intros l. rewrite list_elem_of_fmap. split.
      * intros (k & -> & (r & ? & ?)%Hcols). eauto.
      * intros (k & r & -> & Hr & Hk). exists k. split; [done|].
        apply Hcols. eauto.
    + by rewrite length_fmap.
    + intros l s (k & _ & _ & Hconv)%(converted_elem _ _ _ _ _ _ Hcs).
      rewrite (convert_object_array_values _ _ Hconv). unfold dict_array.
      by rewrite !length_fmap.
    + intros k s i r (k' & _ & [= <-] & Hconv)%(converted_elem _ _ _ _ _ _ Hcs) Hi Hk.
      apply list_lookup_fmap_Some in Hi as (d & -> & Hd). simpl in Hk.
      apply dict_get_None in Hk.
      exists (store (dtype_of s) NaN). split; [|by rewrite isna_store].
      rewrite (convert_object_array_values _ _ Hconv). unfold dict_array.
      by rewrite !list_lookup_fmap, Hd; simpl; rewrite Hk.
  - intros Hblank.
    assert (cols = []) as Hnil.
    { apply fast_unique_no_keys, Forall_fmap, Forall_forall. intros d Hd. simpl.
      apply (Hblank (VDict d)). by apply list_elem_of_fmap_2. }
    unfold load_records. rewrite (from_records_dicts dicts Hne). fold cols.
    rewrite Hnil. destruct dicts; done.
Qed.

Lemma load_record_array_witness :
  ∃ df, (load_json_dataset ["data"; "sample_data.json"] sample_world).1 = Return df ∧
        index_len df = 2 ∧
        (LStr "category" ∈ labels df).
Proof.
  destruct (load_record_array ["data"; "sample_data.json"] sample_world
              (VList sample_records) sample_records) as [Hkeys _].
  - by vm_compute.
  - by left.
  - repeat constructor.
  - done.
  - destruct Hkeys as (df & Hload & _ & Hlabels & Hlen & _).
    + exists (VDict [("value", VInt 1); ("category", VStr "A")]).
      split; [left | discriminate].
    + intros r v Hr Hv. unfold sample_records in Hr.
      repeat (apply elem_of_cons in Hr as [->|Hr]); [..|by apply elem_of_nil in Hr];
        simpl in Hv;
        repeat (apply elem_of_cons in Hv as [->|Hv]); try done;
        by apply elem_of_nil in Hv.
    + exists df. split_and!; [done..|].
      apply Hlabels. exists "category", (VDict [("value", VInt 1); ("category", VStr "A")]).
      split_and!; [done|left|]. simpl. right. left.
Defined.

(** ** The column classifier *)

Lemma lookup_column_elem (cols : list (label * Series)) (l : label) (s : Series) :
  NoDup cols.*1 → (l, s) ∈ cols → lookup_column l cols = Some s.
Proof.
  induction cols as [|[l' s'] cols IH]; csimpl; [by intros _ ?%elem_of_nil|].
  rewrite NoDup_cons. intros [Hl' Hnd] [[= -> ->]|Hin]%elem_of_cons.
  - by rewrite decide_True.
  - rewrite decide_False; [by apply IH|].
    intros ->. apply Hl'. apply list_elem_of_fmap. by exists (l, s).
Qed.

Lemma lookup_column_Some (cols : list (label * Series)) (l : label) (s : Series) :
  lookup_column l cols = Some s → (l, s) ∈ cols.
Proof.
  induction cols as [|[l' s'] cols IH]; simpl; [done|].
  destruct (decide (l' = l)) as [->|]; [intros [= ->]; left | right; auto].
Qed.

Lemma elem_of_select_dtypes (include : list selector) (df : DataFrame) (l : label) :
  l ∈ labels (select_dtypes include df) ↔
  ∃ s, (l, s) ∈ columns df ∧ ∃ sel, sel ∈ include ∧ selects sel (dtype_of s).
Proof.
  unfold labels, select_dtypes. simpl. rewrite list_elem_of_fmap. split.
  - intros ([l' s] & -> & [Hsel Hin]%list_elem_of_filter). exists s. split; [done|].
    apply Is_true_true, existsb_exists in Hsel as (sel & Hsel & Hdt).
    exists sel. rewrite list_elem_of_In, Is_true_true. done.
  - intros (s & Hin & sel & Hsel & Hdt). exists (l, s). split; [done|].
    apply list_elem_of_filter. split; [|done].
    apply Is_true_true, existsb_exists. exists sel.
    rewrite <- list_elem_of_In, <- Is_true_true. done.
Qed.

Lemma elem_of_numeric_columns (df : DataFrame) (l : label) :
  l ∈ _numeric_columns df ↔ ∃ s, (l, s) ∈ columns df ∧ is_numeric s.
Proof.
  unfold _numeric_columns, is_numeric. rewrite elem_of_select_dtypes.
  split; intros (s & Hin & H); exists s; (split; [done|]).
  - destruct H as (sel & ->%list_elem_of_singleton & ?). done.
  - exists number. split; [left|done].
Qed.

Lemma elem_of_categorical_columns (df : DataFrame) (l : label) :
  l ∈ _categorical_columns df ↔ ∃ s, (l, s) ∈ columns df ∧ is_categorical s.
Proof.
  unfold _categorical_columns, is_categorical. rewrite elem_of_select_dtypes.
  split; intros (s & Hin & H); exists s; (split; [done|]).
  - destruct H as (sel & Hsel & ?).
    repeat (apply elem_of_cons in Hsel as [->|Hsel]); auto.
    by apply elem_of_nil in Hsel.
  - destruct H as [?|[?|?]]; eexists; (split; [|done]); set_solver.
Qed.

Lemma numeric_not_categorical (s : Series) : is_numeric s → ¬ is_categorical s.
Proof. unfold is_numeric, is_categorical. destruct (dtype_of s); simpl; tauto. Qed.

(** Only [None] and [nan] in an array: the scan sees nothing else. *)
Lemma scan_missing (vals : list value) (s : Seen) :
  Forall (λ v, isna v) vals →
  bool_ s = false → int_ s = false → float_ s = false → object_ s = false →
  ∃ s', scan s vals = Return s' ∧
        bool_ s' = false ∧ int_ s' = false ∧ float_ s' = false ∧ object_ s' = false.
Proof.
  intros Hvals. revert s.
  induction Hvals as [|v vals Hv _ IH]; intros s Hb Hi Hf Ho; [by exists s|].
  destruct v as [ | | |[]| | | ]; try done; simpl; by apply IH.
Qed.

Lemma infer_dtype_missing (vals : list value) :
  Forall (λ v, isna v) vals →
  infer_dtype vals = Return Float64 ∨ infer_dtype vals = Return Object.
Proof.
  intros Hvals. unfold infer_dtype, result_dtype.
  destruct (scan_missing vals seen_nothing Hvals eq_refl eq_refl eq_refl eq_refl)
    as (s' & -> & -> & -> & -> & ->).
  simpl. destruct (null_ s' || nan_ s'), (nan_ s'); auto.
Qed.

Lemma convert_object_array_dtype (vals : list value) (s : Series) :
  convert_object_array vals = Return s → infer_dtype vals = Return (dtype_of s).
Proof.
  intros (seen & Hscan & ->)%convert_object_array_Return.
  unfold infer_dtype. by rewrite Hscan.
Qed.

Lemma frame_of_arrays_columns (n : nat) (names : list label)
    (arrays : list (list value)) (df : DataFrame) (l : label) (s : Series) :
  frame_of_arrays n names arrays = Return df → (l, s) ∈ columns df →
  ∃ vals, vals ∈ arrays ∧ convert_object_array vals = Return s.
Proof.
  intros (series & Hseries & ->)%frame_of_arrays_Return Hin%elem_of_zip_r.
  apply list_elem_of_lookup in Hin as [i Hi].
  destruct (Forall2_lookup_r _ _ _ _ _ Hseries Hi) as (vals & Hvals & Hconv).
  exists vals. split; [by eapply list_elem_of_lookup_2|done].
Qed.

Lemma from_records_columns (items : list value) (df : DataFrame) (l : label) (s : Series) :
  from_records items = Return df → (l, s) ∈ columns df →
  ∃ vals, convert_object_array vals = Return s.
Proof.
  unfold from_records. destruct items as [|r items].
  { intros [= <-] []%elem_of_nil. }
  assert (∀ n names arrays, frame_of_arrays n names arrays = Return df →
                            (l, s) ∈ columns df →
                            ∃ vals, convert_object_array vals = Return s) as Hzip.
  { intros n names arrays Hframe Hin.
    destruct (frame_of_arrays_columns _ _ _ _ _ _ Hframe Hin) as (vals & _ & ?). eauto. }
  destruct r;
    try (destruct (mapM as_sequence _) as [rows|]; [apply Hzip|discriminate]).
  destruct (mapM as_dict _) as [dicts|]; [apply Hzip|discriminate].
Qed.

(** A column of a loaded Dataset whose values are all missing is stored as
    an object column or as a float column, and so is classified. *)
Lemma missing_column_classified (records : value) (df : DataFrame) (l : label) (s : Series) :
  load_records records = Return df → (l, s) ∈ columns df →
  Forall (λ v, isna v) (values s) →
  (dtype_of s = Object ∧ l ∈ _categorical_columns df) ∨
  (dtype_of s = Float64 ∧ l ∈ _numeric_columns df).
Proof.
  intros (items & _ & Hfr & _)%load_records_Return Hin Hna.
  destruct (from_records_columns _ _ _ _ Hfr Hin) as [vals Hconv].
  rewrite (convert_object_array_values _ _ Hconv), Forall_fmap in Hna.
  assert (Forall (λ v, isna v) vals) as Hvals.
  { eapply Forall_impl; [exact Hna|]. intros v. simpl. by rewrite isna_store. }
  apply convert_object_array_dtype in Hconv.
  destruct (infer_dtype_missing vals Hvals) as [Hdt|Hdt];
    rewrite Hdt in Hconv; injection Hconv as Hs; symmetry in Hs; [right|left];
    (split; [exact Hs|]).
  - apply elem_of_numeric_columns. eexists. split; [done|].
    unfold is_numeric. by rewrite Hs.
  - apply elem_of_categorical_columns. eexists. split; [done|].
    left. by rewrite Hs.
Qed.

(** Every column of a loaded Dataset is numeric or categorical, so a loaded
    Dataset always has a column of one of the two kinds. *)
Lemma infer_dtype_cases (vals : list value) (dt : dtype) :
  infer_dtype vals = Return dt → dt ∈ [Int64; UInt64; Float64; Bool; Object].
Proof.
  unfold infer_dtype, result_dtype.
  destruct (scan seen_nothing vals) as [[[] [] [] [] [] [] [] []]|]; simpl;
    intros [= <-]; set_solver.
Qed.

Lemma loaded_column_classified (records : value) (df : DataFrame) (l : label) (s : Series) :
  load_records records = Return df → (l, s) ∈ columns df →
  l ∈ _numeric_columns df ∨ l ∈ _categorical_columns df.
Proof.
  intros (items & _ & Hfr & _)%load_records_Return Hin.
  destruct (from_records_columns _ _ _ _ Hfr Hin) as [vals Hconv].
  rewrite elem_of_numeric_columns, elem_of_categorical_columns.
  apply convert_object_array_dtype, infer_dtype_cases in Hconv as Hdt.
  repeat (apply elem_of_cons in Hdt as [Hdt|Hdt]);
    [left|left|left|right|right|by apply elem_of_nil in Hdt];
    eexists; (split; [exact Hin|]);
    unfold is_numeric, is_categorical; rewrite Hdt; simpl; tauto.
Qed.

Lemma loaded_frame_has_plots (records : value) (df : DataFrame) :
  load_records records = Return df →
  _numeric_columns df ≠ [] ∨ _categorical_columns df ≠ [].
Proof.
  intros Hload.
  assert (empty df = false) as [_ Hcols]%not_empty_dimensions.
  { by apply load_records_Return in Hload as (items & _ & _ & ?). }
  destruct (columns df) as [|[l s] cols] eqn:Hdf; [simpl in Hcols; lia|].
  destruct (loaded_column_classified records df l s Hload) as [Hl|Hl].
  - rewrite Hdf. left.
  - left. intros Hnil. rewrite Hnil in Hl. by apply elem_of_nil in Hl.
  - right. intros Hnil. rewrite Hnil in Hl. by apply elem_of_nil in Hl.
Qed.

Example classify_sample_frame :
  load_records (VList sample_records) = Return sample_frame ∧
  _numeric_columns sample_frame = [LStr "value"] ∧
  _categorical_columns sample_frame = [LStr "category"].
Proof. by vm_compute. Qed.

(** ** Running the renderers *)





Lemma until_failure_app (calls1 calls2 : list (outcome unit * Page)) :
  until_failure (calls1 ++ calls2) =
  match (until_failure calls1).2 with
  | Return _ => ((until_failure calls1).1 ++ (until_failure calls2).1,
                 (until_failure calls2).2)
  | Raise e => ((until_failure calls1).1, Raise e)
  end.
Proof.
  induction calls1 as [|[[u|e] page] calls1 IH]; simpl.
  - by destruct (until_failure calls2).
  - rewrite IH. destruct (until_failure calls1) as [pages [u'|e]]; simpl; [|done].
    by destruct (until_failure calls2).
  - done.
Qed.

Lemma until_failure_returns (calls : list (outcome unit * Page)) :
  Forall (λ c, c.1 = Return tt) calls → until_failure calls = (calls.*2, Return tt).
Proof.
  induction 1 as [|[call page] calls Hcall _ IH]; [done|].
  simpl in Hcall. subst call. simpl. by rewrite IH.
Qed.

Lemma until_failure_Return (calls : list (outcome unit * Page)) (u : unit) :
  (until_failure calls).2 = Return u → Forall (λ c, c.1 = Return tt) calls.
Proof.
  induction calls as [|[[[]|e] page] calls IH]; simpl; [constructor| |done].
  destruct (until_failure calls) as [pages result]. simpl in *.
  intros Hresult. constructor; [done|]. by apply IH.
Qed.

(** The pages saved are always the pages of the first calls. *)
Lemma until_failure_prefix (calls : list (outcome unit * Page)) :
  (until_failure calls).1 `prefix_of` calls.*2.
Proof.
  induction calls as [|[[u|e] page] calls IH]; simpl.
  - done.
  - destruct (until_failure calls) as [pages result]. csimpl in *.
    by apply prefix_cons.
  - apply prefix_nil.
Qed.

Lemma until_failure_Raise_length (calls : list (outcome unit * Page))
    (pages : list Page) (e : exn) :
  until_failure calls = (pages, Raise e) → length pages < length calls.
Proof.
  revert pages. induction calls as [|[[u|e'] page] calls IH]; intros pages; simpl.
  - done.
  - destruct (until_failure calls) as [pages' result].
    intros [= <- ->]. specialize (IH pages' eq_refl). simpl. lia.
  - intros [= <- _]. simpl. lia.
Qed.

(** Writing back what the document holds changes nothing. *)
Lemma world_unchanged (pdf : Path) (w : World) (pages0 : list Page) :
  fs w !! pdf = Some (PdfFile pages0) →
  w = {| fs := <[pdf := PdfFile (pages0 ++ [])]> (fs w);
         time := time w; reads := reads w |}.
Proof.
  intros Hpdf. destruct w as [files t r]; simpl in *.
  f_equal. rewrite app_nil_r. symmetry. by apply insert_id.
Qed.

Lemma runs_as_ret (pdf : Path) : runs_as pdf (ret tt) [].
Proof.
  intros w pages0 Hpdf. unfold ret. simpl. f_equal. by apply world_unchanged.
Qed.

Lemma runs_as_savefig `{Library} (pdf : Path) (page : Page) :
  runs_as pdf (savefig pdf page) [(draw page, page)].
Proof.
  intros w pages0 Hpdf. unfold savefig, bind, lift, add_page.
  destruct (draw page) as [u|e]; simpl.
  - by rewrite Hpdf.
  - f_equal. by apply world_unchanged.
Qed.

Lemma runs_as_call `{Library} (pdf : Path) (call : outcome unit) (page : Page) :
  runs_as pdf (lift call ;;; savefig pdf page) [(and_then call (draw page), page)].
Proof.
  intros w pages0 Hpdf. unfold bind at 1, lift at 1. destruct call as [u|e]; simpl.
  - by apply runs_as_savefig.
  - f_equal. by apply world_unchanged.
Qed.

Lemma runs_as_bind (pdf : Path) (m1 m2 : M unit)
    (calls1 calls2 : list (outcome unit * Page)) :
  runs_as pdf m1 calls1 → runs_as pdf m2 calls2 →
  runs_as pdf (m1 ;;; m2) (calls1 ++ calls2).
Proof.
  intros H1 H2 w pages0 Hpdf. unfold bind. rewrite (H1 w pages0 Hpdf).
  rewrite until_failure_app.
  destruct (until_failure calls1) as [pages1 [u|e]]; simpl; [|done].
  rewrite (H2 _ (pages0 ++ pages1)); simpl; [|by rewrite lookup_insert_eq].
  by rewrite insert_insert_eq, app_assoc.
Qed.

Lemma runs_as_for_each {A} (pdf : Path) (f : A → M unit)
    (g : A → list (outcome unit * Page)) (l : list A) :
  (∀ x, x ∈ l → runs_as pdf (f x) (g x)) →
  runs_as pdf (for_each f l) (concat (g <$> l)).
Proof.
  induction l as [|x l IH]; intros Hf; simpl.
  - apply runs_as_ret.
  - apply runs_as_bind; [apply Hf; left|]. apply IH. intros y Hy. apply Hf. by right.
Qed.

Lemma series_empty_dropna (s : Series) :
  series_empty (dropna s) = false ↔ has_values s.
Proof.
  unfold series_empty, has_values. rewrite Nat.eqb_neq.
  destruct (values (dropna s)); simpl; split; (done || lia).
Qed.

Lemma runs_as_plot_numeric_column `{Library} (pdf : Path) (df : DataFrame)
    (l : label) (s : Series) :
  lookup_column l (columns df) = Some s →
  runs_as pdf (_plot_numeric_column pdf df l)
          (if decide (has_values s) then [numeric_call (l, s)] else []).
Proof.
  intros Hl w pages0 Hpdf. unfold _plot_numeric_column, bind at 1, getitem. rewrite Hl.
  unfold ret at 1. destruct (decide (has_values s)) as [Hv|Hv].
  - apply series_empty_dropna in Hv as ->.
    unfold bind at 1, lift at 1, numeric_call. cbn [fst snd].
    destruct (histplot (dropna s)) as [u|e]; cbn [and_then].
    + by apply (runs_as_call pdf (boxplot (dropna s))).
    + cbn [until_failure fst snd]. f_equal. by apply world_unchanged.
  - destruct (series_empty (dropna s)) eqn:He.
    + by apply runs_as_ret.
    + by apply series_empty_dropna in He.
Qed.

Lemma astype_str_empty `{Library} (s : Series) :
  (length (astype_str (dropna s)) =? 0) = false ↔ has_values s.
Proof.
  unfold astype_str, has_values. rewrite length_fmap, Nat.eqb_neq.
  destruct (values (dropna s)); simpl; split; (done || lia).
Qed.

Lemma runs_as_plot_categorical_column `{Library} (pdf : Path) (df : DataFrame)
    (l : label) (s : Series) :
  lookup_column l (columns df) = Some s →
  runs_as pdf (_plot_categorical_column pdf df l)
          (if decide (has_values s) then [categorical_call (l, s)] else []).
Proof.
  intros Hl w pages0 Hpdf. unfold _plot_categorical_column, bind at 1, getitem.
  rewrite Hl. unfold ret at 1. destruct (decide (has_values s)) as [Hv|Hv].
  - apply astype_str_empty in Hv as ->. by apply runs_as_call.
  - destruct (length (astype_str (dropna s)) =? 0) eqn:He.
    + by apply runs_as_ret.
    + by apply astype_str_empty in He.
Qed.

Lemma runs_as_plot_correlation_heatmap `{Library} (pdf : Path) (df : DataFrame) :
  runs_as pdf (_plot_correlation_heatmap pdf df (_numeric_columns df))
          (correlation_calls df).
Proof.
  unfold _plot_correlation_heatmap, correlation_calls.
  destruct (decide (2 ≤ length (_numeric_columns df))) as [Hn|Hn].
  - apply Nat.ltb_ge in Hn as ->. apply runs_as_call.
  - apply Nat.nle_gt, Nat.ltb_lt in Hn as ->. apply runs_as_ret.
Qed.

(** One call per listed column that has a value, in the order listed. *)
Lemma concat_filter {A B} (P Q : A → Prop) `{!∀ x, Decision (P x)}
    `{!∀ x, Decision (Q x)} (item : A → B) (l : list A) :
  concat ((λ c, if decide (Q c) then [item c] else []) <$> filter P l)
  = item <$> filter (λ c, P c ∧ Q c) l.
Proof.
  induction l as [|x l IH]; [done|].
  rewrite !filter_cons. destruct (decide (P x)) as [Hp|Hp].
  - csimpl. rewrite IH. destruct (decide (Q x)) as [Hq|Hq].
    + by rewrite decide_True.
    + rewrite decide_False by tauto. done.
  - rewrite decide_False by tauto. done.
Qed.

Lemma runs_as_for_each_column (pdf : Path) (df : DataFrame) (f : label → M unit)
    (calls : label * Series → list (outcome unit * Page)) (cols : list (label * Series)) :
  NoDup (labels df) →
  cols ⊆ columns df →
  (∀ l s, lookup_column l (columns df) = Some s → runs_as pdf (f l) (calls (l, s))) →
  runs_as pdf (for_each f cols.*1) (concat (calls <$> cols)).
Proof.
  intros Hnd Hsub Hf.
  induction cols as [|[l s] cols IH]; simpl.
  - apply runs_as_ret.
  - apply runs_as_bind.
    + apply Hf, lookup_column_elem; [done|]. apply Hsub. left.
    + apply IH. intros c Hc. apply Hsub. by right.
Qed.

Lemma select_number_filter (df : DataFrame) :
  columns (select_dtypes [number] df) = filter (λ c, is_numeric c.2) (columns df).
Proof.
  unfold select_dtypes, is_numeric. simpl. apply list_filter_iff.
  intros [l s]. simpl. by rewrite orb_false_r.
Qed.

Lemma select_categorical_filter (df : DataFrame) :
  columns (select_dtypes [object; category; bool_sel] df)
  = filter (λ c, is_categorical c.2) (columns df).
Proof.
  unfold select_dtypes, is_categorical. simpl. apply list_filter_iff.
  intros [l s]. simpl. rewrite orb_false_r, !orb_True. tauto.
Qed.

Lemma runs_as_numeric_columns `{Library} (pdf : Path) (df : DataFrame) :
  NoDup (labels df) →
  runs_as pdf (for_each (_plot_numeric_column pdf df) (_numeric_columns df))
          (numeric_calls df).
Proof.
  intros Hnd. unfold _numeric_columns, labels, numeric_calls.
  rewrite select_number_filter.
  rewrite <- (concat_filter (λ c, is_numeric c.2) (λ c, has_values c.2) numeric_call).
  apply (runs_as_for_each_column pdf df _
           (λ c, if decide (has_values c.2) then [numeric_call c] else [])); [done| |].
  - intros c [_ Hc]%list_elem_of_filter. done.
  - intros l s Hl. by apply runs_as_plot_numeric_column.
Qed.

Lemma runs_as_categorical_columns `{Library} (pdf : Path) (df : DataFrame) :
  NoDup (labels df) →
  runs_as pdf (for_each (_plot_categorical_column pdf df) (_categorical_columns df))
          (categorical_calls df).
Proof.
  intros Hnd. unfold _categorical_columns, labels, categorical_calls.
  rewrite select_categorical_filter.
  rewrite <- (concat_filter (λ c, is_categorical c.2) (λ c, has_values c.2)
                categorical_call).
  apply (runs_as_for_each_column pdf df _
           (λ c, if decide (has_values c.2) then [categorical_call c] else []));
    [done| |].
  - intros c [_ Hc]%list_elem_of_filter. done.
  - intros l s Hl. by apply runs_as_plot_categorical_column.
Qed.

Lemma filter_and_nil {A} (P Q : A → Prop) `{!∀ x, Decision (P x)}
    `{!∀ x, Decision (Q x)} (l : list A) :
  filter P l = [] → filter (λ c, P c ∧ Q c) l = [].
Proof.
  intros HP. rewrite (list_filter_iff _ (λ c, Q c ∧ P c)) by (intros; tauto).
  by rewrite <- list_filter_filter, HP.
Qed.

Lemma numeric_filter_nil (df : DataFrame) :
  _numeric_columns df = [] →
  filter (λ c, is_numeric c.2 ∧ has_values c.2) (columns df) = [].
Proof.
  intros Hnum. unfold _numeric_columns, labels in Hnum.
  rewrite select_number_filter in Hnum. apply fmap_nil_inv in Hnum.
  by apply filter_and_nil.
Qed.

Lemma categorical_filter_nil (df : DataFrame) :
  _categorical_columns df = [] →
  filter (λ c, is_categorical c.2 ∧ has_values c.2) (columns df) = [].
Proof.
  intros Hcat. unfold _categorical_columns, labels in Hcat.
  rewrite select_categorical_filter in Hcat. apply fmap_nil_inv in Hcat.
  by apply filter_and_nil.
Qed.



Lemma numeric_calls_nil `{Library} (df : DataFrame) :
  _numeric_columns df = [] → numeric_calls df = [] ∧ correlation_calls df = [].
Proof.
  intros Hnum. unfold correlation_calls, numeric_calls.
  by rewrite (numeric_filter_nil df Hnum), Hnum.
Qed.

Lemma categorical_calls_nil `{Library} (df : DataFrame) :
  _categorical_columns df = [] → categorical_calls df = [].
Proof.
  intros Hcat. unfold categorical_calls. by rewrite (categorical_filter_nil df Hcat).
Qed.

(** The pages of the plotting calls are the plot pages of the report. *)
Lemma plot_calls_pages `{Library} (df : DataFrame) :
  (plot_calls df).*2 = numeric_pages df ++ correlation_pages df ++ categorical_pages df.
Proof.
  unfold plot_calls, numeric_calls, correlation_calls, categorical_calls,
    numeric_pages, correlation_pages, categorical_pages.
  rewrite !fmap_app, <- !list_fmap_compose.
  by destruct (decide (2 ≤ length (_numeric_columns df))).
Qed.

(** A Dataset with a fallback page has no plotting call. *)
Lemma fallback_no_calls `{Library} (df : DataFrame) :
  fallback_pages df ≠ [] → plot_calls df = [].
Proof.
  unfold fallback_pages, plot_calls.
  destruct (decide (_numeric_columns df = [] ∧ _categorical_columns df = []))
    as [[Hnum Hcat]|]; [|done].
  intros _. destruct (numeric_calls_nil df Hnum) as [-> ->].
  by rewrite (categorical_calls_nil df Hcat).
Qed.

Lemma page_calls_pages `{Library} (config : ReportConfig) (df : DataFrame)
    (now : datetime) :
  (page_calls config df now).*2 = report_pages config df now.
Proof.
  unfold page_calls, fallback_calls, report_pages.
  by rewrite fmap_cons, fmap_app, plot_calls_pages, <- list_fmap_compose, list_fmap_id,
    <- !app_assoc.
Qed.

Lemma rendering_returns `{Library} (config : ReportConfig) (df : DataFrame)
    (now : datetime) :
  calls_return config df now →
  rendering config df now = (report_pages config df now, Return tt).
Proof.
  intros Hcalls. unfold rendering.
  by rewrite (until_failure_returns _ Hcalls), page_calls_pages.
Qed.

Lemma rendering_Return `{Library} (config : ReportConfig) (df : DataFrame)
    (now : datetime) (u : unit) :
  (rendering config df now).2 = Return u → calls_return config df now.
Proof. apply until_failure_Return. Qed.

(** When a call raises, so does the rendering, and what it saved are the
    first pages of the report. *)
Lemma rendering_Raise `{Library} (config : ReportConfig) (df : DataFrame)
    (now : datetime) (e : exn) :
  (rendering config df now).2 = Raise e →
  ¬ calls_return config df now ∧
  (rendering config df now).1 `prefix_of` report_pages config df now.
Proof.
  intros Hraise. split.
  - intros Hcalls. rewrite (rendering_returns _ _ _ Hcalls) in Hraise. discriminate.
  - rewrite <- page_calls_pages. apply until_failure_prefix.
Qed.

Lemma bind_Return {A B} (m : M A) (k : A → M B) (w w' : World) (a : A) :
  m w = (Return a, w') → bind m k w = k a w'.
Proof. unfold bind. by intros ->. Qed.

Lemma bind_Raise {A B} (m : M A) (k : A → M B) (w w' : World) (e : exn) :
  m w = (Raise e, w') → bind m k w = (Raise e, w').
Proof. unfold bind. by intros ->. Qed.

(** The body of the [with] block, run on a document that is open: the
    pages that the calls let through. *)
Lemma write_pages_eq `{Library} (pdf : Path) (config : ReportConfig) (df : DataFrame)
    (w : World) (pages0 : list Page) :
  NoDup (labels df) →
  fs w !! pdf = Some (PdfFile pages0) →
  write_pages pdf config df (_numeric_columns df) (_categorical_columns df) w =
  ((rendering config df (time w (reads w))).2,
   {| fs := <[pdf := PdfFile (pages0 ++ (rendering config df (time w (reads w))).1)]>
              (fs w);
      time := time w; reads := S (reads w) |}).
Proof.
  intros Hnd Hpdf. unfold write_pages.
  assert (runs_as pdf
    ((if _numeric_columns df is [] then ret tt
      else for_each (_plot_numeric_column pdf df) (_numeric_columns df) ;;;
           _plot_correlation_heatmap pdf df (_numeric_columns df)) ;;;
     (if _categorical_columns df is [] then ret tt
      else for_each (_plot_categorical_column pdf df) (_categorical_columns df)) ;;;
     (if _numeric_columns df is [] then
        if _categorical_columns df is [] then savefig pdf (FallbackPage fallback_text)
        else ret tt
      else ret tt))
    (plot_calls df ++ fallback_calls df)) as Hrest.
  { unfold plot_calls. rewrite <- !app_assoc, (app_assoc (numeric_calls df)).
    apply runs_as_bind; [|apply runs_as_bind].
    - destruct (_numeric_columns df) as [|l ls] eqn:Hnum.
      + destruct (numeric_calls_nil df Hnum) as [-> ->]. apply runs_as_ret.
      + rewrite <- Hnum. apply runs_as_bind.
        * by apply runs_as_numeric_columns.
        * apply runs_as_plot_correlation_heatmap.
    - destruct (_categorical_columns df) as [|l ls] eqn:Hcat.
      + rewrite (categorical_calls_nil df Hcat). apply runs_as_ret.
      + rewrite <- Hcat. by apply runs_as_categorical_columns.
    - unfold fallback_calls, fallback_pages.
      destruct (_numeric_columns df), (_categorical_columns df);
        (rewrite decide_True by done; apply runs_as_savefig) ||
        (rewrite decide_False by (by intros [? ?]); apply runs_as_ret). }
  set (now := time w (reads w)).
  set (w1 := {| fs := fs w; time := time w; reads := S (reads w) |}).
  assert (runs_as pdf
            (savefig pdf (title_page config df now) ;;;
             (if _numeric_columns df is [] then ret tt
              else for_each (_plot_numeric_column pdf df) (_numeric_columns df) ;;;
                   _plot_correlation_heatmap pdf df (_numeric_columns df)) ;;;
             (if _categorical_columns df is [] then ret tt
              else for_each (_plot_categorical_column pdf df) (_categorical_columns df)) ;;;
             (if _numeric_columns df is [] then
                if _categorical_columns df is [] then savefig pdf (FallbackPage fallback_text)
                else ret tt
              else ret tt))
            (page_calls config df now)) as Hall.
  { apply (runs_as_bind pdf _ _ [(draw (title_page config df now), title_page config df now)]);
      [apply runs_as_savefig|exact Hrest]. }
  specialize (Hall w1 pages0 Hpdf). unfold rendering.
  etransitivity; [|exact Hall]. reflexivity.
Qed.

(** ** The column classifier, continued *)

(** C4, as stated, fails in its example: a column whose values are all
    missing is not left out of both sequences. *)
Lemma classifier_missing_column_counterexample :
  ¬ (∀ records df l s,
       load_records records = Return df → (l, s) ∈ columns df →
       Forall (λ v, isna v) (values s) →
       (l ∉ _numeric_columns df) ∧ (l ∉ _categorical_columns df)).
Proof.
  intros Hclaim.
  destruct (Hclaim (VList [VDict [("a", VNone); ("b", VInt 1)]])
                   {| index_len := 1;
                      columns := [(LStr "a", {| dtype_of := Object; values := [VNone] |});
                                  (LStr "b", {| dtype_of := Int64; values := [VInt 1] |})] |}
                   (LStr "a") {| dtype_of := Object; values := [VNone] |})
    as [_ Hcat].
  - reflexivity.
  - left.
  - by repeat constructor.
  - apply Hcat. vm_compute. left.
Qed.

Lemma dropna_all_missing (s : Series) :
  Forall (λ v, isna v) (values s) → values (dropna s) = [].
Proof.
  intros Hna. unfold dropna. simpl.
  induction Hna as [|v vals Hv _ IH]; [done|]. by rewrite filter_cons_False by tauto.
Qed.

(** C4 (amended): on a Dataset, whose labels are distinct, both sequences
    keep the column order, no label is in both, boolean columns are
    categorical, and a column whose dtype is neither numeric nor
    object/category/bool is in neither; a column of a loaded Dataset whose
    values are all missing is not such a column: it is stored as an object
    column and listed as categorical, or as a float column and listed as
    numeric; and a column whose values are all missing produces no page,
    from the numeric renderer as from the categorical one, which return
    without a plotting call. *)
Theorem column_classification `{Library} (df : DataFrame) :
  NoDup (labels df) →
  _numeric_columns df `sublist_of` labels df ∧
  _categorical_columns df `sublist_of` labels df ∧
  (∀ l, l ∈ _numeric_columns df → l ∉ _categorical_columns df) ∧
  (∀ l s, (l, s) ∈ columns df → dtype_of s = Bool → l ∈ _categorical_columns df) ∧
  (∀ l s, (l, s) ∈ columns df → ¬ is_numeric s → ¬ is_categorical s →
          (l ∉ _numeric_columns df) ∧ (l ∉ _categorical_columns df)) ∧
  (∀ records l s, load_records records = Return df → (l, s) ∈ columns df →
                  Forall (λ v, isna v) (values s) →
                  (dtype_of s = Object ∧ l ∈ _categorical_columns df) ∨
                  (dtype_of s = Float64 ∧ l ∈ _numeric_columns df)) ∧
  (∀ pdf l s, (l, s) ∈ columns df → Forall (λ v, isna v) (values s) →
              appends pdf (_plot_numeric_column pdf df l) [] ∧
              appends pdf (_plot_categorical_column pdf df l) []).
Proof.
  intros Hnd.
  assert (∀ l s s', (l, s) ∈ columns df → (l, s') ∈ columns df → s = s') as Huniq.
  { intros l s s' H1%(lookup_column_elem _ _ _ Hnd) H2%(lookup_column_elem _ _ _ Hnd).
    congruence. }
  split_and!.
  - apply fmap_sublist, sublist_filter.
  - apply fmap_sublist, sublist_filter.
  - intros l (s & Hs & Hnum)%elem_of_numeric_columns
             (s' & Hs' & Hcat)%elem_of_categorical_columns.
    rewrite <- (Huniq _ _ _ Hs Hs') in Hcat. by apply numeric_not_categorical in Hnum.
  - intros l s Hs Hdt. apply elem_of_categorical_columns. exists s. split; [done|].
    right. right. by rewrite Hdt.
  - intros l s Hs Hnum Hcat. split.
    + intros (s' & Hs' & Hnum')%elem_of_numeric_columns.
      by rewrite <- (Huniq _ _ _ Hs Hs') in Hnum'.
    + intros (s' & Hs' & Hcat')%elem_of_categorical_columns.
      by rewrite <- (Huniq _ _ _ Hs Hs') in Hcat'.
  - intros records l s. apply missing_column_classified.
  - intros pdf l s Hs%(lookup_column_elem _ _ _ Hnd) Hna%dropna_all_missing.
    assert (¬ has_values s) as Hv
      by (unfold has_values; rewrite Hna; intros Hne; by apply Hne).
    split.
    + pose proof (runs_as_plot_numeric_column pdf df l s Hs) as Hruns.
      by rewrite decide_False in Hruns.
    + pose proof (runs_as_plot_categorical_column pdf df l s Hs) as Hruns.
      by rewrite decide_False in Hruns.
Qed.

Lemma column_classification_witness :
  _numeric_columns sample_frame `sublist_of` labels sample_frame ∧
  (LStr "value" ∉ _categorical_columns sample_frame).
Proof.
  destruct (column_classification (H:=reference_library) sample_frame)
    as (Hsub & _ & Hdisj & _).
  - apply (bool_decide_unpack _). by vm_compute.
  - split; [done|]. apply Hdisj. vm_compute. left.
Defined.

(** A column of nulls among the sample records: listed as categorical,
    and without a page in the report. *)
Example missing_column_no_page :
  let records := [VDict [("a", VNone); ("b", VInt 1)]] in
  ∃ df, load_records (VList records) = Return df ∧
        _categorical_columns df = [LStr "a"] ∧
        (@rendering reference_library sample_config df noon).1 =
          [title_page sample_config df noon; NumericPage (LStr "b") [VInt 1]].
Proof. eexists. split; [reflexivity|]. by vm_compute. Qed.

(** ** The assembler *)

(** [generate_pdf_report], stage by stage. *)
Lemma generate_pdf_report_eq `{Library} (config : ReportConfig) (w : World) :
  generate_pdf_report config w =
  match (load_json_dataset (json_path config) w).1 with
  | Raise e => (Raise e, w)
  | Return df =>
      if is_file (fs w !! report_dir config) then (Raise FileExistsError, w)
      else if existsb (λ p, is_file (fs w !! p)) (with_parents (report_dir config))
      then (Raise NotADirectoryError, w)
      else
        let files := make_dirs (report_dir config) (fs w) in
        let p := joinpath (report_dir config)
                          (report_name (strftime_compact (time w (reads w)))) in
        match files !! p with
        | Some Directory =>
            (Raise IsADirectoryError,
             {| fs := files; time := time w; reads := S (reads w) |})
        | _ =>
            (match (rendering config df (time w (S (reads w)))).2 with
             | Return _ => Return p
             | Raise e => Raise e
             end,
             {| fs := <[p := PdfFile (rendering config df (time w (S (reads w)))).1]>
                        files;
                time := time w; reads := S (S (reads w)) |})
        end
  end.
Proof.
  unfold generate_pdf_report.
  destruct (load_json_dataset (json_path config) w) as [[df|e] w0] eqn:Hload;
    pose proof (load_json_dataset_world (json_path config) w) as Hw;
    rewrite Hload in Hw; simpl in Hw; subst w0; simpl.
  2: { by erewrite bind_Raise. }
  assert (NoDup (labels df)) as Hnd.
  { rewrite load_json_dataset_eq in Hload.
    destruct (fs w !! json_path config) as [[]|]; try discriminate.
    injection Hload as Hload. by apply load_records_labels_NoDup in Hload. }
  erewrite bind_Return; [|done].
  unfold mkdir_parents, bind at 1.
  destruct (is_file (fs w !! report_dir config)); [done|].
  destruct (existsb _ (with_parents (report_dir config))); [done|].
  fold (make_dirs (report_dir config) (fs w)).
  unfold bind at 1, datetime_now; simpl.
  unfold bind at 1, PdfPages; simpl.
  set (files := make_dirs (report_dir config) (fs w)).
  set (p := joinpath (report_dir config) (report_name (strftime_compact (time w (reads w))))).
  assert (∀ w1, fs w1 = <[p := PdfFile []]> files →
    (write_pages p config df (_numeric_columns df) (_categorical_columns df);;;
     ret p) w1 =
    (match (rendering config df (time w1 (reads w1))).2 with
     | Return _ => Return p
     | Raise e => Raise e
     end,
     {| fs := <[p := PdfFile (rendering config df (time w1 (reads w1))).1]> files;
        time := time w1; reads := S (reads w1) |})) as Hbody.
  { intros w1 Hw1. unfold bind.
    rewrite (write_pages_eq p config df w1 [] Hnd) by (by rewrite Hw1, lookup_insert_eq).
    rewrite Hw1, insert_insert_eq. simpl.
    by destruct ((rendering config df (time w1 (reads w1))).2). }
  destruct (files !! p) as [[]|]; try done; by rewrite Hbody.
Qed.

(** C8: when the loader fails, its failure is the outcome of the whole
    call, unchanged, and the world is as it was: the destination directory
    has not been created and no output file has been opened or written. *)
Theorem generate_pdf_report_load_failure `{Library} (config : ReportConfig)
    (w : World) (e : exn) :
  (load_json_dataset (json_path config) w).1 = Raise e →
  generate_pdf_report config w = (Raise e, w).
Proof. intros Hload. by rewrite generate_pdf_report_eq, Hload. Qed.

Lemma generate_pdf_report_load_failure_witness :
  @generate_pdf_report reference_library
    {| json_path := ["missing.json"]; report_dir := ["reports"]; title := None |}
    sample_world
  = (Raise (FileNotFoundError ["missing.json"]), sample_world).
Proof. apply generate_pdf_report_load_failure. by vm_compute. Defined.

(** By contrast a successful call does create the directory and the file. *)
Example generate_sample_report :
  let run := @generate_pdf_report reference_library sample_config sample_world in
  run.1 = Return ["reports"; "report_20240101_120000.pdf"] ∧
  fs run.2 !! ["reports"] = Some Directory ∧
  document ["reports"; "report_20240101_120000.pdf"] run.2 =
    [TitlePage "Test Report" noon "sample_data.json" 2 2;
     NumericPage (LStr "value") [VInt 1; VInt 2];
     CategoricalPage (LStr "category") [("B", 1); ("A", 1)]].
Proof. by vm_compute. Qed.

(** And a call during which a plotting call raises ends with that
    exception, leaving the directory and a document that stops before the
    page of the failed plot. *)
Example generate_report_plot_refused :
  let run := @generate_pdf_report refusing_library sample_config sample_world in
  run.1 = Raise (ValueError "Maximum allowed size exceeded") ∧
  fs run.2 !! ["reports"] = Some Directory ∧
  document ["reports"; "report_20240101_120000.pdf"] run.2 =
    [TitlePage "Test Report" noon "sample_data.json" 2 2].
Proof. by vm_compute. Qed.




Example load_gaps_records : load_records (VList gaps_records) = Return gaps_frame.
Proof. reflexivity. Qed.


(** A frame with neither kind of column gets the title page and the
    fallback page. *)
Example write_pages_fallback :
  document ["out.pdf"]
    (@write_pages reference_library ["out.pdf"] sample_config timestamps_frame
       (_numeric_columns timestamps_frame) (_categorical_columns timestamps_frame)
       open_document_world).2
  = [title_page sample_config timestamps_frame noon; FallbackPage fallback_text].
Proof. by vm_compute. Qed.

(** ** The name of the report *)

Lemma string_length_app (s1 s2 : string) :
  String.length (s1 +:+ s2) = String.length s1 + String.length s2.
Proof. induction s1 as [|c s1 IH]; simpl; [done|]. by rewrite IH. Qed.

Lemma digit_cases (n : Z) :
  ∃ k : Z, (0 ≤ k < 10)%Z ∧ (n mod 10 = k)%Z ∧ digit n = ascii_of_N (Z.to_N (48 + k)).
Proof.
  exists (n mod 10)%Z. split; [apply Z.mod_pos_bound; lia | done].
Qed.

Lemma digit_is_digit (n : Z) : is_digit (digit n) = true.
Proof.
  destruct (digit_cases n) as (k & Hk & _ & ->).
  assert (k = 0 ∨ k = 1 ∨ k = 2 ∨ k = 3 ∨ k = 4 ∨ k = 5 ∨ k = 6 ∨ k = 7 ∨
          k = 8 ∨ k = 9)%Z as Hcases by lia.
  repeat (destruct Hcases as [->|Hcases]; [reflexivity|]). by subst.
Qed.

Lemma digit_inj (a b : Z) : digit a = digit b → (a mod 10 = b mod 10)%Z.
Proof.
  destruct (digit_cases a) as (k & Hk & -> & ->).
  destruct (digit_cases b) as (j & Hj & -> & ->).
  intros Heq. apply (f_equal N_of_ascii) in Heq.
  rewrite !N_ascii_embedding in Heq by lia. lia.
Qed.

Lemma pad2_inj (a b : Z) :
  (0 ≤ a < 100)%Z → (0 ≤ b < 100)%Z → pad2 a = pad2 b → a = b.
Proof.
  intros Ha Hb [= H1%digit_inj H0%digit_inj].
  revert H1 H0. Z.div_mod_to_equations. lia.
Qed.

Lemma pad4_inj (a b : Z) :
  (0 ≤ a < 10000)%Z → (0 ≤ b < 10000)%Z → pad4 a = pad4 b → a = b.
Proof.
  intros Ha Hb [= H3%digit_inj H2%digit_inj H1%digit_inj H0%digit_inj].
  revert H3 H2 H1 H0. Z.div_mod_to_equations. lia.
Qed.

Lemma strftime_compact_inj (d1 d2 : datetime) :
  valid_datetime d1 → valid_datetime d2 →
  strftime_compact d1 = strftime_compact d2 → d1 = d2.
Proof.
  destruct d1 as [y1 m1 a1 h1 i1 s1], d2 as [y2 m2 a2 h2 i2 s2].
  unfold valid_datetime, strftime_compact. simpl.
  intros (Hy1 & Hm1 & Ha1 & Hh1 & Hi1 & Hs1) (Hy2 & Hm2 & Ha2 & Hh2 & Hi2 & Hs2) Heq.
  injection Heq as Y3 Y2 Y1 Y0 M1 M0 A1 A0 H1 H0 I1 I0 S1 S0.
  assert (pad4 y1 = pad4 y2) as ->%pad4_inj by (unfold pad4; congruence); [|lia..].
  assert (pad2 m1 = pad2 m2) as ->%pad2_inj by (unfold pad2; congruence); [|lia..].
  assert (pad2 a1 = pad2 a2) as ->%pad2_inj by (unfold pad2; congruence); [|lia..].
  assert (pad2 h1 = pad2 h2) as ->%pad2_inj by (unfold pad2; congruence); [|lia..].
  assert (pad2 i1 = pad2 i2) as ->%pad2_inj by (unfold pad2; congruence); [|lia..].
  assert (pad2 s1 = pad2 s2) as ->%pad2_inj by (unfold pad2; congruence); [|lia..].
  done.
Qed.

Lemma report_name_inj (t1 t2 : string) : report_name t1 = report_name t2 → t1 = t2.
Proof.
  unfold report_name. simpl. intros [= Heq]. revert t2 Heq.
  induction t1 as [|c t1 IH]; intros [|c' t2]; simpl; intros Heq; try done.
  - destruct t2 as [|? [|? [|? [|? ?]]]]; discriminate.
  - destruct t1 as [|? [|? [|? [|? ?]]]]; discriminate.
  - injection Heq as -> Heq. f_equal. by apply IH.
Qed.

Lemma joinpath_inj (dir : Path) (n1 n2 : string) :
  joinpath dir n1 = joinpath dir n2 → n1 = n2.
Proof. unfold joinpath. by intros [= ->]%app_inv_head. Qed.

Lemma name_joinpath (dir : Path) (n : string) : name (joinpath dir n) = n.
Proof. unfold name, joinpath. apply last_last. Qed.

(** The shape of a report's name. *)
Lemma report_name_shape (d : datetime) :
  ∃ date clock,
    report_name (strftime_compact d) = "report_" +:+ date +:+ "_" +:+ clock +:+ ".pdf" ∧
    date = pad4 (year d) +:+ pad2 (month d) +:+ pad2 (day d) ∧
    clock = pad2 (hour d) +:+ pad2 (minute d) +:+ pad2 (second d) ∧
    String.length date = 8 ∧ String.length clock = 6 ∧
    all_digits date = true ∧ all_digits clock = true.
Proof.
  eexists _, _. split_and!; [|reflexivity|reflexivity|reflexivity|reflexivity|..].
  - reflexivity.
  - unfold all_digits. simpl. by rewrite !digit_is_digit.
  - unfold all_digits. simpl. by rewrite !digit_is_digit.
Qed.

(** Making directories leaves every path that is not one of them alone. *)
Lemma make_dirs_lookup_ne (dir q : Path) (files : gmap Path node) :
  q ∉ with_parents dir → make_dirs dir files !! q = files !! q.
Proof.
  unfold make_dirs. induction (with_parents dir) as [|p ps IH]; simpl; [done|].
  rewrite not_elem_of_cons. intros [Hne Hq].
  rewrite lookup_insert_ne by done. by apply IH.
Qed.

Lemma joinpath_not_parent (dir : Path) (n : string) :
  joinpath dir n ∉ with_parents dir.
Proof.
  unfold with_parents, joinpath.
  intros (k & Hk & _)%list_elem_of_fmap.
  apply (f_equal length) in Hk. rewrite length_app, length_take in Hk.
  simpl in Hk. lia.
Qed.

(** What a successful call returns and leaves behind. *)
Lemma generate_pdf_report_Return `{Library} (config : ReportConfig) (w w' : World)
    (p : Path) :
  generate_pdf_report config w = (Return p, w') →
  p = joinpath (report_dir config) (report_name (strftime_compact (time w (reads w)))) ∧
  ∃ df, (load_json_dataset (json_path config) w).1 = Return df ∧
        fs w' = <[p := PdfFile (report_pages config df (time w (S (reads w))))]>
                  (make_dirs (report_dir config) (fs w)).
Proof.
  rewrite generate_pdf_report_eq.
  destruct ((load_json_dataset (json_path config) w).1) as [df|e]; [|discriminate].
  destruct (is_file _); [discriminate|]. destruct (existsb _ _); [discriminate|].
  cbv zeta.
  destruct (make_dirs _ _ !! _) as [[]|]; try discriminate;
    destruct ((rendering config df _).2) as [u|e] eqn:Hresult; try discriminate;
    apply rendering_Return in Hresult;
    rewrite (rendering_returns config df _ Hresult);
    intros [= <- <-]; (split; [done|]); by exists df.
Qed.

(** A call returns only if every call made for a page did. *)
Lemma generate_pdf_report_Return_plots `{Library} (config : ReportConfig) (w w' : World)
    (p : Path) (df : DataFrame) :
  generate_pdf_report config w = (Return p, w') →
  (load_json_dataset (json_path config) w).1 = Return df →
  calls_return config df (time w (S (reads w))).
Proof.
  rewrite generate_pdf_report_eq. intros Hrun Hload. rewrite Hload in Hrun.
  destruct (is_file _); [discriminate|]. destruct (existsb _ _); [discriminate|].
  cbv zeta in Hrun.
  destruct (make_dirs _ _ !! _) as [[]|]; try discriminate;
    destruct ((rendering config df _).2) as [u|e] eqn:Hresult; try discriminate;
    by apply rendering_Return in Hresult.
Qed.

(** C6, as stated, fails: the name is not "report_", fourteen digits and
    ".pdf"; the date and the time of day are separated by an underscore. *)
Lemma report_name_fourteen_digits_counterexample :
  ¬ (∀ (lib : Library) (config : ReportConfig) (w w' : World) (p : Path),
       @generate_pdf_report lib config w = (Return p, w') →
       valid_datetime (time w (reads w)) →
       ∃ digits, String.length digits = 14 ∧ all_digits digits = true ∧
                 name p = "report_" +:+ digits +:+ ".pdf").
Proof.
  intros Hclaim.
  destruct (Hclaim reference_library sample_config sample_world
              (@generate_pdf_report reference_library sample_config sample_world).2
              ["reports"; "report_20240101_120000.pdf"])
    as (digits & Hlen & _ & Hname).
  - by vm_compute.
  - unfold valid_datetime. simpl. lia.
  - apply (f_equal String.length) in Hname.
    rewrite !string_length_app, Hlen in Hname. simpl in Hname. lia.
Qed.

(** C6 (amended): a report is named "report_", the eight digits of the
    date, an underscore, the six digits of the time of day, ".pdf", from
    the clock reading taken for the name; a later call for the same
    directory whose reading is the same second returns the same path and
    the file there is then the later report; a later call whose reading is
    another second returns another path and leaves the earlier report as
    it is. *)
Theorem report_name_versioning `{Library} (config1 config2 : ReportConfig)
    (w0 w1 w w' : World) (p1 p2 : Path) :
  generate_pdf_report config1 w0 = (Return p1, w1) →
  generate_pdf_report config2 w = (Return p2, w') →
  report_dir config2 = report_dir config1 →
  valid_datetime (time w0 (reads w0)) →
  valid_datetime (time w (reads w)) →
  let t1 := time w0 (reads w0) in
  let t2 := time w (reads w) in
  (∃ date clock,
     name p1 = "report_" +:+ date +:+ "_" +:+ clock +:+ ".pdf" ∧
     date = pad4 (year t1) +:+ pad2 (month t1) +:+ pad2 (day t1) ∧
     clock = pad2 (hour t1) +:+ pad2 (minute t1) +:+ pad2 (second t1) ∧
     String.length date = 8 ∧ String.length clock = 6 ∧
     all_digits date = true ∧ all_digits clock = true) ∧
  (t2 = t1 →
   p2 = p1 ∧
   ∃ df, (load_json_dataset (json_path config2) w).1 = Return df ∧
         fs w' !! p1 = Some (PdfFile (report_pages config2 df (time w (S (reads w)))))) ∧
  (t2 ≠ t1 → p2 ≠ p1 ∧ fs w' !! p1 = fs w !! p1).
Proof.
  intros (Hp1 & _)%generate_pdf_report_Return
         (Hp2 & df & Hload & Hfs)%generate_pdf_report_Return Hdir Hv1 Hv2.
  simpl. rewrite Hdir in Hp2. split_and!.
  - rewrite Hp1, name_joinpath. apply report_name_shape.
  - intros Heq. assert (p2 = p1) as Hpp by (by rewrite Hp1, Hp2, Heq).
    split; [done|]. exists df. split; [done|].
    rewrite Hfs. rewrite Hpp at 1. by rewrite lookup_insert_eq.
  - intros Hne. assert (p2 ≠ p1) as Hpne.
    { rewrite Hp1, Hp2.
      intros Heq%joinpath_inj%report_name_inj%strftime_compact_inj; done. }
    split; [done|]. rewrite Hfs, lookup_insert_ne by done.
    rewrite Hdir, Hp1. apply make_dirs_lookup_ne, joinpath_not_parent.
Qed.

Lemma report_name_versioning_witness :
  let run1 := @generate_pdf_report reference_library sample_config sample_world in
  let run2 := @generate_pdf_report reference_library sample_config run1.2 in
  run1.1 = Return ["reports"; "report_20240101_120000.pdf"] ∧
  run2.1 = Return ["reports"; "report_20240101_120001.pdf"] ∧
  fs run2.2 !! ["reports"; "report_20240101_120000.pdf"] =
  fs run1.2 !! ["reports"; "report_20240101_120000.pdf"].
Proof.
  simpl.
  pose proof (report_name_versioning (H:=reference_library)
                sample_config sample_config sample_world
                (@generate_pdf_report reference_library sample_config sample_world).2
                (@generate_pdf_report reference_library sample_config sample_world).2
                (@generate_pdf_report reference_library sample_config
                   (@generate_pdf_report reference_library sample_config sample_world).2).2
                ["reports"; "report_20240101_120000.pdf"]
                ["reports"; "report_20240101_120001.pdf"]) as Hv.
  simpl in Hv.
  destruct Hv as (_ & _ & Hdiff).
  - by vm_compute.
  - by vm_compute.
  - reflexivity.
  - repeat split; by vm_compute.
  - repeat split; by vm_compute.
  - split_and!; [by vm_compute..|]. apply Hdiff. vm_compute. discriminate.
Defined.

(** ** Category frequencies *)

Lemma count_of_snoc (k v : string) (l : list string) :
  count_of k (l ++ [v]) = if decide (k = v) then S (count_of k l) else count_of k l.
Proof.
  unfold count_of. rewrite filter_app, length_app, filter_cons, filter_nil.
  destruct (decide (k = v)) as [->|Hne].
  - rewrite decide_True by done. simpl. lia.
  - rewrite decide_False by congruence. simpl. lia.
Qed.

Lemma count_of_not_elem (k : string) (l : list string) : k ∉ l → count_of k l = 0.
Proof.
  unfold count_of. induction l as [|x l IH]; [done|].
  rewrite not_elem_of_cons. intros [Hne Hk]. rewrite filter_cons_False by congruence.
  by apply IH.
Qed.

Lemma first_index_lt (k : string) (l : list string) : k ∈ l → first_index k l < length l.
Proof.
  induction l as [|x l IH]; [by intros ?%elem_of_nil|]. simpl.
  destruct (decide (x = k)); [lia|]. intros [->|Hk]%elem_of_cons; [done|].
  apply IH in Hk. lia.
Qed.

Lemma first_index_app_l (k : string) (l1 l2 : list string) :
  k ∈ l1 → first_index k (l1 ++ l2) = first_index k l1.
Proof.
  induction l1 as [|x l1 IH]; [by intros ?%elem_of_nil|]. simpl.
  destruct (decide (x = k)); [done|]. intros [->|Hk]%elem_of_cons; [done|].
  by rewrite IH.
Qed.

Lemma first_index_snoc_new (k : string) (l : list string) :
  k ∉ l → first_index k (l ++ [k]) = length l.
Proof.
  induction l as [|x l IH]; simpl.
  - intros _. by rewrite decide_True.
  - rewrite not_elem_of_cons. intros [Hne Hk].
    rewrite decide_False by done. by rewrite IH.
Qed.

Lemma distinct_snoc (l : list string) (v : string) :
  distinct (l ++ [v]) = add_unique (distinct l) v.
Proof. unfold distinct. by rewrite foldl_app. Qed.

Lemma elem_of_distinct (l : list string) (x : string) : x ∈ distinct l ↔ x ∈ l.
Proof.
  unfold distinct. rewrite elem_of_foldl_add_unique, elem_of_nil. tauto.
Qed.

Lemma NoDup_distinct (l : list string) : NoDup (distinct l).
Proof. apply NoDup_foldl_add_unique. constructor. Qed.

(** The hash-table pass increments the entry of a key that is present and
    appends an entry for a key that is new. *)
Lemma bump_fmap (v : string) (g : string → nat) (ks : list string) :
  NoDup ks →
  bump v ((λ k, (k, g k)) <$> ks) =
  if decide (v ∈ ks)
  then (λ k, (k, if decide (k = v) then S (g k) else g k)) <$> ks
  else ((λ k, (k, g k)) <$> ks) ++ [(v, 1)].
Proof.
  induction ks as [|k ks IH]; intros Hnd; csimpl; [done|].
  apply NoDup_cons in Hnd as [Hk Hnd]. destruct (decide (k = v)) as [->|Hne].
  - rewrite decide_True by left. f_equal.
    apply list_fmap_ext. intros i k Hik. rewrite decide_False; [done|].
    intros ->. apply Hk. by eapply list_elem_of_lookup_2.
  - rewrite IH by done. destruct (decide (v ∈ ks)) as [Hv|Hv].
    + by rewrite decide_True by (by right).
    + by rewrite decide_False by (rewrite not_elem_of_cons; by split).
Qed.

(** The table of [value_counts] before sorting: the distinct texts in order
    of first appearance, each with its number of occurrences. *)
Lemma value_count_eq (data : list string) :
  value_count data = (λ k, (k, count_of k data)) <$> distinct data.
Proof.
  induction data as [|v data IH] using rev_ind; [done|].
  unfold value_count in *. rewrite foldl_app. simpl. rewrite IH.
  rewrite bump_fmap by apply NoDup_distinct. rewrite distinct_snoc. unfold add_unique.
  destruct (decide (v ∈ distinct data)) as [Hv|Hv].
  - apply list_fmap_ext. intros i k _. by rewrite count_of_snoc.
  - rewrite fmap_app. csimpl. f_equal.
    + apply list_fmap_ext. intros i k Hk. rewrite count_of_snoc, decide_False; [done|].
      intros ->. apply Hv. by eapply list_elem_of_lookup_2.
    + rewrite count_of_snoc, decide_True by done.
      rewrite count_of_not_elem; [done|]. by rewrite <- elem_of_distinct.
Qed.

Lemma StronglySorted_impl_elem {A} (R1 R2 : relation A) (l : list A) :
  (∀ a b, a ∈ l → b ∈ l → R1 a b → R2 a b) →
  StronglySorted R1 l → StronglySorted R2 l.
Proof.
  intros Himpl Hsorted. induction Hsorted as [|a l Hl IH Hall]; constructor.
  - apply IH. intros x y Hx Hy. apply Himpl; by right.
  - rewrite Forall_forall in Hall |- *. intros b Hb.
    apply Himpl; [left|by right|by apply Hall].
Qed.

(** In the table, entries come in the order in which their texts are first
    met in the data. *)
Lemma distinct_first_index_sorted (data : list string) :
  StronglySorted (λ a b, first_index a data < first_index b data) (distinct data).
Proof.
  induction data as [|v data IH] using rev_ind; [constructor|].
  rewrite distinct_snoc. unfold add_unique.
  assert (StronglySorted
            (λ a b, first_index a (data ++ [v]) < first_index b (data ++ [v]))
            (distinct data)) as Hold.
  { eapply StronglySorted_impl_elem; [|exact IH].
    intros a b Ha Hb. apply (proj1 (elem_of_distinct _ _)) in Ha, Hb.
    by rewrite !first_index_app_l. }
  destruct (decide (v ∈ distinct data)) as [Hv|Hv]; [done|].
  apply StronglySorted_app_2; [|done|repeat constructor].
  intros a b Ha ->%list_elem_of_singleton.
  apply (proj1 (elem_of_distinct _ _)) in Ha. rewrite elem_of_distinct in Hv.
  rewrite first_index_app_l, first_index_snoc_new by done.
  by apply first_index_lt.
Qed.

Lemma value_count_first_met_sorted (data : list string) :
  StronglySorted (first_met_before data) (value_count data).
Proof.
  rewrite value_count_eq.
  eapply StronglySorted_fmap; [|apply distinct_first_index_sorted].
  intros a b Hab. exact Hab.
Qed.

Lemma elem_of_value_count (data : list string) (v : string) (c : nat) :
  (v, c) ∈ value_count data ↔ v ∈ data ∧ c = count_of v data.
Proof.
  rewrite value_count_eq, list_elem_of_fmap. split.
  - intros (k & [= -> ->] & Hk). by apply (proj1 (elem_of_distinct _ _)) in Hk.
  - intros [Hv ->]. exists v. by rewrite elem_of_distinct.
Qed.

Lemma value_count_keys (data : list string) : (value_count data).*1 = distinct data.
Proof.
  rewrite value_count_eq, <- list_fmap_compose. apply list_fmap_id.
Qed.


(** The insertion sort of [reference_library] is a descending sort. *)
Lemma insert_desc_perm (e : string * nat) (l : list (string * nat)) :
  insert_desc e l ≡ₚ e :: l.
Proof.
  induction l as [|x l IH]; simpl; [done|].
  destruct (x.2 <? e.2); [done|]. rewrite IH. apply Permutation_swap.
Qed.

Lemma insert_desc_sorted (e : string * nat) (l : list (string * nat)) :
  StronglySorted (λ a b, b.2 ≤ a.2) l →
  StronglySorted (λ a b, b.2 ≤ a.2) (insert_desc e l).
Proof.
  induction 1 as [|x l Hl IH Hall]; simpl; [repeat constructor|].
  destruct (x.2 <? e.2) eqn:Hlt.
  - apply Nat.ltb_lt in Hlt. constructor; [by constructor|].
    constructor; [lia|]. eapply Forall_impl; [exact Hall|]. simpl. lia.
  - apply Nat.ltb_ge in Hlt. constructor; [done|].
    rewrite insert_desc_perm. constructor; [lia|done].
Qed.

Lemma insertion_sort_desc_descending : Descending insertion_sort_desc.
Proof.
  intros l. unfold insertion_sort_desc.
  induction l as [|e l [Hperm Hsorted]]; simpl.
  - split; [done|constructor].
  - split; [by rewrite insert_desc_perm, Hperm | by apply insert_desc_sorted].
Qed.

(** A renderer whose calls are made for one page draws that page. *)
Lemma runs_as_plots (pdf : Path) (m : M unit) (call : outcome unit) (page : Page) :
  runs_as pdf m [(call, page)] → plots pdf m call page.
Proof. unfold runs_as, plots. by destruct call. Qed.

Lemma plots_categorical_column `{Library} (pdf : Path) (df : DataFrame)
    (l : label) (s : Series) :
  lookup_column l (columns df) = Some s →
  has_values s →
  plots pdf (_plot_categorical_column pdf df l)
        (and_then (barplot (bars_of s)) (draw (CategoricalPage l (bars_of s))))
        (CategoricalPage l (bars_of s)).
Proof.
  intros Hl Hv. apply runs_as_plots.
  pose proof (runs_as_plot_categorical_column pdf df l s Hl) as Hruns.
  by rewrite decide_True in Hruns.
Qed.





(** * Further properties of the generator *)

(** ** When a report is written, and what else is touched *)

Lemma make_dirs_lookup_parent (dir q : Path) (files : gmap Path node) :
  q ∈ with_parents dir → make_dirs dir files !! q = Some Directory.
Proof.
  unfold make_dirs. induction (with_parents dir) as [|p ps IH]; simpl.
  - by intros ?%elem_of_nil.
  - intros [->|Hq]%elem_of_cons; [by rewrite lookup_insert_eq|].
    destruct (decide (p = q)) as [->|Hne]; [by rewrite lookup_insert_eq|].
    rewrite lookup_insert_ne by done. by apply IH.
Qed.

Lemma existsb_is_file_false (files : gmap Path node) (paths : list Path) :
  existsb (λ p, is_file (files !! p)) paths = false ↔
  ∀ q, q ∈ paths → is_file (files !! q) = false.
Proof.
  induction paths as [|p ps IH]; simpl.
  - split; [by intros _ q ?%elem_of_nil | done].
  - rewrite orb_false_iff, IH. split.
    + intros [Hp Hps] q [->|Hq]%elem_of_cons; auto.
    + intros Hall. split; [apply Hall; left | intros q Hq; apply Hall; by right].
Qed.

Lemma generate_pdf_report_parents_free `{Library} (config : ReportConfig)
    (w w' : World) (p : Path) :
  generate_pdf_report config w = (Return p, w') →
  ∀ q, q ∈ with_parents (report_dir config) → is_file (fs w !! q) = false.
Proof.
  rewrite generate_pdf_report_eq.
  destruct ((load_json_dataset (json_path config) w).1) as [df|e]; [|done].
  destruct (is_file (fs w !! report_dir config)); [done|].
  destruct (existsb _ (with_parents (report_dir config))) eqn:Hparents; [done|].
  intros _. by apply existsb_is_file_false.
Qed.

Lemma generate_pdf_report_written `{Library} (config : ReportConfig)
    (w w' : World) (p : Path) :
  generate_pdf_report config w = (Return p, w') →
  (∀ q, q ∈ with_parents (report_dir config) → fs w' !! q = Some Directory) ∧
  (∃ pages, fs w' !! p = Some (PdfFile pages)).
Proof.
  intros Hrun. apply generate_pdf_report_Return in Hrun as (Hp & df & _ & Hfs).
  rewrite Hfs. split.
  - intros q Hq. rewrite lookup_insert_ne.
    + by apply make_dirs_lookup_parent.
    + intros <-. rewrite Hp in Hq. by apply joinpath_not_parent in Hq.
  - eexists. by rewrite lookup_insert_eq.
Qed.

(** X1: a call succeeds exactly when the loader succeeds, every call made
    to plot and to draw a page of the loaded Dataset returns, neither the
    report directory nor any of its parents is an existing file, and the
    path of the report is not an existing directory. *)
Theorem generate_pdf_report_succeeds_iff `{Library} (config : ReportConfig) (w : World) :
  (∃ p w', generate_pdf_report config w = (Return p, w')) ↔
  (∃ df, (load_json_dataset (json_path config) w).1 = Return df ∧
         calls_return config df (time w (S (reads w)))) ∧
  is_file (fs w !! report_dir config) = false ∧
  (∀ q, q ∈ with_parents (report_dir config) → is_file (fs w !! q) = false) ∧
  fs w !! joinpath (report_dir config)
                   (report_name (strftime_compact (time w (reads w))))
    ≠ Some Directory.
Proof.
  rewrite generate_pdf_report_eq.
  destruct ((load_json_dataset (json_path config) w).1) as [df|e].
  2: { split; [by intros (? & ? & [=])|by intros [(? & [=] & _) _]]. }
  destruct (is_file (fs w !! report_dir config)).
  { split; [by intros (? & ? & [=])|by intros (_ & [=] & _)]. }
  destruct (existsb _ (with_parents (report_dir config))) eqn:Hparents.
  { split; [by intros (? & ? & [=])|]. intros (_ & _ & Hall & _).
    apply existsb_is_file_false in Hall. congruence. }
  pose proof (proj1 (existsb_is_file_false _ _) Hparents) as Hall. cbv zeta.
  rewrite make_dirs_lookup_ne by apply joinpath_not_parent.
  destruct (fs w !! joinpath _ _) as [[]|] eqn:Hp.
  1: { split; [by intros (? & ? & [=])|]. intros (_ & _ & _ & Hdir). by destruct Hdir. }
  all: destruct ((rendering config df _).2) as [u|e] eqn:Hresult; split.
  all: try (by intros (? & ? & [=])).
  all: try (intros _; split_and!; [|done..];
            exists df; split; [done|by eapply rendering_Return]).
  all: try (intros _; by eauto).
  all: intros ((df' & [= <-] & Hcalls) & _);
    by apply rendering_Raise in Hresult as [Hnot _].
Qed.

Lemma generate_pdf_report_succeeds_iff_witness :
  (∃ p w', @generate_pdf_report reference_library sample_config sample_world
           = (Return p, w')) ∧
  ¬ (∃ p w', @generate_pdf_report refusing_library sample_config sample_world
             = (Return p, w')).
Proof.
  split.
  - apply (generate_pdf_report_succeeds_iff (H:=reference_library)). split_and!.
    + exists sample_frame. split; [by vm_compute|].
      unfold calls_return. vm_compute. repeat constructor.
    + by vm_compute.
    + intros q Hq. vm_compute in Hq. apply list_elem_of_singleton in Hq as ->.
      by vm_compute.
    + by vm_compute.
  - intros Hrun.
    apply (generate_pdf_report_succeeds_iff (H:=refusing_library)) in Hrun
      as ((df & Hload & Hcalls) & _).
    vm_compute in Hload. injection Hload as <-.
    unfold calls_return in Hcalls. vm_compute in Hcalls.
    apply Forall_cons in Hcalls as [_ Hcalls].
    apply Forall_cons in Hcalls as [Hcall _]. discriminate.
Defined.

(** X21: when the Dataset loads and the report can be opened, but one of
    the calls made to plot or to draw a page raises, the call ends with the
    exception of the first such call; the report directory has been made,
    and the document is left with the pages before the one that failed,
    which are the first pages of the report and fewer than all of them. *)
Theorem generate_pdf_report_plot_failure `{Library} (config : ReportConfig)
    (w : World) (df : DataFrame) (pages : list Page) (e : exn) :
  (load_json_dataset (json_path config) w).1 = Return df →
  is_file (fs w !! report_dir config) = false →
  (∀ q, q ∈ with_parents (report_dir config) → is_file (fs w !! q) = false) →
  let p := joinpath (report_dir config)
                    (report_name (strftime_compact (time w (reads w)))) in
  let now := time w (S (reads w)) in
  fs w !! p ≠ Some Directory →
  until_failure (page_calls config df now) = (pages, Raise e) →
  generate_pdf_report config w =
  (Raise e,
   {| fs := <[p := PdfFile pages]> (make_dirs (report_dir config) (fs w));
      time := time w; reads := S (S (reads w)) |}) ∧
  pages `prefix_of` report_pages config df now ∧
  length pages < length (report_pages config df now).
Proof.
  intros Hload Hdir Hparents p now Hp Hcalls.
  split_and!.
  - rewrite generate_pdf_report_eq, Hload, Hdir.
    apply existsb_is_file_false in Hparents as ->. cbv zeta. fold p now.
    rewrite make_dirs_lookup_ne by apply joinpath_not_parent.
    unfold rendering. rewrite Hcalls. by destruct (fs w !! p) as [[]|].
  - rewrite <- page_calls_pages.
    pose proof (until_failure_prefix (page_calls config df now)) as Hprefix.
    by rewrite Hcalls in Hprefix.
  - rewrite <- page_calls_pages, length_fmap.
    by eapply until_failure_Raise_length.
Qed.

Lemma generate_pdf_report_plot_failure_witness :
  (@generate_pdf_report refusing_library sample_config sample_world).1
  = Raise (ValueError "Maximum allowed size exceeded").
Proof.
  destruct (generate_pdf_report_plot_failure (H:=refusing_library) sample_config
              sample_world sample_frame [title_page sample_config sample_frame noon]
              (ValueError "Maximum allowed size exceeded")) as (Hrun & _).
  - by vm_compute.
  - by vm_compute.
  - intros q Hq. vm_compute in Hq. apply list_elem_of_singleton in Hq as ->.
    by vm_compute.
  - by vm_compute.
  - by vm_compute.
  - by rewrite Hrun.
Defined.

(** X2: a file in the way of the report directory fails the call with
    [FileExistsError] or [NotADirectoryError] and leaves the world as it
    was. *)
Theorem generate_pdf_report_directory_blocked `{Library} (config : ReportConfig)
    (w : World) (df : DataFrame) (q : Path) :
  (load_json_dataset (json_path config) w).1 = Return df →
  q = report_dir config ∨ q ∈ with_parents (report_dir config) →
  is_file (fs w !! q) = true →
  generate_pdf_report config w = (Raise FileExistsError, w) ∨
  generate_pdf_report config w = (Raise NotADirectoryError, w).
Proof.
  intros Hload Hq Hfile. rewrite generate_pdf_report_eq, Hload.
  destruct (is_file (fs w !! report_dir config)) eqn:Hdir; [by left|].
  destruct Hq as [->|Hq]; [congruence|].
  destruct (existsb _ (with_parents (report_dir config))) eqn:Hparents; [by right|].
  rewrite existsb_is_file_false in Hparents. rewrite (Hparents q Hq) in Hfile. done.
Qed.

Lemma generate_pdf_report_directory_blocked_witness :
  @generate_pdf_report reference_library sample_config blocked_world
  = (Raise FileExistsError, blocked_world).
Proof.
  destruct (generate_pdf_report_directory_blocked (H:=reference_library) sample_config
              blocked_world sample_frame ["reports"]) as [Hrun|Hrun].
  - by vm_compute.
  - by left.
  - by vm_compute.
  - exact Hrun.
  - vm_compute in Hrun. discriminate.
Defined.

(** X3: after a successful call the report directory and its parents are
    directories, the returned path holds a document, and every path that
    existed before, other than the returned one, holds what it held. *)
Theorem generate_pdf_report_footprint `{Library} (config : ReportConfig)
    (w w' : World) (p : Path) :
  generate_pdf_report config w = (Return p, w') →
  (∀ q, q ∈ with_parents (report_dir config) → fs w' !! q = Some Directory) ∧
  (∃ pages, fs w' !! p = Some (PdfFile pages)) ∧
  (∀ q, q ≠ p → q ∉ with_parents (report_dir config) → fs w' !! q = fs w !! q) ∧
  (∀ q, q ≠ p → is_Some (fs w !! q) → fs w' !! q = fs w !! q).
Proof.
  intros Hrun.
  pose proof (generate_pdf_report_parents_free _ _ _ _ Hrun) as Hparents.
  pose proof (generate_pdf_report_written _ _ _ _ Hrun) as [Hdirs Hfile].
  apply generate_pdf_report_Return in Hrun as (Hp & df & _ & Hfs).
  split_and!; [done|done|rewrite Hfs..].
  - intros q Hqp Hq. rewrite lookup_insert_ne by done. by apply make_dirs_lookup_ne.
  - intros q Hqp [n Hn]. rewrite lookup_insert_ne by done.
    destruct (decide (q ∈ with_parents (report_dir config))) as [Hq|Hq].
    + rewrite make_dirs_lookup_parent by done. specialize (Hparents q Hq).
      rewrite Hn in Hparents |- *. by destruct n.
    + by apply make_dirs_lookup_ne.
Qed.

Lemma generate_pdf_report_footprint_witness :
  fs sample_run.2 !! ["reports"] = Some Directory ∧
  fs sample_run.2 !! ["data"; "sample_data.json"]
  = fs sample_world !! ["data"; "sample_data.json"].
Proof.
  destruct (generate_pdf_report_footprint (H:=reference_library) sample_config
              sample_world sample_run.2 ["reports"; "report_20240101_120000.pdf"])
    as (Hdirs & _ & _ & Hkept).
  - by vm_compute.
  - split.
    + apply Hdirs. vm_compute. left.
    + apply Hkept; [discriminate|]. vm_compute. eauto.
Defined.

(** ** The table of an array of records, in detail *)

Lemma fast_unique_concat (lists : list (list string)) :
  fast_unique lists = distinct (concat lists).
Proof.
  unfold fast_unique, distinct. generalize (@nil string) as acc.
  induction lists as [|buf lists IH]; intros acc; simpl; [done|].
  by rewrite foldl_app, IH.
Qed.

Lemma record_keys_dicts (dicts : list (list (string * value))) :
  record_keys <$> (VDict <$> dicts) = dict_keys <$> dicts.
Proof. by rewrite <- list_fmap_compose. Qed.

(** The frame that the loader returns for an array of records. *)
Lemma load_records_of_records (items : list value) (df : DataFrame) :
  Forall is_record items →
  load_records (VList items) = Return df →
  ∃ dicts cols,
    items = VDict <$> dicts ∧
    Forall2 (λ k c, converted (LStr k) (dict_array dicts k) c)
            (distinct (concat (dict_keys <$> dicts))) cols ∧
    df = {| index_len := length dicts; columns := cols |}.
Proof.
  intros Hrec Hload. destruct (mapM_as_dict_records items Hrec) as (dicts & _ & ->).
  destruct (load_records_dicts dicts df Hload) as (cols & Hcols & _ & ->).
  exists dicts, cols. by rewrite <- fast_unique_concat.
Qed.

Lemma load_json_dataset_of_records (p : Path) (w : World) (raw : value)
    (items : list value) (df : DataFrame) :
  fs w !! p = Some (JsonFile raw) →
  unwrap_data raw = VList items →
  Forall is_record items →
  (load_json_dataset p w).1 = Return df →
  ∃ dicts cols,
    items = VDict <$> dicts ∧
    Forall2 (λ k c, converted (LStr k) (dict_array dicts k) c)
            (distinct (concat (dict_keys <$> dicts))) cols ∧
    df = {| index_len := length dicts; columns := cols |}.
Proof.
  intros Hp Hraw Hrec. rewrite load_json_dataset_eq, Hp. unfold loaded. rewrite Hraw.
  by apply load_records_of_records.
Qed.

(** X4: the columns of a Dataset loaded from an array of records are the
    keys of the records in the order in which they are first met, reading
    the records from first to last and each record from its first key to
    its last. *)
Theorem load_json_dataset_column_order (p : Path) (w : World) (raw : value)
    (items : list value) (df : DataFrame) :
  fs w !! p = Some (JsonFile raw) →
  unwrap_data raw = VList items →
  Forall is_record items →
  (load_json_dataset p w).1 = Return df →
  labels df = LStr <$> distinct (concat (record_keys <$> items)).
Proof.
  intros Hp Hraw Hrec Hload.
  destruct (load_json_dataset_of_records p w raw items df Hp Hraw Hrec Hload)
    as (dicts & cols & -> & Hcols & ->).
  rewrite record_keys_dicts. unfold labels. simpl.
  by apply converted_labels in Hcols.
Qed.

Lemma load_json_dataset_column_order_witness :
  labels sample_frame = [LStr "value"; LStr "category"].
Proof.
  rewrite (load_json_dataset_column_order ["data"; "sample_data.json"] sample_world
             (VList sample_records) sample_records sample_frame);
    [reflexivity | by vm_compute | reflexivity | repeat constructor | by vm_compute].
Defined.

(** X5: in a Dataset loaded from an array of records, the cell of a record
    that has the key is the record's value as the column stores it: the
    value itself, except that a float column holds [nan] for [null] and a
    float for an integer; the cell is missing exactly when that value is
    [null] or [nan]. *)
Theorem load_json_dataset_cells (p : Path) (w : World) (raw : value)
    (items : list value) (df : DataFrame) (k : string) (s : Series) (i : nat)
    (d : list (string * value)) (v : value) :
  fs w !! p = Some (JsonFile raw) →
  unwrap_data raw = VList items →
  Forall is_record items →
  (load_json_dataset p w).1 = Return df →
  (LStr k, s) ∈ columns df →
  items !! i = Some (VDict d) →
  dict_get k d = Some v →
  values s !! i = Some (store (dtype_of s) v) ∧
  (dtype_of s ≠ Float64 → values s !! i = Some v) ∧
  isna (store (dtype_of s) v) = isna v.
Proof.
  intros Hp Hraw Hrec Hload Hs Hi Hk.
  destruct (load_json_dataset_of_records p w raw items df Hp Hraw Hrec Hload)
    as (dicts & cols & -> & Hcols & ->).
  simpl in Hs.
  apply (converted_elem _ _ _ _ _ _ Hcols) in Hs as (k' & _ & [= <-] & Hconv).
  apply list_lookup_fmap_Some in Hi as (d' & [= <-] & Hd).
  assert (values s !! i = Some (store (dtype_of s) v)) as Hcell.
  { rewrite (convert_object_array_values _ _ Hconv). unfold dict_array.
    by rewrite !list_lookup_fmap, Hd; simpl; rewrite Hk. }
  split_and!; [done| |apply isna_store].
  intros Hdt. rewrite Hcell. f_equal.
  destruct (dtype_of s); try done; by destruct v.
Qed.

Lemma load_json_dataset_cells_witness :
  values {| dtype_of := Object; values := [VStr "A"; VStr "B"] |} !! 1 = Some (VStr "B").
Proof.
  apply (load_json_dataset_cells ["data"; "sample_data.json"] sample_world
           (VList sample_records) sample_records sample_frame "category"
           {| dtype_of := Object; values := [VStr "A"; VStr "B"] |} 1
           [("value", VInt 2); ("category", VStr "B")] (VStr "B"));
    [by vm_compute | reflexivity | repeat constructor | by vm_compute
    | right; left | reflexivity | reflexivity | discriminate].
Defined.

Lemma longest_row_lookup (rows : list (list value)) (row : list value) :
  row ∈ rows → length row ≤ longest_row rows.
Proof.
  induction rows as [|r rows IH]; [by intros ?%elem_of_nil|].
  change (longest_row (r :: rows)) with (Nat.max (length r) (longest_row rows)).
  intros [<-|Hin]%elem_of_cons; [lia|]. specialize (IH Hin). lia.
Qed.

Lemma position_array_in_range (rows : list (list value)) (j : nat) :
  Forall (Forall in_double_range) rows → Forall in_double_range (position_array rows j).
Proof.
  intros Hrows. unfold position_array. apply Forall_fmap.
  eapply Forall_impl; [exact Hrows|]. intros row Hrow. simpl.
  destruct (row !! j) as [v|] eqn:Hv; simpl; [|done].
  rewrite Forall_forall in Hrow. apply Hrow. by eapply list_elem_of_lookup_2.
Qed.

(** [from_records] on a list of lists: one array per position, converted
    in turn. *)
Lemma from_records_lists (rows : list (list value)) :
  rows ≠ [] →
  from_records (VList <$> rows) =
  frame_of_arrays (length rows) (LInt <$> seq 0 (longest_row rows))
                  (position_array rows <$> seq 0 (longest_row rows)).
Proof.
  intros Hne.
  assert (mapM as_sequence (VList <$> rows) = Some rows) as Hm.
  { apply mapM_Some, Forall2_fmap_l, Forall_Forall2_diag, Forall_true. done. }
  destruct rows as [|r rows']; [done|].
  unfold from_records. rewrite Hm.
  change (VList <$> r :: rows') with (VList r :: (VList <$> rows')). cbv beta iota zeta.
  unfold to_object_array. fold (longest_row (r :: rows')).
  fold (position_array (r :: rows')).
  rewrite length_fmap, length_seq, !length_cons. by rewrite length_fmap.
Qed.

(** X19: the loader does not ask that the elements be objects.  An array
    of arrays with at least one non-empty row, none of which holds an
    integer beyond the range of a double, loads as a table with one row per
    inner array and the positions 0, 1, ... up to the longest row as column
    labels; a row that is too short has [None] in the columns it does not
    reach, stored like any other value of the column. *)
Theorem load_array_of_arrays (p : Path) (w : World) (raw : value)
    (rows : list (list value)) :
  fs w !! p = Some (JsonFile raw) →
  unwrap_data raw = VList (VList <$> rows) →
  (∃ row, row ∈ rows ∧ row ≠ []) →
  Forall (Forall in_double_range) rows →
  ∃ df, (load_json_dataset p w).1 = Return df ∧
        index_len df = length rows ∧
        labels df = LInt <$> seq 0 (longest_row rows) ∧
        ∀ j s i row, (LInt j, s) ∈ columns df → rows !! i = Some row →
                     values s !! i = Some (store (dtype_of s) (default VNone (row !! j))).
Proof.
  intros Hp Hraw (row0 & Hrow0 & Hne0) Hrange.
  assert (rows ≠ []) as Hne by (intros ->; by apply elem_of_nil in Hrow0).
  assert (1 ≤ longest_row rows) as Hk.
  { apply longest_row_lookup in Hrow0. destruct row0; [done|simpl in Hrow0; lia]. }
  destruct (frame_of_arrays_in_range (length rows)
              (LInt <$> seq 0 (longest_row rows))
              (position_array rows <$> seq 0 (longest_row rows))) as [df Hframe].
  { apply Forall_fmap, Forall_true. intros j. by apply position_array_in_range. }
  pose proof Hframe as (series & Hseries & Hdf)%frame_of_arrays_Return.
  apply (zip_converted LInt) in Hseries.
  assert (df = {| index_len := length rows;
                  columns := zip (LInt <$> seq 0 (longest_row rows)) series |}) as ->.
  { rewrite Hdf. f_equal. destruct (longest_row rows); [lia|done]. }
  clear Hdf. pose proof (converted_labels _ _ _ _ Hseries) as Hlabels.
  exists {| index_len := length rows;
            columns := zip (LInt <$> seq 0 (longest_row rows)) series |}.
  split_and!.
  - rewrite load_json_dataset_eq, Hp. unfold loaded. rewrite Hraw.
    apply load_records_Return. exists (VList <$> rows).
    split_and!; [done|by rewrite from_records_lists|].
    unfold empty. cbn [index_len columns].
    apply orb_false_iff. split; apply Nat.eqb_neq.
    + destruct rows; [done|simpl; lia].
    + apply (f_equal length) in Hlabels. rewrite !length_fmap, length_seq in Hlabels. lia.
  - done.
  - done.
  - intros j s i row (j' & _ & [= <-] & Hconv)%(converted_elem _ _ _ _ _ _ Hseries) Hi.
    rewrite (convert_object_array_values _ _ Hconv). unfold position_array.
    by rewrite !list_lookup_fmap, Hi.
Qed.

Lemma load_array_of_arrays_witness :
  ∃ df, (load_json_dataset ["rows.json"]
           {| fs := {[ ["rows.json"] :=
                         JsonFile (VList [VList [VInt 1; VStr "x"]; VList [VInt 2]]) ]};
              time := λ _, noon; reads := 0 |}).1 = Return df ∧
        labels df = [LInt 0; LInt 1].
Proof.
  destruct (load_array_of_arrays ["rows.json"]
              {| fs := {[ ["rows.json"] :=
                            JsonFile (VList [VList [VInt 1; VStr "x"]; VList [VInt 2]]) ]};
                 time := λ _, noon; reads := 0 |}
              (VList [VList [VInt 1; VStr "x"]; VList [VInt 2]])
              [[VInt 1; VStr "x"]; [VInt 2]])
    as (df & Hload & _ & Hlabels & _).
  - by vm_compute.
  - reflexivity.
  - exists [VInt 2]. split; [right; left|discriminate].
  - repeat constructor.
  - exists df. split; [exact Hload|exact Hlabels].
Defined.

(** With an integer beyond that range the same loader raises. *)
Example load_array_of_huge_integers :
  (load_json_dataset ["rows.json"]
     {| fs := {[ ["rows.json"] := JsonFile (VList [VList [VInt (10 ^ 400)]]) ]};
        time := λ _, noon; reads := 0 |}).1 = Raise OverflowError.
Proof. by vm_compute. Qed.

(** ** What the loader says when it refuses *)

(** X6: the three messages of the loader's [ValueError] tell its three
    refusals apart: "is empty" for an empty array, "must be a list" for a
    value that is not an array, "produced an empty DataFrame" for a
    non-empty array from which a table without rows or columns is built. *)
Theorem load_json_dataset_messages (p : Path) (w : World) (raw : value) :
  fs w !! p = Some (JsonFile raw) →
  ((load_json_dataset p w).1 = Raise (ValueError "JSON dataset is empty") ↔
   unwrap_data raw = VList []) ∧
  ((load_json_dataset p w).1 =
     Raise (ValueError "JSON dataset must be a list of records or include a 'data' list") ↔
   ¬ is_list (unwrap_data raw)) ∧
  ((load_json_dataset p w).1 =
     Raise (ValueError "JSON dataset produced an empty DataFrame") ↔
   ∃ items df, unwrap_data raw = VList items ∧ items ≠ [] ∧
               from_records items = Return df ∧ empty df = true).
Proof.
  intros Hp. rewrite load_json_dataset_eq, Hp. unfold loaded, load_records. simpl.
  destruct (unwrap_data raw) as [ | | | | | [|r items] | ] eqn:Hraw.
  7: destruct (from_records (r :: items)) as [frame|e] eqn:Hfr;
       [destruct (empty frame) eqn:He
       |apply from_records_raises in Hfr as Hcases;
        destruct Hcases as [-> | [-> | ->]]].
  all: split_and!; split; intros Hx; try done; try discriminate.
  all: try (by destruct Hx).
  all: try (by destruct Hx as (? & ? & [=] & _)).
  all: try (by destruct Hx as (? & ? & [= <-] & ? & _)).
  all: try (destruct Hx as (? & ? & [= <-] & _ & Hfr' & He'); congruence).
  all: try (by intros []).
  exists (r :: items), frame. done.
Qed.

Lemma load_json_dataset_messages_witness :
  (load_json_dataset ["empty.json"]
     {| fs := {[ ["empty.json"] := JsonFile (VDict [("data", VList [])]) ]};
        time := λ _, noon; reads := 0 |}).1
  = Raise (ValueError "JSON dataset is empty").
Proof.
  apply (load_json_dataset_messages ["empty.json"]
           {| fs := {[ ["empty.json"] := JsonFile (VDict [("data", VList [])]) ]};
              time := λ _, noon; reads := 0 |}
           (VDict [("data", VList [])])); [by vm_compute | reflexivity].
Defined.

(** X7: a top-level object is unwrapped once and only through its "data"
    key: without that key, or with a value under it that is not an array
    (be it an object that has a "data" array itself), the loader refuses
    with the "must be a list" message. *)
Theorem load_json_dataset_object (p : Path) (w : World) (d : list (string * value)) :
  fs w !! p = Some (JsonFile (VDict d)) →
  dict_get "data" d = None ∨ (∃ v, dict_get "data" d = Some v ∧ ¬ is_list v) →
  (load_json_dataset p w).1 =
  Raise (ValueError "JSON dataset must be a list of records or include a 'data' list").
Proof.
  intros Hp Hd. rewrite load_json_dataset_eq, Hp. unfold loaded. simpl.
  destruct Hd as [-> | (v & -> & Hv)]; [done|].
  destruct v; done.
Qed.

Lemma load_json_dataset_object_witness :
  (load_json_dataset ["nested.json"]
     {| fs := {[ ["nested.json"] :=
                   JsonFile (VDict [("data", VDict [("data", VList sample_records)])]) ]};
        time := λ _, noon; reads := 0 |}).1
  = Raise (ValueError "JSON dataset must be a list of records or include a 'data' list").
Proof.
  apply (load_json_dataset_object _ _ [("data", VDict [("data", VList sample_records)])]);
    [by vm_compute|].
  right. eexists. split; [reflexivity|]. by intros [].
Defined.

(** ** The classifier on loaded Datasets *)

Lemma loaded_column_dtype (records : value) (df : DataFrame) (l : label) (s : Series) :
  load_records records = Return df → (l, s) ∈ columns df →
  is_numeric s ∨ is_categorical s.
Proof.
  intros (items & _ & Hfr & _)%load_records_Return Hin.
  destruct (from_records_columns _ _ _ _ Hfr Hin) as [vals Hconv].
  apply convert_object_array_dtype, infer_dtype_cases in Hconv as Hdt.
  unfold is_numeric, is_categorical.
  repeat (apply elem_of_cons in Hdt as [->|Hdt]); simpl; try tauto.
  by apply elem_of_nil in Hdt.
Qed.

Lemma filter_complement_elem {A} (P Q : A → Prop) `{!∀ x, Decision (P x)}
    `{!∀ x, Decision (Q x)} (l : list A) :
  (∀ x, x ∈ l → (P x ∨ Q x) ∧ ¬ (P x ∧ Q x)) →
  filter P l ++ filter Q l ≡ₚ l.
Proof.
  induction l as [|x l IH]; intros Hall; [done|].
  assert (filter P l ++ filter Q l ≡ₚ l) as IH'
    by (apply IH; intros y Hy; apply Hall; by right).
  destruct (Hall x) as [Hor Hnot]; [left|].
  rewrite !filter_cons. destruct (decide (P x)), (decide (Q x)); try tauto.
  - simpl. by rewrite IH'.
  - rewrite <- Permutation_middle. by rewrite IH'.
Qed.

(** X8: on a Dataset that the loader returned, the classifier leaves no
    column out: the numeric names followed by the categorical names are the
    column names, each once, in some order. *)
Theorem loaded_columns_partition (p : Path) (w : World) (df : DataFrame) :
  (load_json_dataset p w).1 = Return df →
  _numeric_columns df ++ _categorical_columns df ≡ₚ labels df.
Proof.
  rewrite load_json_dataset_eq.
  destruct (fs w !! p) as [[ | raw | | ]|]; try discriminate. simpl.
  unfold loaded. intros Hload.
  unfold _numeric_columns, _categorical_columns, labels.
  rewrite select_number_filter, select_categorical_filter, <- fmap_app.
  apply fmap_Permutation, filter_complement_elem.
  intros [l s] Hin. split.
  - by eapply loaded_column_dtype.
  - intros [Hnum Hcat]. by apply numeric_not_categorical in Hnum.
Qed.

Lemma loaded_columns_partition_witness :
  _numeric_columns sample_frame ++ _categorical_columns sample_frame
  ≡ₚ labels sample_frame.
Proof.
  apply (loaded_columns_partition ["data"; "sample_data.json"] sample_world).
  by vm_compute.
Defined.

(** Once the scan has met an object it says so. *)
Lemma scan_object_kept (vals : list value) (s s' : Seen) :
  object_ s = true → scan s vals = Return s' → object_ s' = true.
Proof.
  revert s. induction vals as [|v vals IH]; intros s Hs; simpl;
    [by intros [= <-]|].
  destruct v as [ | | z |[]| | | ]; simpl;
    try (by intros [= <-]); try (by apply IH).
  destruct (fits_double z); simpl; [|done].
  destruct (null_ s); [by apply IH|].
  destruct (_ || (z <? INT64_MIN)%Z); simpl.
  - intros [= <-]. simpl. by rewrite Hs.
  - apply IH. simpl. by rewrite Hs.
Qed.

Lemma scan_bool_kept (vals : list value) (s s' : Seen) :
  bool_ s = true → scan s vals = Return s' → bool_ s' = true.
Proof.
  revert s. induction vals as [|v vals IH]; intros s Hs; simpl;
    [by intros [= <-]|].
  destruct v as [ | | z |[]| | | ]; simpl;
    try (by intros [= <-]); try (by apply IH).
  destruct (fits_double z); simpl; [|done].
  destruct (null_ s); [by apply IH|].
  destruct (_ || (z <? INT64_MIN)%Z); simpl; [by intros [= <-]|by apply IH].
Qed.

Lemma scan_not_number (vals : list value) (s s' : Seen) :
  (∃ v, v ∈ vals ∧ is_not_number v) →
  scan s vals = Return s' →
  bool_ s' = true ∨ object_ s' = true.
Proof.
  revert s. induction vals as [|v vals IH]; intros s (x & Hx & Hkind).
  { by apply elem_of_nil in Hx. }
  apply elem_of_cons in Hx as [->|Hx].
  - destruct v; try done; simpl.
    + intros Hscan. left. eapply scan_bool_kept; [|exact Hscan]. done.
    + intros [= <-]. by right.
    + intros [= <-]. by right.
    + intros [= <-]. by right.
  - assert (∃ v, v ∈ vals ∧ is_not_number v) as Hrest by eauto.
    simpl. destruct v as [ | | z |[]| | | ]; simpl;
      try (by apply IH); try (intros [= <-]; by right).
    destruct (fits_double z); simpl; [|done].
    destruct (null_ s); [by apply IH|].
    destruct (_ || (z <? INT64_MIN)%Z) eqn:Hout; simpl; [|by apply IH].
    intros [= <-]. right. simpl. by rewrite orb_true_r.
Qed.

Lemma infer_dtype_not_number (vals : list value) (dt : dtype) :
  (∃ v, v ∈ vals ∧ is_not_number v) →
  infer_dtype vals = Return dt →
  dt = Bool ∨ dt = Object.
Proof.
  intros Hex. unfold infer_dtype, result_dtype.
  destruct (scan seen_nothing vals) as [seen|e] eqn:Hscan; [|done]. intros [= <-].
  destruct (scan_not_number vals seen_nothing seen Hex Hscan) as [-> | Hobj].
  - destruct (_ || _); auto.
  - rewrite Hobj. destruct (bool_ _); [|by right].
    rewrite !orb_true_r. by right.
Qed.

Lemma scan_numbers (vals : list value) (s s' : Seen) :
  Forall is_number_or_null vals →
  bool_ s = false → object_ s = false → uint_ s = false →
  scan s vals = Return s' →
  bool_ s' = false ∧ object_ s' = false ∧ uint_ s' = false ∧
  ((int_ s || float_ s || nan_ s = true ∨ ∃ v, v ∈ vals ∧ is_number v) →
   int_ s' || float_ s' || nan_ s' = true).
Proof.
  intros Hvals. revert s.
  induction Hvals as [|v vals Hv _ IH]; intros s Hb Ho Hu.
  { intros [= <-]. split_and!; try done. intros [?|(v & []%elem_of_nil & _)]. done. }
  assert (∀ next, bool_ next = false → object_ next = false → uint_ next = false →
    (int_ s || float_ s || nan_ s = true ∨ is_number v →
     int_ next || float_ next || nan_ next = true) →
    scan next vals = Return s' →
    bool_ s' = false ∧ object_ s' = false ∧ uint_ s' = false ∧
    ((int_ s || float_ s || nan_ s = true ∨ ∃ x, x ∈ v :: vals ∧ is_number x) →
     int_ s' || float_ s' || nan_ s' = true))
    as Hstep.
  { intros next Hb' Ho' Hu' Hseen Hscan.
    destruct (IH next Hb' Ho' Hu' Hscan) as (? & ? & ? & Hq).
    split_and!; try done. intros [Hs|(x & [->|Hx]%elem_of_cons & Hnum)].
    - apply Hq. left. apply Hseen. by left.
    - apply Hq. left. apply Hseen. by right.
    - apply Hq. right. eauto. }
  simpl. destruct v as [ | | z |[]| | | ]; try done; simpl in *.
  2: destruct (fits_double z); simpl; [|done]; destruct (null_ s) eqn:Hnull.
  3: { unfold INT64_MIN, INT64_MAX, UINT64_MAX in *.
       assert ((2 ^ 63 - 1 <? z)%Z = false) as -> by (apply Z.ltb_ge; lia).
       assert ((2 ^ 64 - 1 <? z)%Z = false) as -> by (apply Z.ltb_ge; lia).
       assert ((z <? - 2 ^ 63)%Z = false) as -> by (apply Z.ltb_ge; lia).
       rewrite Hu, Ho. simpl. apply Hstep; simpl; done. }
  all: apply Hstep; simpl; rewrite ?orb_true_r; try done;
    try (intros [?|?]; done).
Qed.

Lemma infer_dtype_numbers (vals : list value) (dt : dtype) :
  Forall is_number_or_null vals → (∃ v, v ∈ vals ∧ is_number v) →
  infer_dtype vals = Return dt →
  dt = Int64 ∨ dt = Float64.
Proof.
  intros Hvals Hex. unfold infer_dtype, result_dtype.
  destruct (scan seen_nothing vals) as [seen|e] eqn:Hscan; [|done]. intros [= <-].
  destruct (scan_numbers vals seen_nothing seen Hvals eq_refl eq_refl eq_refl Hscan)
    as (-> & -> & -> & Hseen).
  specialize (Hseen (or_intror Hex)).
  destruct (null_ seen || nan_ seen) eqn:Hmiss.
  - rewrite (orb_comm (float_ _)), Hseen. by right.
  - apply orb_false_iff in Hmiss as [_ Hnan]. rewrite Hnan, orb_false_r in Hseen.
    destruct (float_ seen); [by right|].
    destruct (int_ seen); [by left|done].
Qed.

Lemma elem_of_concat {A} (x : A) (ls : list (list A)) :
  x ∈ concat ls ↔ ∃ l, x ∈ l ∧ l ∈ ls.
Proof.
  induction ls as [|l ls IH]; simpl.
  - split; [by intros ?%elem_of_nil | by intros (l & _ & ?%elem_of_nil)].
  - rewrite elem_of_app, IH. split.
    + intros [?|(l' & ? & ?)]; [exists l; split; [done|left] | exists l'; split; [done|by right]].
    + intros (l' & Hx & [->|Hl']%elem_of_cons); eauto.
Qed.

Lemma dict_get_Some_key (key : string) (d : list (string * value)) (v : value) :
  dict_get key d = Some v → key ∈ dict_keys d.
Proof.
  intros Hget. destruct (decide (key ∈ dict_keys d)) as [|Hno]; [done|].
  apply dict_get_None in Hno. congruence.
Qed.

Lemma converted_key {A} (name : A → label) (array : A → list value)
    (keys : list A) (cols : list (label * Series)) (k : A) :
  Forall2 (λ k c, converted (name k) (array k) c) keys cols →
  k ∈ keys →
  ∃ s, (name k, s) ∈ cols ∧ convert_object_array (array k) = Return s.
Proof.
  induction 1 as [|k' [l s] keys cols [Hname Hconv] _ IH]; [by intros ?%elem_of_nil|].
  simpl in *. intros [->|Hin]%elem_of_cons.
  - exists s. split; [subst l; left|done].
  - destruct (IH Hin) as (s' & ? & ?). exists s'. split; [by right|done].
Qed.

(** X9: how the records decide the kind of a column.  A key under which
    some record holds a boolean, a string, an array or an object is a
    categorical column, whatever the other records hold; a key under which
    the records hold only numbers within the 64-bit signed range and nulls,
    and at least one number, is a numeric column. *)
Theorem loaded_column_kind (p : Path) (w : World) (raw : value)
    (items : list value) (df : DataFrame) (k : string) :
  fs w !! p = Some (JsonFile raw) →
  unwrap_data raw = VList items →
  Forall is_record items →
  (load_json_dataset p w).1 = Return df →
  ((∃ d v, VDict d ∈ items ∧ dict_get k d = Some v ∧ is_not_number v) →
   LStr k ∈ _categorical_columns df) ∧
  ((∀ d v, VDict d ∈ items → dict_get k d = Some v → is_number_or_null v) →
   (∃ d v, VDict d ∈ items ∧ dict_get k d = Some v ∧ is_number v) →
   LStr k ∈ _numeric_columns df).
Proof.
  intros Hp Hraw Hrec Hload.
  destruct (load_json_dataset_of_records p w raw items df Hp Hraw Hrec Hload)
    as (dicts & cols & -> & Hcols & ->).
  assert (∀ d v, VDict d ∈ VDict <$> dicts → dict_get k d = Some v →
                 v ∈ dict_array dicts k ∧
                 ∃ s, (LStr k, s) ∈ cols ∧
                      infer_dtype (dict_array dicts k) = Return (dtype_of s))
    as Hcol.
  { intros d v (d' & [= <-] & Hd)%list_elem_of_fmap Hget. split.
    - apply list_elem_of_fmap. exists d. by rewrite Hget.
    - destruct (converted_key _ _ _ _ k Hcols) as (s & Hs & Hconv).
      + apply elem_of_distinct, elem_of_concat. exists (dict_keys d).
        split; [by eapply dict_get_Some_key|]. by apply list_elem_of_fmap_2.
      + exists s. split; [done|]. by apply convert_object_array_dtype. }
  split.
  - intros (d & v & Hd & Hget & Hkind).
    destruct (Hcol d v Hd Hget) as (Hv & s & Hin & Hdt).
    apply elem_of_categorical_columns. exists s. split; [exact Hin|].
    unfold is_categorical.
    destruct (infer_dtype_not_number _ _ (ex_intro _ v (conj Hv Hkind)) Hdt)
      as [-> | ->]; simpl; eauto.
  - intros Hall (d & v & Hd & Hget & Hkind).
    destruct (Hcol d v Hd Hget) as (Hv & s & Hin & Hdt).
    apply elem_of_numeric_columns. exists s. split; [exact Hin|].
    unfold is_numeric.
    destruct (infer_dtype_numbers (dict_array dicts k) (dtype_of s)) as [-> | ->];
      simpl; eauto.
    apply Forall_fmap, Forall_forall. intros row Hrow. simpl.
    destruct (dict_get k row) as [x|] eqn:Hx; [|done]. simpl.
    apply (Hall row x); [by apply list_elem_of_fmap_2|done].
Qed.

Lemma loaded_column_kind_witness :
  LStr "category" ∈ _categorical_columns sample_frame ∧
  LStr "value" ∈ _numeric_columns sample_frame.
Proof.
  destruct (loaded_column_kind ["data"; "sample_data.json"] sample_world
              (VList sample_records) sample_records sample_frame "category")
    as [Hcat _]; [by vm_compute | reflexivity | repeat constructor | by vm_compute|].
  destruct (loaded_column_kind ["data"; "sample_data.json"] sample_world
              (VList sample_records) sample_records sample_frame "value")
    as [_ Hnum]; [by vm_compute | reflexivity | repeat constructor | by vm_compute|].
  split.
  - apply Hcat. exists [("value", VInt 1); ("category", VStr "A")], (VStr "A").
    split_and!; [left|reflexivity|exact I].
  - apply Hnum.
    + intros d v Hd Hv. unfold sample_records in Hd.
      repeat (apply elem_of_cons in Hd as [Hd|Hd]);
        [injection Hd as ->; vm_compute in Hv; injection Hv as <-;
         vm_compute; split; discriminate ..
        |by apply elem_of_nil in Hd].
    + exists [("value", VInt 1); ("category", VStr "A")], (VInt 1).
      split_and!; [left|reflexivity|by vm_compute].
Defined.

(** ** The pages of a generated report *)

Lemma filter_exclusive_length {A} (P Q : A → Prop) `{!∀ x, Decision (P x)}
    `{!∀ x, Decision (Q x)} (l : list A) :
  (∀ x, P x → Q x → False) →
  length (filter P l) + length (filter Q l) ≤ length l.
Proof.
  intros Hex. induction l as [|x l IH]; [done|].
  rewrite !filter_cons. destruct (decide (P x)), (decide (Q x)); simpl; try lia.
  by destruct (Hex x).
Qed.

Lemma plot_pages_length `{Library} (df : DataFrame) :
  length (numeric_pages df) + length (categorical_pages df) ≤ length (columns df).
Proof.
  unfold numeric_pages, categorical_pages. rewrite !length_fmap.
  apply filter_exclusive_length. intros [l s] [Hnum _] [Hcat _].
  by apply numeric_not_categorical in Hnum.
Qed.

(** X10: the document of a successful call opens with the title page, which
    carries the resolved title, the name of the source file and the numbers
    of rows and columns of the Dataset; for an array of records these are
    the number of records and the number of distinct keys. *)
Theorem generate_pdf_report_title_page `{Library} (config : ReportConfig)
    (w w' : World) (p : Path) (raw : value) (items : list value) :
  generate_pdf_report config w = (Return p, w') →
  fs w !! json_path config = Some (JsonFile raw) →
  unwrap_data raw = VList items →
  Forall is_record items →
  ∃ rest,
    document p w' =
    TitlePage (resolved_title config) (time w (S (reads w)))
              (name (json_path config)) (length items)
              (length (distinct (concat (record_keys <$> items)))) :: rest.
Proof.
  intros (_ & df & Hload & Hfs)%generate_pdf_report_Return Hp Hraw Hrec.
  destruct (load_json_dataset_of_records _ w raw items df Hp Hraw Hrec Hload)
    as (dicts & cols & -> & Hcols & ->).
  unfold document. rewrite Hfs, lookup_insert_eq. unfold report_pages, title_page.
  cbn [index_len columns]. apply Forall2_length in Hcols.
  rewrite record_keys_dicts, length_fmap, Hcols. eauto.
Qed.

Lemma generate_pdf_report_title_page_witness :
  ∃ rest, document ["reports"; "report_20240101_120000.pdf"] sample_run.2
          = TitlePage "Test Report" noon "sample_data.json" 2 2 :: rest.
Proof.
  apply (generate_pdf_report_title_page (H:=reference_library) sample_config
           sample_world sample_run.2 ["reports"; "report_20240101_120000.pdf"]
           (VList sample_records) sample_records);
    [by vm_compute | by vm_compute | reflexivity | repeat constructor].
Defined.

(** X11: a generated report never holds the fallback page: a Dataset that
    the loader returns always has a numeric or a categorical column.  Its
    document is the title page followed by plot pages only, at most one per
    column and one for the correlations. *)
Theorem generate_pdf_report_pages `{Library} (config : ReportConfig)
    (w w' : World) (p : Path) :
  generate_pdf_report config w = (Return p, w') →
  ∃ df title rest,
    (load_json_dataset (json_path config) w).1 = Return df ∧
    document p w' = title :: rest ∧
    title = title_page config df (time w (S (reads w))) ∧
    Forall is_plot_page rest ∧
    length rest ≤ length (columns df) + 1.
Proof.
  intros (_ & df & Hload & Hfs)%generate_pdf_report_Return.
  exists df, (title_page config df (time w (S (reads w)))),
    (numeric_pages df ++ correlation_pages df ++ categorical_pages df).
  assert (fallback_pages df = []) as Hfb.
  { unfold fallback_pages. apply decide_False. intros [Hnum Hcat].
    rewrite load_json_dataset_eq in Hload.
    destruct (fs w !! json_path config) as [[ | raw | | ]|]; try discriminate.
    destruct (loaded_frame_has_plots _ df Hload); done. }
  split_and!; [done| |done| |].
  - unfold document. rewrite Hfs, lookup_insert_eq. unfold report_pages.
    by rewrite Hfb, app_nil_r.
  - rewrite !Forall_app. unfold numeric_pages, categorical_pages, correlation_pages.
    split_and!.
    + by apply Forall_fmap, Forall_true.
    + destruct (decide _); by repeat constructor.
    + by apply Forall_fmap, Forall_true.
  - rewrite !length_app. pose proof (plot_pages_length df) as Hlen.
    assert (length (correlation_pages df) ≤ 1)
      by (unfold correlation_pages; destruct (decide _); simpl; lia).
    lia.
Qed.

Lemma generate_pdf_report_pages_witness :
  ∃ df title rest,
    (load_json_dataset (json_path sample_config) sample_world).1 = Return df ∧
    document ["reports"; "report_20240101_120000.pdf"] sample_run.2 = title :: rest ∧
    title = title_page sample_config df (time sample_world (S (reads sample_world))) ∧
    Forall is_plot_page rest ∧
    length rest ≤ length (columns df) + 1.
Proof.
  apply (generate_pdf_report_pages (H:=reference_library) sample_config sample_world).
  by vm_compute.
Defined.

(** ** The counts on a categorical page *)

Lemma sum_bump (v : string) (table : list (string * nat)) :
  sum_list_with snd (bump v table) = S (sum_list_with snd table).
Proof.
  induction table as [|[k c] table IH]; simpl; [done|].
  destruct (decide (k = v)); simpl; [done|]. rewrite IH. lia.
Qed.

Lemma sum_value_count (data : list string) :
  sum_list_with snd (value_count data) = length data.
Proof.
  unfold value_count. induction data as [|v data IH] using rev_ind; [done|].
  rewrite foldl_app, length_app. simpl. rewrite sum_bump, IH. lia.
Qed.

Lemma count_of_bounds (v : string) (data : list string) :
  v ∈ data → 1 ≤ count_of v data ≤ length data.
Proof.
  intros Hv. unfold count_of. split; [|apply length_filter].
  assert (v ∈ filter (λ x, x = v) data) as Hin by (by apply list_elem_of_filter).
  destruct (filter (λ x, x = v) data); [by apply elem_of_nil in Hin|simpl; lia].
Qed.

(** X12: whatever order the library's sort leaves, as long as it only
    reorders the table: every bar that the categorical renderer hands to
    the plotting call, and shows on the page when the call and the drawing
    of the page return, carries a count between 1 and the number of
    non-missing entries, the counts add
    up to at most that number, and when the column has at most ten distinct
    texts every one of them has its bar and the counts add up to exactly
    that number. *)
Theorem plot_categorical_column_counts `{Library} (pdf : Path) (df : DataFrame)
    (column : label) (s : Series) :
  (∀ l, sort_values_desc l ≡ₚ l) →
  lookup_column column (columns df) = Some s →
  has_values s →
  let data := astype_str (dropna s) in
  ∃ bars,
    plots pdf (_plot_categorical_column pdf df column)
          (and_then (barplot bars) (draw (CategoricalPage column bars)))
          (CategoricalPage column bars) ∧
    length data = length (values (dropna s)) ∧
    (∀ v c, (v, c) ∈ bars → 1 ≤ c ≤ length data) ∧
    sum_list_with snd bars ≤ length data ∧
    (length (distinct data) ≤ 10 →
     bars.*1 ≡ₚ distinct data ∧ sum_list_with snd bars = length data).
Proof.
  intros Hperm Hcol Hvalues data. exists (bars_of s).
  split; [by apply plots_categorical_column|].
  unfold bars_of, head, value_counts. fold data.
  set (ranked := sort_values_desc (value_count data)).
  assert (ranked ≡ₚ value_count data) as Hranked by apply Hperm.
  assert (sum_list_with snd ranked = length data) as Hsum
    by (by rewrite Hranked, sum_value_count).
  split_and!.
  - unfold data, astype_str. by rewrite length_fmap.
  - intros v c Hin. apply elem_of_take in Hin as (i & Hi & _).
    apply list_elem_of_lookup_2 in Hi. rewrite Hranked in Hi.
    apply elem_of_value_count in Hi as [Hv ->]. by apply count_of_bounds.
  - rewrite <- Hsum. rewrite <- (take_drop 10 ranked) at 2.
    rewrite sum_list_with_app. lia.
  - intros Hfew. rewrite take_ge.
    + split; [|done]. by rewrite Hranked, value_count_keys.
    + by rewrite Hranked, <- value_count_keys, length_fmap in *.
Qed.

Lemma plot_categorical_column_counts_witness :
  ∃ bars,
    appends ["out.pdf"]
      (@_plot_categorical_column reference_library ["out.pdf"] ties_frame (LStr "kind"))
      [CategoricalPage (LStr "kind") bars] ∧
    sum_list_with snd bars ≤ 5.
Proof.
  destruct (plot_categorical_column_counts (H:=reference_library) ["out.pdf"] ties_frame
              (LStr "kind")
              {| dtype_of := Object;
                 values := [VStr "b"; VStr "a"; VStr "b"; VStr "c"; VNone; VStr "a"] |})
    as (bars & Happ & _ & _ & Hsum & _).
  - intros l. apply insertion_sort_desc_descending.
  - reflexivity.
  - by vm_compute.
  - exists bars. split; [exact Happ|exact Hsum].
Defined.

(** ** The default title *)

Lemma case_maps_keep_underscore_out (c : ascii) :
  c ≠ "_"%char → to_upper c ≠ "_"%char ∧ to_lower c ≠ "_"%char.
Proof.
  intros Hc. destruct c as [[] [] [] [] [] [] [] []]; vm_compute; split; congruence.
Qed.

Lemma title_from_length (b : bool) (s : string) :
  String.length (title_from b s) = String.length s.
Proof. revert b. induction s as [|c s IH]; intros b; simpl; [done|]. by rewrite IH. Qed.

Lemma str_replace_length (old new : ascii) (s : string) :
  String.length (str_replace old new s) = String.length s.
Proof. induction s as [|c s IH]; simpl; [done|]. by rewrite IH. Qed.

Lemma title_from_replace_no_underscore (b : bool) (s : string) :
  "_"%char ∉ list_ascii_of_string (title_from b (str_replace "_" " " s)).
Proof.
  revert b. induction s as [|c s IH]; intros b; simpl; [apply not_elem_of_nil|].
  apply not_elem_of_cons. split; [|apply IH].
  assert ((if decide (c = "_"%char) then " "%char else c) ≠ "_"%char) as Hne
    by (by destruct (decide (c = "_"%char))).
  apply case_maps_keep_underscore_out in Hne as [Hup Hlow].
  destruct b; congruence.
Qed.

Lemma case_maps_keep_ascii (c : ascii) :
  is_ascii c = true → is_ascii (to_upper c) = true ∧ is_ascii (to_lower c) = true.
Proof.
  destruct c as [[] [] [] [] [] [] [] []]; vm_compute; intros Hc; split; congruence.
Qed.

Lemma title_from_replace_ascii (b : bool) (s : string) :
  ascii_text s → ascii_text (title_from b (str_replace "_" " " s)).
Proof.
  unfold ascii_text. revert b. induction s as [|c s IH]; intros b; simpl; [done|].
  intros [Hc Hs]%Forall_cons. constructor; [|by apply IH].
  assert (is_ascii (if decide (c = "_"%char) then " "%char else c) = true) as Hc'
    by (by destruct (decide (c = "_"%char))).
  apply case_maps_keep_ascii in Hc' as [Hup Hlow]. by destruct b.
Qed.

(** X13: for a source file whose stem is ASCII text, the title derived from
    the file name (used when no title or an empty one is given) has the
    thirteen characters of "Data Report: " followed by as many characters as
    the stem, holds no underscore, and is ASCII text. *)
Theorem resolved_title_derived_shape (self : ReportConfig) :
  title self = None ∨ title self = Some "" →
  ascii_text (stem (json_path self)) →
  String.length (resolved_title self) = 13 + String.length (stem (json_path self)) ∧
  ("_"%char ∉ list_ascii_of_string (resolved_title self)) ∧
  ascii_text (resolved_title self).
Proof.
  intros Htitle Hascii.
  assert (resolved_title self =
          "Data Report: " +:+ str_title (str_replace "_" " " (stem (json_path self))))
    as -> by (unfold resolved_title; by destruct Htitle as [-> | ->]).
  split_and!.
  - rewrite string_length_app. unfold str_title.
    by rewrite title_from_length, str_replace_length.
  - simpl. repeat (apply not_elem_of_cons; split; [done|]).
    apply title_from_replace_no_underscore.
  - unfold ascii_text. simpl. repeat (constructor; [done|]).
    by apply title_from_replace_ascii.
Qed.

Lemma resolved_title_derived_shape_witness :
  String.length (resolved_title {| json_path := ["data"; "sample_data.json"];
                                   report_dir := DEFAULT_REPORT_DIR; title := Some "" |})
  = 24.
Proof.
  destruct (resolved_title_derived_shape
              {| json_path := ["data"; "sample_data.json"];
                 report_dir := DEFAULT_REPORT_DIR; title := Some "" |}) as [Hlen _].
  - by right.
  - unfold ascii_text. vm_compute. repeat constructor.
  - exact Hlen.
Defined.

Lemma rfind_app_last (c : ascii) (s1 s2 : string) :
  rfind c s2 = None → rfind c (s1 +:+ String c s2) = Some (String.length s1).
Proof.
  intros Hs2. induction s1 as [|a s1 IH]; simpl.
  - rewrite Hs2. by rewrite decide_True.
  - by rewrite IH.
Qed.

Lemma substring_app_prefix (s1 s2 : string) :
  substring 0 (String.length s1) (s1 +:+ s2) = s1.
Proof.
  induction s1 as [|a s1 IH]; simpl; [by destruct s2|]. by rewrite IH.
Qed.

(** X14: for a source file named base.ext, with a base and an extension
    that are not empty and no dot in the extension, the default title is
    built from the base alone: the directories of the path play no part,
    and only the last suffix is dropped. *)
Theorem resolved_title_of_file (dir report : Path) (base ext : string) :
  base ≠ "" → ext ≠ "" → rfind "." ext = None →
  resolved_title {| json_path := dir ++ [base +:+ "." +:+ ext];
                    report_dir := report; title := None |}
  = "Data Report: " +:+ str_title (str_replace "_" " " base).
Proof.
  intros Hbase Hext Hdot. unfold resolved_title. simpl. do 2 f_equal.
  unfold stem. change (dir ++ [base +:+ "." +:+ ext]) with
    (joinpath dir (base +:+ "." +:+ ext)). rewrite name_joinpath.
  change (base +:+ "." +:+ ext) with (base +:+ String "." ext).
  rewrite (rfind_app_last _ _ _ Hdot), string_length_app. simpl.
  assert ((0 <? String.length base) = true) as ->
    by (apply Nat.ltb_lt; destruct base; [done|simpl; lia]).
  assert ((String.length base <? String.length base + S (String.length ext) - 1) = true)
    as -> by (apply Nat.ltb_lt; destruct ext; [done|simpl; lia]).
  simpl. by rewrite substring_app_prefix.
Qed.

Lemma resolved_title_of_file_witness :
  resolved_title {| json_path := ["exports"; "2024"] ++ ["monthly_sales.v2" +:+ "." +:+ "json"];
                    report_dir := DEFAULT_REPORT_DIR; title := None |}
  = "Data Report: Monthly Sales.V2".
Proof.
  rewrite (resolved_title_of_file ["exports"; "2024"] DEFAULT_REPORT_DIR
             "monthly_sales.v2" "json"); [reflexivity|discriminate|discriminate|reflexivity].
Defined.

(** ** The command-line entry *)

(** X15: [run_from_cli] writes into "Reports" when the report directory is
    omitted or given as the empty string, and into the directory given
    otherwise; after the call that directory exists. *)
Theorem run_from_cli_report_dir `{Library} (Path_of : string → Path)
    (json_path_text : string) (report_dir_text title_text : option string)
    (w w' : World) (p : Path) :
  run_from_cli Path_of json_path_text report_dir_text title_text w = (Return p, w') →
  let dir := match report_dir_text with
             | Some d => if decide (d = "") then ["Reports"] else Path_of d
             | None => ["Reports"]
             end in
  p = joinpath dir (report_name (strftime_compact (time w (reads w)))) ∧
  (dir ≠ [] → fs w' !! dir = Some Directory) ∧
  (∃ pages, fs w' !! p = Some (PdfFile pages)).
Proof.
  unfold run_from_cli. intros Hrun. simpl.
  pose proof (generate_pdf_report_written _ _ _ _ Hrun) as (Hdirs & Hfile).
  apply generate_pdf_report_Return in Hrun as (Hp & _). simpl in *.
  split_and!; [done| |done].
  intros Hne. apply Hdirs. unfold with_parents.
  apply list_elem_of_fmap. eexists (length _). split; [by rewrite firstn_all|].
  apply elem_of_seq. destruct (match report_dir_text with Some _ => _ | None => _ end);
    [done|simpl; lia].
Qed.

Lemma run_from_cli_report_dir_witness :
  let run := @run_from_cli reference_library single_component "sample_data.json"
               (Some "") None
               {| fs := {[ ["sample_data.json"] := JsonFile (VList sample_records) ]};
                  time := λ _, noon; reads := 0 |} in
  run.1 = Return ["Reports"; "report_20240101_120000.pdf"] ∧
  fs run.2 !! ["Reports"] = Some Directory.
Proof.
  simpl. split; [by vm_compute|].
  apply (run_from_cli_report_dir (H:=reference_library) single_component
           "sample_data.json" (Some "") None
           {| fs := {[ ["sample_data.json"] := JsonFile (VList sample_records) ]};
              time := λ _, noon; reads := 0 |} _
           ["Reports"; "report_20240101_120000.pdf"]); [by vm_compute|discriminate].
Defined.

(** ** The window *)

Lemma generate_pdf_report_unchanged `{Library} (config : ReportConfig) (w : World) (q : Path) :
  q ∉ with_parents (report_dir config) →
  q ≠ joinpath (report_dir config) (report_name (strftime_compact (time w (reads w)))) →
  fs (generate_pdf_report config w).2 !! q = fs w !! q.
Proof.
  intros Hq Hne. rewrite generate_pdf_report_eq.
  destruct ((load_json_dataset (json_path config) w).1) as [df|e]; [|done].
  destruct (is_file _); [done|]. destruct (existsb _ _); [done|]. simpl.
  destruct (make_dirs _ _ !! joinpath _ _) as [[]|]; simpl;
    rewrite ?lookup_insert_ne by done; by apply make_dirs_lookup_ne.
Qed.

Section window_facts.
Context (show_available : bool) (Path_of : string → Path) `{Library}.

Lemma show_in_pandasgui_fields (self : ReportGui) (dataset : DataFrame) :
  let shown := _show_in_pandasgui show_available self dataset in
  _json_path shown = _json_path self ∧ path_var shown = path_var self ∧
  (∃ text, status_var shown = StatusText text) ∧
  _gui shown = (if show_available
                then Some (match _json_path self with
                           | Some p => name p
                           | None => "Dataset"
                           end)
                else _gui self).
Proof.
  unfold _show_in_pandasgui. destruct show_available; simpl.
  - destruct (_gui self); simpl; eauto.
  - eauto.
Qed.

Lemma show_in_pandasgui_consistent (self : ReportGui) (dataset : DataFrame) (p : Path) :
  _json_path self = Some p → path_var self = Some p →
  (∀ shown, _gui self = Some shown → show_available = true) →
  window_consistent show_available (_show_in_pandasgui show_available self dataset).
Proof.
  intros Hsel Hlabel Hgui.
  destruct (show_in_pandasgui_fields self dataset) as (Hj & Hp & [text Hst] & Hg).
  unfold window_consistent. rewrite Hj, Hp, Hst, Hg, Hsel. split_and!; [done|done|].
  intros shown. destruct show_available eqn:Havail.
  - intros [= <-]. eauto.
  - intros Hshown. by apply Hgui in Hshown.
Qed.

Lemma press_consistent (a : action) (self : ReportGui) (w : World) :
  window_consistent show_available self →
  window_consistent show_available (press show_available Path_of a self w).1.
Proof.
  intros (Hlabel & Hstatus & Hgui).
  assert (∀ st e, window_consistent show_available (set_status (StatusText st) (emit e self)))
    as Hquiet by (intros st e; split_and!; simpl; try done).
  assert (∀ e, window_consistent show_available (emit e self))
    as Hemit by (intros e; split_and!; simpl; try done).
  destruct a as [selection | | ]; simpl.
  - unfold browse. destruct (decide (selection = "")); [done|].
    unfold set_dataset.
    destruct (load_json_dataset (Path_of selection) w) as [[dataset|exc] w'];
      simpl; [|apply Hquiet].
    apply (show_in_pandasgui_consistent _ _ (Path_of selection)); simpl; try done.
    intros shown Hshown. by apply Hgui in Hshown as [? _].
  - unfold open_in_gui. destruct (_json_path self) as [path|] eqn:Hsel; [|apply Hemit].
    destruct (load_json_dataset path w) as [[dataset|exc] w']; simpl; [|apply Hquiet].
    apply (show_in_pandasgui_consistent _ _ path);
      [done | congruence | intros shown Hshown; by apply Hgui in Hshown as [? _]].
  - unfold generate_report. destruct (_json_path self) as [path|] eqn:Hsel;
      [|apply Hemit].
    destruct (generate_pdf_report _ w) as [[report|exc] w']; simpl; [|apply Hquiet].
    split_and!; simpl; rewrite ?Hsel; done.
Qed.

(** X16: through any session, from the opening of the window on, with or
    without an initial file: the label shows the selected path, a viewer is
    open only if [pandasgui] could be imported and then shows the selected
    file under its name, and the status line never stays at the count of
    rows and columns, which the call of the viewer overwrites at once. *)
Theorem session_consistent (initial_json : option Path) (actions : list action)
    (w : World) :
  let opened := new_window show_available initial_json w in
  window_consistent show_available
    (session show_available Path_of actions opened.1 opened.2).1.
Proof.
  simpl.
  assert (window_consistent show_available
            (new_window show_available initial_json w).1) as Hinit.
  { unfold new_window. destruct initial_json as [path|]; [|by split_and!].
    unfold set_dataset. destruct (load_json_dataset path w) as [[dataset|exc] w'];
      simpl; [|by split_and!].
    by apply (show_in_pandasgui_consistent _ _ path). }
  revert Hinit. generalize (new_window show_available initial_json w).1 as self.
  generalize (new_window show_available initial_json w).2 as w0.
  induction actions as [|a actions IH]; intros w0 self Hself; simpl; [done|].
  pose proof (press_consistent a self w0 Hself) as Hnext.
  destruct (press show_available Path_of a self w0) as [self' w1]. by apply IH.
Qed.

Lemma press_unchanged (a : action) (self : ReportGui) (w : World) (q : Path) :
  q ≠ ["Reports"] → (∀ file, q ≠ ["Reports"; file]) →
  fs (press show_available Path_of a self w).2 !! q = fs w !! q.
Proof.
  intros Hdir Hfile.
  assert (∀ path, (load_json_dataset path w).2 = w) as Hload
    by (intros path; apply load_json_dataset_world).
  destruct a as [selection | | ]; simpl.
  - unfold browse. destruct (decide (selection = "")); [done|]. unfold set_dataset.
    specialize (Hload (Path_of selection)).
    destruct (load_json_dataset (Path_of selection) w) as [[dataset|exc] w'];
      simpl in *; by subst.
  - unfold open_in_gui. destruct (_json_path self) as [path|]; [|done].
    specialize (Hload path).
    destruct (load_json_dataset path w) as [[dataset|exc] w']; simpl in *; by subst.
  - unfold generate_report. destruct (_json_path self) as [path|]; [|done].
    pose proof (generate_pdf_report_unchanged
                  {| json_path := path; report_dir := DEFAULT_REPORT_DIR; title := None |}
                  w q) as Hsame.
    destruct (generate_pdf_report _ w) as [[report|exc] w']; simpl in *;
      (apply Hsame; [by intros ?%list_elem_of_singleton | apply Hfile]).
Qed.

(** X17: whatever buttons are pressed, in whatever order and with whatever
    files chosen, the window changes nothing in the file system outside
    "Reports": every path other than that directory and the files placed
    directly in it holds after the session what it held before. *)
Theorem session_writes_only_reports (actions : list action) (self : ReportGui)
    (w : World) (q : Path) :
  q ≠ ["Reports"] → (∀ file, q ≠ ["Reports"; file]) →
  fs (session show_available Path_of actions self w).2 !! q = fs w !! q.
Proof.
  intros Hdir Hfile. revert self w.
  induction actions as [|a actions IH]; intros self w; simpl; [done|].
  pose proof (press_unchanged a self w q Hdir Hfile) as Hpress.
  destruct (press show_available Path_of a self w) as [self' w1]. simpl in Hpress.
  by rewrite IH.
Qed.

(** X18: the selection changes only when a file chosen in the dialog
    loads: if a press of a button leaves another selected path than before,
    the button was Browse, the dialog returned a non-empty name, the loader
    accepted that file, and the new selection is its path.  A file that
    does not load leaves the earlier selection in place. *)
Theorem press_selection (a : action) (self : ReportGui) (w : World) :
  _json_path (press show_available Path_of a self w).1 ≠ _json_path self →
  ∃ selection df,
    a = Browse selection ∧ selection ≠ "" ∧
    (load_json_dataset (Path_of selection) w).1 = Return df ∧
    _json_path (press show_available Path_of a self w).1 = Some (Path_of selection).
Proof.
  destruct a as [selection | | ]; simpl.
  - unfold browse. destruct (decide (selection = "")); [done|]. unfold set_dataset.
    destruct (load_json_dataset (Path_of selection) w) as [[dataset|exc] w'] eqn:Hload;
      simpl; [|done].
    intros _. exists selection, dataset. split_and!; [done|done|by rewrite Hload|].
    by destruct (show_in_pandasgui_fields
                   {| _json_path := Some (Path_of selection); _gui := _gui self;
                      status_var := StatusLoaded (index_len dataset)
                                                 (length (columns dataset));
                      path_var := Some (Path_of selection); events := events self |}
                   dataset) as (-> & _).
  - unfold open_in_gui. destruct (_json_path self) as [path|] eqn:Hsel;
      [|simpl; by rewrite Hsel].
    destruct (load_json_dataset path w) as [[dataset|exc] w']; simpl;
      [|by rewrite Hsel].
    destruct (show_in_pandasgui_fields self dataset) as (-> & _). by rewrite Hsel.
  - unfold generate_report. destruct (_json_path self) as [path|] eqn:Hsel;
      [|simpl; by rewrite Hsel].
    destruct (generate_pdf_report _ w) as [[report|exc] w']; simpl; by rewrite Hsel.
Qed.

Lemma press_truthful (a : action) (self : ReportGui) (w : World) :
  status_truthful self w →
  status_truthful (press show_available Path_of a self w).1
                  (press show_available Path_of a self w).2.
Proof.
  intros Hself.
  assert (∀ st e w', status_truthful (set_status (StatusText st) (emit e self)) w')
    as Hquiet by (intros st e w' p; simpl; discriminate).
  assert (∀ shown dataset w',
            status_truthful (_show_in_pandasgui show_available shown dataset) w')
    as Hshown.
  { intros shown dataset w' p.
    destruct (show_in_pandasgui_fields shown dataset) as (_ & _ & [text ->] & _).
    discriminate. }
  destruct a as [selection | | ]; simpl.
  - unfold browse. destruct (decide (selection = "")); [done|]. unfold set_dataset.
    destruct (load_json_dataset (Path_of selection) w) as [[dataset|exc] w']; simpl;
      [apply Hshown|apply Hquiet].
  - unfold open_in_gui. destruct (_json_path self) as [path|] eqn:Hsel; [|done].
    destruct (load_json_dataset path w) as [[dataset|exc] w']; simpl;
      [apply Hshown|apply Hquiet].
  - unfold generate_report. destruct (_json_path self) as [path|] eqn:Hsel; [|done].
    destruct (generate_pdf_report _ w) as [[report|exc] w'] eqn:Hrun; simpl;
      [|apply Hquiet].
    intros p [= <-]. simpl. rewrite Hsel.
    pose proof (generate_pdf_report_written _ _ _ _ Hrun) as [_ Hfile].
    apply generate_pdf_report_Return in Hrun as [Hp _].
    split_and!; [by eexists| |done]. rewrite Hp. by eexists.
Qed.

(** X20: through any session, from the opening of the window on, the
    status line announces no report that is not there: whenever it reads
    that a report was saved at a path, a dataset is selected, the path lies
    directly in "Reports", and the file system holds a document there. *)
Theorem session_status_truthful (initial_json : option Path) (actions : list action)
    (w : World) :
  let opened := new_window show_available initial_json w in
  let final := session show_available Path_of actions opened.1 opened.2 in
  status_truthful final.1 final.2.
Proof.
  simpl.
  assert (status_truthful (new_window show_available initial_json w).1
                          (new_window show_available initial_json w).2) as Hinit.
  { unfold new_window. destruct initial_json as [path|]; [|by intros p].
    unfold set_dataset. destruct (load_json_dataset path w) as [[dataset|exc] w'];
      simpl; [|by intros p].
    intros p.
    destruct (show_in_pandasgui_fields
                {| _json_path := Some path; _gui := None;
                   status_var := StatusLoaded (index_len dataset)
                                              (length (columns dataset));
                   path_var := Some path; events := [] |} dataset)
      as (_ & _ & [text ->] & _).
    discriminate. }
  revert Hinit. generalize (new_window show_available initial_json w).1 as self.
  generalize (new_window show_available initial_json w).2 as w0.
  induction actions as [|a actions IH]; intros w0 self Hself; simpl; [done|].
  pose proof (press_truthful a self w0 Hself) as Hnext.
  destruct (press show_available Path_of a self w0) as [self' w1]. by apply IH.
Qed.

End window_facts.

Lemma session_writes_only_reports_witness :
  fs (@session true single_component reference_library
        [Browse "sample_data.json"; GeneratePdfReport; Browse "missing.json"]
        (new_window true None sample_world).1
        {| fs := {[ ["sample_data.json"] := JsonFile (VList sample_records) ]};
           time := λ _, noon; reads := 0 |}).2
  !! ["sample_data.json"]
  = Some (JsonFile (VList sample_records)).
Proof.
  rewrite session_writes_only_reports; [by vm_compute|discriminate|discriminate].
Defined.

Lemma press_selection_witness :
  ∃ selection df,
    Browse "sample_data.json" = Browse selection ∧ selection ≠ "" ∧
    (load_json_dataset (single_component selection)
       {| fs := {[ ["sample_data.json"] := JsonFile (VList sample_records) ]};
          time := λ _, noon; reads := 0 |}).1 = Return df ∧
    _json_path (@press true single_component reference_library
                  (Browse "sample_data.json")
                  (new_window true None sample_world).1
                  {| fs := {[ ["sample_data.json"] := JsonFile (VList sample_records) ]};
                     time := λ _, noon; reads := 0 |}).1
    = Some (single_component selection).
Proof.
  apply (press_selection true single_component). vm_compute. discriminate.
Defined.

(** A session: the file loads and is shown, a report is written, then a
    file that does not exist is chosen and the selection stays. *)
Example session_sample :
  let run := @session true single_component reference_library
               [Browse "sample_data.json"; GeneratePdfReport; Browse "missing.json"]
               (new_window true None sample_world).1
               {| fs := {[ ["sample_data.json"] := JsonFile (VList sample_records) ]};
                  time := λ _, noon; reads := 0 |} in
  _json_path run.1 = Some ["sample_data.json"] ∧
  _gui run.1 = Some "sample_data.json" ∧
  status_var run.1 = StatusText "Dataset loading failed." ∧
  events run.1 =
    [gui_show "sample_data.json" sample_frame;
     showinfo "Report generated" ["Reports"; "report_20240101_120000.pdf"];
     showerror "Failed to load dataset" (FileNotFoundError ["missing.json"])].
Proof. by vm_compute. Qed.

Lemma session_consistent_witness :
  window_consistent false
    (@session false single_component reference_library
       [Browse "sample_data.json"; OpenInPandasGUI; GeneratePdfReport]
       (new_window false (Some ["sample_data.json"]) sample_world).1
       (new_window false (Some ["sample_data.json"]) sample_world).2).1.
Proof.
  apply (session_consistent false single_component (Some ["sample_data.json"])).
Defined.

Lemma session_status_truthful_witness :
  ∃ pages,
    fs (@session false single_component reference_library
          [GeneratePdfReport; Browse ""]
          (new_window false (Some ["sample_data.json"])
             {| fs := {[ ["sample_data.json"] := JsonFile (VList sample_records) ]};
                time := λ _, noon; reads := 0 |}).1
          (new_window false (Some ["sample_data.json"])
             {| fs := {[ ["sample_data.json"] := JsonFile (VList sample_records) ]};
                time := λ _, noon; reads := 0 |}).2).2
    !! ["Reports"; "report_20240101_120000.pdf"] = Some (PdfFile pages).
Proof.
  apply (session_status_truthful false single_component (H:=reference_library)
           (Some ["sample_data.json"]) [GeneratePdfReport; Browse ""]
           {| fs := {[ ["sample_data.json"] := JsonFile (VList sample_records) ]};
              time := λ _, noon; reads := 0 |}).
  by vm_compute.
Defined.
